(** * chesscom-rating-chart: the rating pipeline of [app.py]

    A shallow embedding of the Flask application [app.py]: the TTL cache
    [SimpleCache], the three upstream look-ups ([get_user_profile],
    [get_user_archives], [get_single_month_games]), the observation
    extractor [extract_game_data], the daily OHLC aggregation of
    [create_candlestick_chart], the orchestrator [fetch_and_process_games]
    and the request handler [index].

    Conventions of the embedding.
    - Integers are [Z]; a calendar date is its day number (a [Z]), a naive
      local datetime is its number of seconds, so that [ts.date()] is the
      floor division by 86400.
    - A pandas column that may hold NaN is a list of [option Z].
    - JSON bodies are typed records whose optional keys are [option]s
      ([dict.get] with a default is a match on the option).
    - Strings are Rocq strings (bytes).  White space and case are those of
      ASCII: [str_strip] and [str_lower] are [str.strip] and [str.lower] on
      strings of ASCII characters.  Python also strips the white space
      beyond ASCII (U+0085, U+00A0, ...) and converts letters beyond ASCII;
      a statement that needs the two functions on an arbitrary posted field
      assumes the field to be ASCII ([str_isascii]).
    - The range limits of [datetime] and of pandas timestamps, and the
      floating point nature of [time.time()], are outside the embedding:
      [fromtimestamp] is defined on every integer, where Python raises for
      a local time outside the years 1 to 9999.  A statement that needs the
      extraction and the chart to go through on arbitrary games restricts
      their end times ([ordinary_end_time]).
    - The worker pool is modelled by what it returns: the results of the
      tasks in task order.  The order in which the requests of concurrent
      tasks go out is not fixed by the code; the model logs them in task
      order, one of the orders the pool can produce.
    - Logging calls have no effect on results and are left out. *)

From Stdlib Require Import ZArith Lia List Ascii String Sorting.Sorted Sorting.Permutation.
From stdpp Require Import base decidable option list numbers strings pretty gmap fin_maps.

Open Scope Z_scope.

(** ** Observations and daily bars *)

(** One dictionary appended by [extract_game_data], one row of the
    DataFrame.  The [year] and [month] entries are functions of [timestamp]
    that no later code reads; they are not carried. *)
Record Row := mkRow { date : Z; rating : Z; timestamp : Z }.

#[global] Instance Row_eq_dec : EqDecision Row.
Proof. solve_decision. Defined.

(** One row of the OHLC frame; [None] is NaN. *)
Record DailyBar := mkBar {
  bar_date : Z;
  open : option Z;
  high : option Z;
  low : option Z;
  close : option Z
}.

Record Figure := mkFigure { fig_title : string; fig_data : list DailyBar }.

(** ** [df.sort_values('timestamp')]

    Rows in ascending timestamp order.  Rows with equal timestamps keep
    their relative input order (what numpy's sort does on short columns);
    the theorems on single bars do not depend on how ties are broken. *)
Fixpoint insert_row (r : Row) (l : list Row) : list Row :=
  match l with
  | [] => [r]
  | x :: l' =>
      if bool_decide (timestamp r ≤ timestamp x) then r :: x :: l'
      else x :: insert_row r l'
  end.

Definition sort_values (df : list Row) : list Row := foldr insert_row [] df.

(** ** [df.groupby('date')['rating'].agg(...)] *)

(** The group keys: the distinct dates, ascending. *)
Fixpoint insert_key (d : Z) (ks : list Z) : list Z :=
  match ks with
  | [] => [d]
  | k :: ks' =>
      if bool_decide (d < k) then d :: k :: ks'
      else if bool_decide (d = k) then k :: ks'
      else k :: insert_key d ks'
  end.

Definition group_keys (df : list Row) : list Z := foldr insert_key [] (date <$> df).

(** The ratings of one group, in frame order. *)
Definition group_ratings (d : Z) (df : list Row) : list Z :=
  rating <$> filter (λ r, date r = d) df.

Definition agg_first (xs : list Z) : option Z := head xs.
Definition agg_last (xs : list Z) : option Z := last xs.
Definition agg_max (xs : list Z) : option Z :=
  match xs with [] => None | x :: xs' => Some (foldl Z.max x xs') end.
Definition agg_min (xs : list Z) : option Z :=
  match xs with [] => None | x :: xs' => Some (foldl Z.min x xs') end.

Definition group_bar (df : list Row) (d : Z) : DailyBar :=
  let g := group_ratings d df in
  {| bar_date := d; open := agg_first g; high := agg_max g;
     low := agg_min g; close := agg_last g |}.

Definition groupby_agg (df : list Row) : list DailyBar :=
  group_bar df <$> group_keys df.

(** ** [pd.date_range(start, end, freq='D')] *)
Definition date_range (start stop : Z) : list Z := seqZ start (stop - start + 1).

(** ** [left.merge(right, on='date', how='left')]

    Every left date, in order, with each right row of that date, or with
    NaN columns when there is none. *)
Definition nan_bar (d : Z) : DailyBar :=
  {| bar_date := d; open := None; high := None; low := None; close := None |}.

Definition merge_left (dates : list Z) (right : list DailyBar) : list DailyBar :=
  d ← dates;
  match filter (λ b, bar_date b = d) right with
  | [] => [nan_bar d]
  | ms => ms
  end.

(** ** [Series.ffill()] *)
Fixpoint ffill_from (prev : option Z) (xs : list (option Z)) : list (option Z) :=
  match xs with
  | [] => []
  | x :: xs' =>
      let v := match x with Some _ => x | None => prev end in
      v :: ffill_from v xs'
  end.

Definition ffill (xs : list (option Z)) : list (option Z) := ffill_from None xs.

(** The four masked assignments: where [open] is NaN, all of open, high,
    low and close take the forward-filled close. *)
Definition fill_missing (b : DailyBar) (close_ffill : option Z) : DailyBar :=
  match open b with
  | None => {| bar_date := bar_date b; open := close_ffill; high := close_ffill;
               low := close_ffill; close := close_ffill |}
  | Some _ => b
  end.

(** ** [str.title()] on ASCII *)
Definition is_upper (c : ascii) : bool :=
  let n := Ascii.N_of_ascii c in ((65 <=? n) && (n <=? 90))%N.
Definition is_lower (c : ascii) : bool :=
  let n := Ascii.N_of_ascii c in ((97 <=? n) && (n <=? 122))%N.
Definition ascii_lower (c : ascii) : ascii :=
  if is_upper c then Ascii.ascii_of_N (Ascii.N_of_ascii c + 32) else c.
Definition ascii_upper (c : ascii) : ascii :=
  if is_lower c then Ascii.ascii_of_N (Ascii.N_of_ascii c - 32) else c.

Fixpoint str_lower (s : string) : string :=
  match s with
  | EmptyString => EmptyString
  | String c s' => String (ascii_lower c) (str_lower s')
  end.

Fixpoint title_from (prev_cased : bool) (s : string) : string :=
  match s with
  | EmptyString => EmptyString
  | String c s' =>
      if is_upper c || is_lower c
      then String (if prev_cased then ascii_lower c else ascii_upper c) (title_from true s')
      else String c (title_from false s')
  end.

Definition str_title (s : string) : string := title_from false s.

(** ** [create_candlestick_chart] *)

(** Lines 177-192: the full date range, the left merge, the forward fill
    of [close] and the masked assignments. *)
Definition complete_ohlc (ohlc_df : list DailyBar) : list DailyBar :=
  match bar_date <$> ohlc_df with
  | [] => []
  | d :: ds =>
      let all_dates := date_range (foldl Z.min d ds) (foldl Z.max d ds) in
      let ohlc_complete := merge_left all_dates ohlc_df in
      let close_ffill := ffill (close <$> ohlc_complete) in
      zip_with fill_missing ohlc_complete close_ffill
  end.

Definition create_candlestick_chart (df : list Row) (time_control : string)
  : option Figure :=
  match df with
  | [] => None
  | _ =>
      let df := sort_values df in
      let ohlc_df := groupby_agg df in
      match ohlc_df with
      | [] => None
      | _ =>
          let ohlc_complete := complete_ohlc ohlc_df in
          Some {| fig_title := str_title time_control +:+ " Rating History";
                  fig_data := ohlc_complete |}
      end
  end.

(** ** [SimpleCache]

    The dictionary [self.cache] maps a key to the pair of the value and
    the clock reading at insertion.  The reading of [time.time()] is the
    argument [now] of the two methods. *)
Record SimpleCache (V : Type) := mkCache {
  cache : gmap string (V * Z);
  timeout : Z
}.
Arguments mkCache {V} _ _.
Arguments cache {V} _.
Arguments timeout {V} _.

Definition SimpleCache_init {V : Type} (timeout : Z) : SimpleCache V :=
  {| cache := ∅; timeout := timeout |}.

Definition SimpleCache_get {V : Type} (now : Z) (key : string) (self : SimpleCache V)
  : option V * SimpleCache V :=
  match cache self !! key with
  | Some (value, inserted) =>
      if bool_decide (now - inserted < timeout self) then (Some value, self)
      else (None, {| cache := delete key (cache self); timeout := timeout self |})
  | None => (None, self)
  end.

Definition SimpleCache_set {V : Type} (now : Z) (key : string) (value : V)
  (self : SimpleCache V) : SimpleCache V :=
  {| cache := <[key := (value, now)]> (cache self); timeout := timeout self |}.

(** ** Upstream data *)

Record Player := mkPlayer {
  player_username : option string;
  player_rating : option Z
}.

Record Game := mkGame {
  white : option Player;
  black : option Player;
  end_time : option Z;
  time_class : option string
}.

(** The decoded JSON object of a response, with the two keys the code reads. *)
Record Body := mkBody {
  archives : option (list string);
  games : option (list Game)
}.

Record Response := mkResponse { status_code : Z; json : Body }.

(** What [session.get] does: it returns a response or raises a
    [RequestException] (retries exhausted, connection failure, timeout). *)
Inductive outcome :=
| Returned (response : Response)
| Failed (msg : string).

Inductive exn :=
| ChessAPIError (msg : string)
| RequestException (msg : string)
| KeyError (key : string)
| IndexError
| ValueError
| BadRequestKeyError (key : string).

Inductive result (A : Type) :=
| Ok (a : A)
| Raise (e : exn).
Arguments Ok {A} _.
Arguments Raise {A} _.

#[global] Instance result_ret : MRet result := λ A a, Ok a.
#[global] Instance result_bind : MBind result := λ A B f m,
  match m with Ok a => f a | Raise e => Raise e end.

(** ** Strings: [strip], [split], [int] *)

(** The ASCII characters [str.isspace] accepts. *)
Definition is_space (c : ascii) : bool :=
  let n := Ascii.N_of_ascii c in
  (((9 <=? n) && (n <=? 13)) || ((28 <=? n) && (n <=? 32)))%N.

Fixpoint lstrip (s : string) : string :=
  match s with
  | String c s' => if is_space c then lstrip s' else s
  | EmptyString => EmptyString
  end.

Fixpoint rstrip (s : string) : string :=
  match s with
  | EmptyString => EmptyString
  | String c s' =>
      match rstrip s' with
      | EmptyString => if is_space c then EmptyString else String c EmptyString
      | t => String c t
      end
  end.

(** [s.strip()] on a string of ASCII characters.  (On other strings
    Python also strips the white space beyond ASCII, which this function
    leaves in place.) *)
Definition str_strip (s : string) : string := rstrip (lstrip s).

(** [s.split(sep)] for a one-character separator: never empty. *)
Fixpoint str_split (sep : ascii) (s : string) : list string :=
  match s with
  | EmptyString => [EmptyString]
  | String c s' =>
      if bool_decide (c = sep) then EmptyString :: str_split sep s'
      else match str_split sep s' with
           | p :: ps => String c p :: ps
           | [] => [String c EmptyString]
           end
  end.

Definition digit_of (c : ascii) : option Z :=
  let n := Ascii.N_of_ascii c in
  if ((48 <=? n) && (n <=? 57))%N then Some (Z.of_N n - 48) else None.

(** Decimal digits with single underscores between digits. [acc] is the
    value so far, [after_digit] tells whether the last character was a digit. *)
Fixpoint int_digits (acc : Z) (after_digit : bool) (s : string) : option Z :=
  match s with
  | EmptyString => if after_digit then Some acc else None
  | String c s' =>
      match digit_of c with
      | Some d => int_digits (10 * acc + d) true s'
      | None =>
          if bool_decide (c = "_"%char) && after_digit
          then match s' with
               | EmptyString => None
               | String c' _ =>
                   match digit_of c' with
                   | Some _ => int_digits acc false s'
                   | None => None
                   end
               end
          else None
      end
  end.

(** [int(s)]: surrounding whitespace, an optional sign, decimal digits;
    [ValueError] otherwise. *)
Definition py_int (s : string) : result Z :=
  let body := str_strip s in
  let parsed :=
    match body with
    | String "-" s' => Z.opp <$> int_digits 0 false s'
    | String "+" s' => int_digits 0 false s'
    | _ => int_digits 0 false body
    end in
  match parsed with Some z => Ok z | None => Raise ValueError end.

(** [f"{month:02d}"] *)
Definition format_02d (n : Z) : string :=
  let s := pretty n in
  if bool_decide (String.length s < 2)%nat then "0" +:+ s else s.

(** ** [validate_username] *)
Definition is_username_char (c : ascii) : bool :=
  is_lower c || is_upper c || bool_decide (digit_of c ≠ None)
  || bool_decide (c = "_"%char) || bool_decide (c = "-"%char).

(** [re.match(r'^[a-zA-Z0-9_-]+$', s)]: one or more allowed characters up
    to the end, where [$] also matches just before a final newline. *)
Fixpoint match_tail (s : string) : bool :=
  match s with
  | EmptyString => true
  | String c s' =>
      if is_username_char c then match_tail s'
      else bool_decide (c = "010"%char) && bool_decide (s' = EmptyString)
  end.

Definition re_match_username (s : string) : bool :=
  match s with
  | String c s' => is_username_char c && match_tail s'
  | EmptyString => false
  end.

Definition validate_username (username : string) : bool :=
  if bool_decide (username = EmptyString)
     || bool_decide (String.length username < 2)%nat
     || bool_decide (30 < String.length username)%nat
  then false
  else re_match_username username.

(** ** The process state and the effects of the handlers *)

(** The module-level state: the requests sent through [session] so far,
    the memo table of [get_user_profile] ([lru_cache], most recent first),
    the result cache, and the number of clock readings taken. *)
Record State := mkState {
  http_log : list string;
  profile_memo : list (string * Body);
  store : SimpleCache string;
  ticks : nat
}.

(** A computation reads and changes the state and returns or raises. *)
Definition M (A : Type) : Type := State → result A * State.

#[global] Instance M_ret : MRet M := λ A a s, (Ok a, s).
#[global] Instance M_bind : MBind M := λ A B f m s,
  match m s with
  | (Ok a, s') => f a s'
  | (Raise e, s') => (Raise e, s')
  end.

#[global] Instance M_fmap : FMap M := λ A B f m s,
  match m s with
  | (Ok a, s') => (Ok (f a), s')
  | (Raise e, s') => (Raise e, s')
  end.

Definition raise {A : Type} (e : exn) : M A := λ s, (Raise e, s).

Definition lift {A : Type} (r : result A) : M A := λ s, (r, s).

(** [try: body except ...]: the handler is tried on the raised exception;
    [None] means that no clause matches and the exception goes on. *)
Definition try_except {A : Type} (body : M A) (handler : exn → option (M A)) : M A :=
  λ s, match body s with
       | (Ok a, s') => (Ok a, s')
       | (Raise e, s') =>
           match handler e with
           | Some h => h s'
           | None => (Raise e, s')
           end
       end.

(** [except requests.exceptions.RequestException as e] *)
Definition on_RequestException {A : Type} (h : string → M A) (e : exn) : option (M A) :=
  match e with RequestException msg => Some (h msg) | _ => None end.

Definition CHESS_API_BASE : string := "https://api.chess.com/pub/player".
Definition MAX_WORKERS : Z := 10.

(** The three URLs the look-ups build. *)
Definition profile_url (username : string) : string :=
  CHESS_API_BASE +:+ "/" +:+ username.
Definition archives_url (username : string) : string :=
  CHESS_API_BASE +:+ "/" +:+ username +:+ "/games/archives".
Definition games_url (username : string) (year month : Z) : string :=
  CHESS_API_BASE +:+ "/" +:+ username +:+ "/games/"
  +:+ pretty year +:+ "/" +:+ format_02d month.

(** The state after one more request has gone out. *)
Definition log_request (url : string) (s : State) : State :=
  {| http_log := http_log s ++ [url]; profile_memo := profile_memo s;
     store := store s; ticks := ticks s |}.

(** The truth value of an optional string: [None] and [""] are false. *)
Definition truthy (o : option string) : bool :=
  match o with
  | Some (String _ _) => true
  | _ => false
  end.

(** The pages [index] renders. *)
Inductive Page :=
| render_index (error : option string)
| render_chart (username time_control chart_html : string).

Record Request := mkRequest { method : string; form : gmap string string }.

Section World.

(** The world outside the process: what the upstream answers to a GET of
    a URL, what the clock shows at its n-th reading, the offset of local
    time from UTC at an instant, and plotly's HTML rendering. *)
Variable transport : string → outcome.
Variable clock : nat → Z.
Variable utcoffset : Z → Z.
Variable to_html : Figure → string.

(** [session.get(url, headers=headers, timeout=10)] *)
Definition session_get (url : string) : M Response := λ s,
  match transport url with
  | Returned response => (Ok response, log_request url s)
  | Failed msg => (Raise (RequestException msg), log_request url s)
  end.

(** [time.time()] *)
Definition time_time : M Z := λ s,
  (Ok (clock (ticks s)),
   {| http_log := http_log s; profile_memo := profile_memo s;
      store := store s; ticks := S (ticks s) |}).

(** [cache.get(key)] and [cache.set(key, value)] on the module's cache;
    [get] reads the clock only when the key is present. *)
Definition cache_get (key : string) : M (option string) := λ s,
  match cache (store s) !! key with
  | Some _ =>
      match time_time s with
      | (Ok now, s') =>
          let '(v, c) := SimpleCache_get now key (store s') in
          (Ok v, {| http_log := http_log s'; profile_memo := profile_memo s';
                    store := c; ticks := ticks s' |})
      | (Raise e, s') => (Raise e, s')
      end
  | None => (Ok None, s)
  end.

Definition cache_set (key value : string) : M unit := λ s,
  match time_time s with
  | (Ok now, s') =>
      (Ok (), {| http_log := http_log s'; profile_memo := profile_memo s';
                 store := SimpleCache_set now key value (store s');
                 ticks := ticks s' |})
  | (Raise e, s') => (Raise e, s')
  end.

(** *** [get_user_profile] *)

(** The decorated body. *)
Definition get_user_profile_body (username : string) : M Body :=
  let url := profile_url username in
  try_except
    (response ← session_get url;
     if bool_decide (status_code response = 200) then mret (json response)
     else if bool_decide (status_code response = 404)
          then raise (ChessAPIError "User not found")
          else raise (ChessAPIError ("API error: " +:+ pretty (status_code response))))
    (on_RequestException (λ msg, raise (ChessAPIError ("Network error: " +:+ msg)))).

Fixpoint memo_lookup (key : string) (memo : list (string * Body)) : option Body :=
  match memo with
  | [] => None
  | (k, v) :: memo' => if bool_decide (k = key) then Some v else memo_lookup key memo'
  end.

Definition memo_remove (key : string) (memo : list (string * Body)) : list (string * Body) :=
  filter (λ kv, kv.1 ≠ key) memo.

(** [@lru_cache(maxsize=128)]: a hit moves the entry to the front; a miss
    runs the body and stores its return value, dropping the least recently
    used entry past 128; a raised exception stores nothing. *)
Definition get_user_profile (username : string) : M Body := λ s,
  match memo_lookup username (profile_memo s) with
  | Some v =>
      (Ok v, {| http_log := http_log s;
                profile_memo := (username, v) :: memo_remove username (profile_memo s);
                store := store s; ticks := ticks s |})
  | None =>
      match get_user_profile_body username s with
      | (Ok v, s') =>
          (Ok v, {| http_log := http_log s';
                    profile_memo := take 128 ((username, v) :: profile_memo s');
                    store := store s'; ticks := ticks s' |})
      | (Raise e, s') => (Raise e, s')
      end
  end.

(** *** [get_user_archives] *)

(** One pass of the loop body: [parts[-2]] and [parts[-1]] of the split URL. *)
Definition parse_archive (archive : string) : result (Z * Z) :=
  let parts := str_split "/"%char archive in
  match reverse parts with
  | last_part :: before_last :: _ =>
      year ← py_int before_last;
      month ← py_int last_part;
      mret (year, month)
  | _ => Raise IndexError
  end.

Fixpoint parse_archives (archives : list string) : result (list (Z * Z)) :=
  match archives with
  | [] => mret []
  | archive :: rest =>
      ym ← parse_archive archive;
      months ← parse_archives rest;
      mret (ym :: months)
  end.

Definition get_user_archives (username : string) : M (list (Z * Z)) :=
  let url := archives_url username in
  try_except
    (response ← session_get url;
     if bool_decide (status_code response = 200) then
       let archives := default [] (archives (json response)) in
       lift (parse_archives archives)
     else mret [])
    (on_RequestException (λ _, mret [])).

(** *** [get_single_month_games] *)
Definition get_single_month_games (args : string * Z * Z * string) : M (list Game) :=
  let '(username, year, month, time_class_wanted) := args in
  try_except
    (let url := games_url username year month in
     response ← session_get url;
     if bool_decide (status_code response = 200) then
       let games := default [] (games (json response)) in
       mret (filter (λ g, time_class g = Some time_class_wanted) games)
     else mret [])
    (on_RequestException (λ _, mret [])).

(** *** [extract_game_data] *)

(** [datetime.datetime.fromtimestamp(end_time)]: the naive local time.
    Python raises ([ValueError], [OverflowError] or [OSError]) when that
    time is outside the years 1 to 9999 or the instant outside what the
    platform converts; the function below is what the call returns when it
    returns. *)
Definition fromtimestamp (end_time : Z) : Z := end_time + utcoffset end_time.

Definition empty_player : Player :=
  {| player_username := None; player_rating := None |}.

(** The loop over the games; the rows it appends, in order. *)
Fixpoint extract_rows (username_lower : string) (games : list Game) : result (list Row) :=
  match games with
  | [] => mret []
  | game :: rest =>
      let white_username :=
        str_lower (default "" (player_username (default empty_player (white game)))) in
      player_data ←
        (if bool_decide (white_username = username_lower)
         then match white game with Some p => Ok p | None => Raise (KeyError "white") end
         else match black game with Some p => Ok p | None => Raise (KeyError "black") end);
      let appended :=
        match end_time game with
        | Some e =>
            if bool_decide (e ≠ 0) then
              let ts := fromtimestamp e in
              [ {| date := ts `div` 86400;
                   rating := default 0 (player_rating player_data);
                   timestamp := ts |} ]
            else []
        | None => []
        end in
      data ← extract_rows username_lower rest;
      mret (appended ++ data)
  end.

Definition extract_game_data (games : list Game) (username : string) : result (list Row) :=
  match games with
  | [] => mret []
  | _ => extract_rows (str_lower username) games
  end.

(** *** [fetch_and_process_games] *)

(** [executor.map(get_single_month_games, month_requests)]: one result per
    request, in request order.  The tasks share no state but the request
    log.  The pool runs them concurrently, so the order in which their
    requests go out is not fixed by the code; they are entered in the log
    in task order here, which is one of the possible orders. *)
Fixpoint executor_map {A B : Type} (f : A → M B) (xs : list A) : M (list B) :=
  match xs with
  | [] => mret []
  | x :: xs' =>
      y ← f x;
      ys ← executor_map f xs';
      mret (y :: ys)
  end.

(** Lines 247-255: the fetch of all months and the merge of the results. *)
Definition fetch_all_games (username : string) (months : list (Z * Z))
  (time_control : string) : M (list Game) :=
  let month_requests :=
    (λ ym : Z * Z, (username, ym.1, ym.2, time_control)) <$> months in
  results ← executor_map get_single_month_games month_requests;
  mret (concat results).

Definition fetch_and_process_games (username time_control : string)
  : M (option Figure * option string) :=
  try_except
    (user_profile ← get_user_profile username;
     months ← get_user_archives username;
     match months with
     | [] => mret (None, Some "No games found for this user.")
     | _ =>
         all_games ← fetch_all_games username months time_control;
         game_data ← lift (extract_game_data all_games username);
         match game_data with
         | [] => mret (None, Some ("No " +:+ time_control +:+ " games found for "
                                   +:+ username +:+ "."))
         | _ =>
             let df := game_data in
             match create_candlestick_chart df time_control with
             | Some fig => mret (Some fig, None)
             | None => mret (None, Some "Failed to create chart.")
             end
         end
     end)
    (λ e, match e with
          | ChessAPIError msg => Some (mret (None, Some msg))
          | _ => Some (mret (None, Some "An unexpected error occurred."))
          end).

(** *** [index] *)
Definition form_get (request : Request) (key : string) : M string :=
  match form request !! key with
  | Some v => mret v
  | None => raise (BadRequestKeyError key)
  end.

Definition index (request : Request) : M Page :=
  if bool_decide (method request = "POST") then
    username ← str_strip <$> form_get request "username";
    time_control ← (λ v, str_lower (str_strip v)) <$> form_get request "time_control";
    if negb (validate_username username) then
      mret (render_index (Some "Invalid username format."))
    else if negb (bool_decide (time_control ∈ ["bullet"; "blitz"; "rapid"; "daily"])) then
      mret (render_index (Some "Invalid time control selected."))
    else
      let cache_key := username +:+ "_" +:+ time_control in
      cached_result ← cache_get cache_key;
      if truthy cached_result then
        mret (render_chart username time_control (default "" cached_result))
      else
        '(fig, error) ← fetch_and_process_games username time_control;
        if truthy error then mret (render_index error)
        else match fig with
             | Some fig =>
                 let chart_html := to_html fig in
                 _ ← cache_set cache_key chart_html;
                 mret (render_chart username time_control chart_html)
             | None => mret (render_index (Some "Failed to create chart."))
             end
  else mret (render_index None).

End World.

(** ** Notions used to state the properties *)

(** The answer of the upstream was not a 200: another status, or no
    response at all. *)
Definition not_ok (o : outcome) : Prop :=
  match o with
  | Returned response => status_code response ≠ 200
  | Failed _ => True
  end.

(** The archive look-up has no period to give: no 200, or a 200 whose
    archive list is empty or absent. *)
Definition no_archives (o : outcome) : Prop :=
  match o with
  | Returned response =>
      status_code response ≠ 200 ∨ default [] (archives (json response)) = []
  | Failed _ => True
  end.

(** The state after a list of requests has gone out, in order. *)
Definition log_requests (urls : list string) (s : State) : State :=
  foldl (λ s url, log_request url s) s urls.

(** A computation that leaves the result cache as it found it. *)
Definition keeps_store {A : Type} (m : M A) : Prop :=
  ∀ s, store (m s).2 = store s.

(** ** Sample inputs *)

(** [end_time] is absent or zero: what [if end_time:] rejects. *)
Definition falsy_end_time (game : Game) : Prop :=
  end_time game = None ∨ end_time game = Some 0.

(** A game record with both players and no rating to report at epoch zero. *)
Definition epoch_zero_game : Game :=
  {| white := Some {| player_username := Some "Bob"; player_rating := Some 1500 |};
     black := Some {| player_username := Some "alice"; player_rating := Some 1400 |};
     end_time := Some 0;
     time_class := Some "blitz" |}.


(** Observations on 2024-01-01 (day 19723) and 2024-01-03. *)
Definition two_days : list Row :=
  [ {| date := 19725; rating := 1050; timestamp := 19725 * 86400 + 36000 |};
    {| date := 19723; rating := 1000; timestamp := 19723 * 86400 + 3600 |} ].

(** Two games that ended in the same second of 2024-02-05, in both orders. *)
Definition tied_rows : list Row :=
  [ {| date := 19758; rating := 900; timestamp := 19758 * 86400 + 28800 |};
    {| date := 19758; rating := 950; timestamp := 19758 * 86400 + 28800 |} ].
Definition tied_rows_swapped : list Row :=
  [ {| date := 19758; rating := 950; timestamp := 19758 * 86400 + 28800 |};
    {| date := 19758; rating := 900; timestamp := 19758 * 86400 + 28800 |} ].

(** The state of a fresh process. *)
Definition fresh_state : State :=
  {| http_log := []; profile_memo := []; store := SimpleCache_init 300; ticks := 0 |}.

Definition empty_body : Body := {| archives := None; games := None |}.

(** An upstream that knows no player: every GET is answered 404. *)
Definition upstream_404 (url : string) : outcome :=
  Returned {| status_code := 404; json := empty_body |}.

(** An upstream that cannot be reached. *)
Definition upstream_down (url : string) : outcome := Failed "Max retries exceeded".

(** An upstream that knows the player [bob] and lists two months for him,
    but denies one month and cannot be reached for the other. *)
Definition upstream_bad_months (url : string) : outcome :=
  if bool_decide (url = profile_url "bob") then
    Returned {| status_code := 200; json := empty_body |}
  else if bool_decide (url = archives_url "bob") then
    Returned {| status_code := 200;
                json := {| archives := Some [ "https://api.chess.com/pub/player/bob/games/2024/01";
                                              "https://api.chess.com/pub/player/bob/games/2024/02" ];
                           games := None |} |}
  else if bool_decide (url = games_url "bob" 2024 1) then
    Returned {| status_code := 403; json := empty_body |}
  else Failed "Max retries exceeded".

Definition utc (instant : Z) : Z := 0.


(** Ascending timestamps. *)
Definition ts_le (a b : Row) : Prop := timestamp a ≤ timestamp b.

(** The row the left merge produces for a date: the bar of its group, or
    NaN columns. *)
Definition merged_row (df : list Row) (d : Z) : DailyBar :=
  if decide (d ∈ group_keys df) then group_bar df d else nan_bar d.

(** The completed frame over the dates from [lo] to [hi]. *)
Definition full_frame (df : list Row) (lo hi : Z) : list DailyBar :=
  zip_with fill_missing (merged_row df <$> date_range lo hi)
    (ffill (close <$> (merged_row df <$> date_range lo hi))).

(** The bar written on a day without observations. *)
Definition flat_bar (d : Z) (c : option Z) : DailyBar :=
  {| bar_date := d; open := c; high := c; low := c; close := c |}.

(** Two observations of 2024-02-05, at 08:00 and at 20:00. *)
Definition one_day : list Row :=
  [ {| date := 19758; rating := 900; timestamp := 19758 * 86400 + 28800 |};
    {| date := 19758; rating := 950; timestamp := 19758 * 86400 + 72000 |} ].

(** An upstream that knows [bob], lists January 2024 for him and has two
    blitz games and one rapid game of his in that month. *)
Definition bob_games : list Game :=
  [ {| white := Some {| player_username := Some "Bob"; player_rating := Some 1510 |};
       black := Some {| player_username := Some "alice"; player_rating := Some 1400 |};
       end_time := Some 1704103200;
       time_class := Some "blitz" |};
    {| white := Some {| player_username := Some "carol"; player_rating := Some 1600 |};
       black := Some {| player_username := Some "bob"; player_rating := Some 1498 |};
       end_time := Some 1704276000;
       time_class := Some "blitz" |};
    {| white := Some {| player_username := Some "bob"; player_rating := Some 1700 |};
       black := Some {| player_username := Some "dave"; player_rating := Some 1650 |};
       end_time := Some 1704190000;
       time_class := Some "rapid" |} ].

Definition upstream_bob (url : string) : outcome :=
  if bool_decide (url = profile_url "bob") then
    Returned {| status_code := 200; json := empty_body |}
  else if bool_decide (url = archives_url "bob") then
    Returned {| status_code := 200;
                json := {| archives := Some [ "https://api.chess.com/pub/player/bob/games/2024/01" ];
                           games := None |} |}
  else if bool_decide (url = games_url "bob" 2024 1) then
    Returned {| status_code := 200;
                json := {| archives := None; games := Some bob_games |} |}
  else Returned {| status_code := 404; json := empty_body |}.

(** A form posted for [bob] and blitz games, a clock that stands still and
    a renderer that writes a fixed fragment. *)
Definition bob_blitz_request : Request :=
  {| method := "POST";
     form := {[ "username" := " bob "; "time_control" := "Blitz" ]} |}.
Definition still_clock (n : nat) : Z := 1000.
Definition plain_html (fig : Figure) : string := "<div></div>".

(** ** Further notions *)

(** Every character is one of [a-zA-Z0-9_-]. *)
Fixpoint all_username_chars (s : string) : bool :=
  match s with
  | EmptyString => true
  | String c s' => is_username_char c && all_username_chars s'
  end.

(** The [end_time] of a game that passes [if end_time:]. *)
Definition kept_end_time (game : Game) : option Z :=
  match end_time game with
  | Some e => if bool_decide (e ≠ 0) then Some e else None
  | None => None
  end.

(** The four modes [index] accepts. *)
Definition time_controls : list string := ["bullet"; "blitz"; "rapid"; "daily"].

(** The key under which [index] caches a chart. *)
Definition cache_key (username time_control : string) : string :=
  username +:+ "_" +:+ time_control.

(** The last character of a string. *)
Fixpoint last_char (s : string) : option ascii :=
  match s with
  | EmptyString => None
  | String c EmptyString => Some c
  | String _ s' => last_char s'
  end.

(** No character of the string is the given one. *)
Fixpoint lacks_char (sep : ascii) (s : string) : bool :=
  match s with
  | EmptyString => true
  | String c s' => negb (bool_decide (c = sep)) && lacks_char sep s'
  end.

(** No character of the string is white space. *)
Fixpoint lacks_space (s : string) : bool :=
  match s with
  | EmptyString => true
  | String c s' => negb (is_space c) && lacks_space s'
  end.

(** Every character is a decimal digit. *)
Fixpoint all_digits (s : string) : bool :=
  match s with
  | EmptyString => true
  | String c s' => bool_decide (digit_of c ≠ None) && all_digits s'
  end.

(** The messages [get_user_profile] raises. *)
Definition profile_error_message (msg : string) : Prop :=
  msg = "User not found"
  ∨ (∃ status : Z, msg = "API error: " +:+ pretty status)
  ∨ (∃ reason : string, msg = "Network error: " +:+ reason).

(** The messages [fetch_and_process_games] returns in place of a figure. *)
Definition orchestrator_message (username time_control msg : string) : Prop :=
  msg = "No games found for this user."
  ∨ msg = "No " +:+ time_control +:+ " games found for " +:+ username +:+ "."
  ∨ msg = "An unexpected error occurred."
  ∨ profile_error_message msg.

(** A game record that lacks its black player. *)
Definition game_without_black : Game :=
  {| white := Some {| player_username := Some "alice"; player_rating := Some 1400 |};
     black := None;
     end_time := None;
     time_class := Some "blitz" |}.

(** A store that holds a chart for [bob] and blitz, inserted at time 900. *)
Definition warm_state : State :=
  {| http_log := []; profile_memo := [];
     store := SimpleCache_set 900 "bob_blitz" "<div>cached</div>" (SimpleCache_init 300);
     ticks := 0 |}.

(** A form with a user name that is not well formed. *)
Definition bad_name_request : Request :=
  {| method := "POST";
     form := {[ "username" := "b/ob"; "time_control" := "blitz" ]} |}.

(** An upstream whose archive list has an entry that is no URL. *)
Definition upstream_bad_archive (url : string) : outcome :=
  if bool_decide (url = archives_url "bob") then
    Returned {| status_code := 200;
                json := {| archives := Some [ "2024-01" ]; games := None |} |}
  else Returned {| status_code := 200; json := empty_body |}.

(** An upstream that answers every request with a server-side refusal. *)
Definition upstream_403 (url : string) : outcome :=
  Returned {| status_code := 403; json := empty_body |}.

(** The games of a mode that the upstream serves for a period: those of a
    200 answer, none otherwise. *)
Definition served_games (transport : string → outcome)
  (username time_control : string) (ym : Z * Z) : list Game :=
  match transport (games_url username ym.1 ym.2) with
  | Returned response =>
      if bool_decide (status_code response = 200)
      then filter (λ g, time_class g = Some time_control)
             (default [] (games (json response)))
      else []
  | Failed _ => []
  end.

(** An upstream that knows [bob] but fails on everything else. *)
Definition upstream_profile_only (url : string) : outcome :=
  if bool_decide (url = profile_url "bob") then
    Returned {| status_code := 200; json := empty_body |}
  else Failed "Max retries exceeded".

(** The player record whose rating [extract_game_data] reports for a
    game: white's when white's name is the user's up to case, else black's. *)
Definition player_of (username : string) (game : Game) : option Player :=
  if bool_decide
       (str_lower (default "" (player_username (default empty_player (white game))))
        = str_lower username)
  then white game else black game.

(** The observation of a game, if it has one. *)
Definition row_of (utcoffset : Z → Z) (username : string) (game : Game) : option Row :=
  e ← kept_end_time game;
  p ← player_of username game;
  Some {| date := fromtimestamp utcoffset e `div` 86400;
          rating := default 0 (player_rating p);
          timestamp := fromtimestamp utcoffset e |}.

(** The URLs the look-ups build for a user name. *)
Definition own_url (username url : string) : Prop :=
  url = profile_url username
  ∨ url = archives_url username
  ∨ ∃ year month : Z, url = games_url username year month.

(** A computation that sends only requests with a given property. *)
Definition logs_only {A : Type} (P : string → Prop) (m : M A) : Prop :=
  ∀ s, ∃ urls, http_log (m s).2 = http_log s ++ urls ∧ Forall P urls.

(** Four observations of 2024-02-05, listed out of order, and one of
    2024-02-07: the day opens at 900, peaks at 980, dips to 870 and closes
    at 950. *)
Definition busy_day : list Row :=
  [ {| date := 19758; rating := 980; timestamp := 19758 * 86400 + 43200 |};
    {| date := 19760; rating := 940; timestamp := 19760 * 86400 + 36000 |};
    {| date := 19758; rating := 950; timestamp := 19758 * 86400 + 72000 |};
    {| date := 19758; rating := 900; timestamp := 19758 * 86400 + 28800 |};
    {| date := 19758; rating := 870; timestamp := 19758 * 86400 + 54000 |} ].

(** [s.isascii()]: every character is below 128. *)
Fixpoint str_isascii (s : string) : bool :=
  match s with
  | EmptyString => true
  | String c s' => (Ascii.N_of_ascii c <? 128)%N && str_isascii s'
  end.

(** An end time at which neither [datetime.fromtimestamp] nor the
    nanosecond timestamps of pandas reach a limit, on any platform: the
    instant and its local time lie between 1970-01-02 and 2262-04-10. *)
Definition ordinary_end_time (utcoffset : Z → Z) (e : Z) : Prop :=
  86400 ≤ e < 9223286400 ∧ 86400 ≤ fromtimestamp utcoffset e < 9223286400.

(** A form posted for [bob] and rapid games. *)
Definition bob_rapid_request : Request :=
  {| method := "POST";
     form := {[ "username" := "bob"; "time_control" := "rapid" ]} |}.

(** * Properties *)

(** ** The model on the scenarios of the specification *)

(** Scenario A: a day without games between two days with one game each. *)
Example scenario_A :
  create_candlestick_chart two_days "blitz"
  = Some {| fig_title := "Blitz Rating History";
            fig_data := [ flat_bar 19723 (Some 1000);
                          flat_bar 19724 (Some 1000);
                          flat_bar 19725 (Some 1050) ] |}.
Proof. vm_compute. reflexivity. Qed.

(** Scenario B: two games on one day. *)
Example scenario_B :
  create_candlestick_chart one_day "rapid"
  = Some {| fig_title := "Rapid Rating History";
            fig_data := [ {| bar_date := 19758; open := Some 900; high := Some 950;
                             low := Some 900; close := Some 950 |} ] |}.
Proof. vm_compute. reflexivity. Qed.

(** A day with four games, listed out of order, gets one bar; the empty
    day after it continues the close. *)
Example chart_of_busy_day :
  create_candlestick_chart busy_day "blitz"
  = Some {| fig_title := "Blitz Rating History";
            fig_data := [ {| bar_date := 19758; open := Some 900; high := Some 980;
                             low := Some 870; close := Some 950 |};
                          flat_bar 19759 (Some 950);
                          flat_bar 19760 (Some 940) ] |}.
Proof. vm_compute. reflexivity. Qed.

(** A whole request: the form is normalised, the three look-ups go out in
    order, the rapid game is filtered away, the chart is rendered and
    cached under the key of the user and the mode. *)
Example request_for_bob :
  index upstream_bob still_clock utc plain_html bob_blitz_request fresh_state
  = (Ok (render_chart "bob" "blitz" "<div></div>"),
     {| http_log := [ profile_url "bob"; archives_url "bob"; games_url "bob" 2024 1 ];
        profile_memo := [ ("bob", empty_body) ];
        store := SimpleCache_set 1000 "bob_blitz" "<div></div>" (SimpleCache_init 300);
        ticks := 1 |}).
Proof. vm_compute. reflexivity. Qed.

Example extracted_rows_of_bob :
  extract_game_data utc (filter (λ g, time_class g = Some "blitz") bob_games) "bob"
  = Ok [ {| date := 19723; rating := 1510; timestamp := 1704103200 |};
         {| date := 19725; rating := 1498; timestamp := 1704276000 |} ].
Proof. vm_compute. reflexivity. Qed.

(** ** Sorting by timestamp *)

Lemma insert_row_perm r l : insert_row r l ≡ₚ r :: l.
Proof.
  induction l as [|x l IH]; simpl; [done|].
  case_bool_decide; [done|].
  rewrite IH. apply Permutation_swap.
Qed.

Lemma sort_values_perm df : sort_values df ≡ₚ df.
Proof.
  induction df as [|r df IH]; simpl; [done|].
  by rewrite insert_row_perm, IH.
Qed.

Lemma insert_row_sorted r l :
  StronglySorted ts_le l → StronglySorted ts_le (insert_row r l).
Proof.
  induction 1 as [|x l Hl IH Hx]; simpl.
  - repeat constructor.
  - case_bool_decide as Hle.
    + constructor; [by constructor|].
      constructor; [done|].
      eapply Forall_impl; [exact Hx|]. unfold ts_le in *. intros; lia.
    + constructor; [done|].
      rewrite insert_row_perm. constructor; [|done].
      unfold ts_le. lia.
Qed.

Lemma sort_values_sorted df : StronglySorted ts_le (sort_values df).
Proof.
  induction df as [|r df IH]; simpl; [constructor|].
  by apply insert_row_sorted.
Qed.

Lemma elem_of_sort_values r df : r ∈ sort_values df ↔ r ∈ df.
Proof. by rewrite sort_values_perm. Qed.

Lemma sort_values_nil df : sort_values df = [] → df = [].
Proof.
  intros H. apply Permutation_nil_r. rewrite <- H. symmetry. apply sort_values_perm.
Qed.

(** Two timestamp-sorted arrangements of the same rows coincide when rows
    with equal timestamps are equal. *)
Lemma sorted_perm_unique (l1 l2 : list Row) :
  (∀ a b, a ∈ l1 → b ∈ l1 → timestamp a = timestamp b → a = b) →
  StronglySorted ts_le l1 → StronglySorted ts_le l2 → l1 ≡ₚ l2 → l1 = l2.
Proof.
  revert l2. induction l1 as [|a l1 IH]; intros l2 Hinj H1 H2 Hp.
  - by apply Permutation_nil_l in Hp.
  - destruct l2 as [|b l2]; [by apply Permutation_nil_r in Hp|].
    apply StronglySorted_inv in H1 as [H1 Ha].
    apply StronglySorted_inv in H2 as [H2 Hb].
    assert (a = b) as ->.
    { assert (Hb_in : b ∈ a :: l1) by (rewrite Hp; left).
      assert (Ha_in : a ∈ b :: l2) by (rewrite <- Hp; left).
      apply Hinj; [left|done|].
      apply elem_of_cons in Hb_in as [->|Hb_in]; [done|].
      apply elem_of_cons in Ha_in as [->|Ha_in]; [done|].
      rewrite Forall_forall in Ha, Hb.
      specialize (Ha _ Hb_in). specialize (Hb _ Ha_in). unfold ts_le in *. lia. }
    f_equal. apply IH; [|done|done|by apply Permutation_cons_inv in Hp].
    intros x y Hx Hy. apply Hinj; by right.
Qed.

(** ** Group keys *)

Lemma elem_of_insert_key x d ks : x ∈ insert_key d ks ↔ x = d ∨ x ∈ ks.
Proof.
  induction ks as [|k ks IH]; simpl.
  - rewrite list_elem_of_singleton, elem_of_nil. tauto.
  - repeat case_bool_decide; subst; rewrite ?elem_of_cons, ?IH; intuition lia.
Qed.

Lemma insert_key_sorted d ks :
  StronglySorted Z.lt ks → StronglySorted Z.lt (insert_key d ks).
Proof.
  induction 1 as [|k ks Hks IH Hk]; simpl.
  - repeat constructor.
  - repeat case_bool_decide; subst.
    + constructor; [by constructor|].
      constructor; [done|]. eapply Forall_impl; [exact Hk|]. intros; lia.
    + by constructor.
    + constructor; [done|].
      apply Forall_forall. intros x Hx.
      apply elem_of_insert_key in Hx as [->|Hx]; [lia|].
      rewrite Forall_forall in Hk. by apply Hk.
Qed.

Lemma group_keys_sorted df : StronglySorted Z.lt (group_keys df).
Proof.
  unfold group_keys. induction df as [|r df IH]; simpl; [constructor|].
  by apply insert_key_sorted.
Qed.

Lemma elem_of_group_keys d df : d ∈ group_keys df ↔ ∃ r, r ∈ df ∧ date r = d.
Proof.
  unfold group_keys. induction df as [|r df IH]; simpl.
  - rewrite elem_of_nil. split; [done|]. intros (r & Hr & _). by apply elem_of_nil in Hr.
  - rewrite elem_of_insert_key, IH. split.
    + intros [->|(x & Hx & <-)]; [exists r; split; [left|done]|exists x; split; [by right|done]].
    + intros (x & Hx & <-). apply elem_of_cons in Hx as [->|Hx]; [by left|right; eauto].
Qed.

Lemma sorted_lt_NoDup (ks : list Z) : StronglySorted Z.lt ks → NoDup ks.
Proof.
  induction 1 as [|k ks Hks IH Hk]; constructor; [|done].
  intros Hin. rewrite Forall_forall in Hk. specialize (Hk _ Hin). lia.
Qed.

Lemma group_keys_NoDup df : NoDup (group_keys df).
Proof. apply sorted_lt_NoDup, group_keys_sorted. Qed.

(** ** Column minimum and maximum *)

Lemma foldl_min_spec (d : Z) (ds : list Z) :
  foldl Z.min d ds ∈ d :: ds ∧ ∀ x, x ∈ d :: ds → foldl Z.min d ds ≤ x.
Proof.
  revert d. induction ds as [|e ds IH]; intros d; simpl.
  - split; [left|]. intros x Hx. apply list_elem_of_singleton in Hx. lia.
  - destruct (IH (Z.min d e)) as [Hin Hle]. split.
    + apply elem_of_cons in Hin as [Heq|Hin]; [|by do 2 right].
      rewrite Heq. destruct (Z.min_spec d e) as [[_ ->]|[_ ->]]; [left|right; left].
    + intros x Hx. apply elem_of_cons in Hx as [->|Hx].
      * pose proof (Hle (Z.min d e) ltac:(left)). lia.
      * apply elem_of_cons in Hx as [->|Hx].
        -- pose proof (Hle (Z.min d e) ltac:(left)). lia.
        -- apply Hle. by right.
Qed.

Lemma foldl_max_spec (d : Z) (ds : list Z) :
  foldl Z.max d ds ∈ d :: ds ∧ ∀ x, x ∈ d :: ds → x ≤ foldl Z.max d ds.
Proof.
  revert d. induction ds as [|e ds IH]; intros d; simpl.
  - split; [left|]. intros x Hx. apply list_elem_of_singleton in Hx. lia.
  - destruct (IH (Z.max d e)) as [Hin Hle]. split.
    + apply elem_of_cons in Hin as [Heq|Hin]; [|by do 2 right].
      rewrite Heq. destruct (Z.max_spec d e) as [[_ ->]|[_ ->]]; [right; left|left].
    + intros x Hx. apply elem_of_cons in Hx as [->|Hx].
      * pose proof (Hle (Z.max d e) ltac:(left)). lia.
      * apply elem_of_cons in Hx as [->|Hx].
        -- pose proof (Hle (Z.max d e) ltac:(left)). lia.
        -- apply Hle. by right.
Qed.

(** ** The left merge *)

Lemma filter_group_bar df (ks : list Z) d :
  NoDup ks →
  filter (λ b, bar_date b = d) (group_bar df <$> ks)
  = if decide (d ∈ ks) then [group_bar df d] else [].
Proof.
  induction 1 as [|k ks Hk Hks IH].
  - destruct (decide (d ∈ [])) as [Hin|_]; [by apply elem_of_nil in Hin|done].
  - rewrite fmap_cons. destruct (decide (k = d)) as [->|Hne].
    + rewrite filter_cons_True by done.
      rewrite IH. destruct (decide (d ∈ ks)); [done|].
      destruct (decide (d ∈ d :: ks)) as [_|Hn]; [done|]. exfalso. apply Hn. left.
    + rewrite filter_cons_False by done.
      rewrite IH. destruct (decide (d ∈ ks)) as [Hin|Hin];
        destruct (decide (d ∈ k :: ks)) as [Hin'|Hin']; try done.
      * exfalso. apply Hin'. by right.
      * apply elem_of_cons in Hin' as [?|?]; congruence.
Qed.

Lemma merge_left_groupby dates df :
  merge_left dates (groupby_agg df) = merged_row df <$> dates.
Proof.
  unfold merge_left, groupby_agg.
  induction dates as [|d dates IH]; [done|].
  rewrite bind_cons, IH, fmap_cons. f_equal.
  rewrite filter_group_bar by apply group_keys_NoDup.
  unfold merged_row. by destruct (decide (d ∈ group_keys df)).
Qed.

Lemma bar_date_merged_row df d : bar_date (merged_row df d) = d.
Proof. unfold merged_row. by destruct (decide _). Qed.

Lemma bar_date_fill_missing b c : bar_date (fill_missing b c) = bar_date b.
Proof. unfold fill_missing. by destruct (open b). Qed.

(** ** Forward fill *)

Lemma length_ffill_from prev xs : length (ffill_from prev xs) = length xs.
Proof. revert prev. induction xs as [|x xs IH]; intros prev; simpl; [done|]. by rewrite IH. Qed.

Lemma ffill_from_gap prev (xs : list (option Z)) (i : nat) :
  (∀ k, (k ≤ i)%nat → xs !! k = Some None) →
  ffill_from prev xs !! i = Some prev.
Proof.
  revert prev i. induction xs as [|x xs IH]; intros prev i Hgap.
  - specialize (Hgap 0%nat ltac:(lia)). done.
  - pose proof (Hgap 0%nat ltac:(lia)) as H0. simpl in H0. injection H0 as ->.
    destruct i as [|i]; simpl; [done|].
    apply IH. intros k Hk. apply (Hgap (S k)). lia.
Qed.

(** The filled value at [i] is the last value present at or before [i]. *)
Lemma ffill_from_carry prev (xs : list (option Z)) (j i : nat) (v : Z) :
  (j ≤ i)%nat →
  xs !! j = Some (Some v) →
  (∀ k, (j < k ≤ i)%nat → xs !! k = Some None) →
  ffill_from prev xs !! i = Some (Some v).
Proof.
  revert prev j i. induction xs as [|x xs IH]; intros prev j i Hji Hj Hgap; [done|].
  destruct j as [|j].
  - simpl in Hj. injection Hj as ->.
    destruct i as [|i]; simpl; [done|].
    apply ffill_from_gap. intros k Hk. apply (Hgap (S k)). lia.
  - destruct i as [|i]; [lia|]. simpl.
    apply (IH _ j); [lia|done|].
    intros k Hk. apply (Hgap (S k)). lia.
Qed.

(** ** The bar of a day with observations *)

Lemma filter_sorted (P : Row → Prop) `{!∀ r, Decision (P r)} l :
  StronglySorted ts_le l → StronglySorted ts_le (filter P l).
Proof.
  induction 1 as [|x l Hl IH Hx]; [constructor|].
  destruct (decide (P x)).
  - rewrite filter_cons_True by done. constructor; [done|].
    apply Forall_forall. intros y Hy. apply list_elem_of_filter in Hy as [_ Hy].
    rewrite Forall_forall in Hx. by apply Hx.
  - by rewrite filter_cons_False by done.
Qed.

Lemma sorted_head_least l x y :
  StronglySorted ts_le l → head l = Some x → y ∈ l → timestamp x ≤ timestamp y.
Proof.
  intros Hs Hh Hy. destruct l as [|a l]; [done|]. simpl in Hh. injection Hh as ->.
  apply StronglySorted_inv in Hs as [_ Hx].
  apply elem_of_cons in Hy as [->|Hy]; [lia|].
  rewrite Forall_forall in Hx. by apply Hx.
Qed.

Lemma sorted_last_greatest l x y :
  StronglySorted ts_le l → last l = Some x → y ∈ l → timestamp y ≤ timestamp x.
Proof.
  induction 1 as [|a l Hl IH Ha]; intros Hlast Hy; [done|].
  destruct l as [|b l].
  - simpl in Hlast. injection Hlast as ->.
    apply list_elem_of_singleton in Hy as ->. lia.
  - rewrite last_cons_cons in Hlast.
    apply elem_of_cons in Hy as [->|Hy]; [|by apply IH].
    rewrite Forall_forall in Ha. apply Ha. by eapply last_Some_elem_of.
Qed.

Lemma agg_max_spec (l : list Row) :
  l ≠ [] →
  ∃ r, r ∈ l ∧ agg_max (rating <$> l) = Some (rating r)
       ∧ ∀ x, x ∈ l → rating x ≤ rating r.
Proof.
  destruct l as [|a l]; [done|]. intros _.
  rewrite fmap_cons. unfold agg_max.
  destruct (foldl_max_spec (rating a) (rating <$> l)) as [Hin Hle].
  change (rating a :: (rating <$> l)) with (rating <$> a :: l) in *.
  apply list_elem_of_fmap in Hin as (r & Hr & Hrin).
  exists r. split; [done|]. split; [by rewrite Hr|].
  intros x Hx. rewrite <- Hr. apply Hle. by apply list_elem_of_fmap_2.
Qed.

Lemma agg_min_spec (l : list Row) :
  l ≠ [] →
  ∃ r, r ∈ l ∧ agg_min (rating <$> l) = Some (rating r)
       ∧ ∀ x, x ∈ l → rating r ≤ rating x.
Proof.
  destruct l as [|a l]; [done|]. intros _.
  rewrite fmap_cons. unfold agg_min.
  destruct (foldl_min_spec (rating a) (rating <$> l)) as [Hin Hle].
  change (rating a :: (rating <$> l)) with (rating <$> a :: l) in *.
  apply list_elem_of_fmap in Hin as (r & Hr & Hrin).
  exists r. split; [done|]. split; [by rewrite Hr|].
  intros x Hx. rewrite <- Hr. apply Hle. by apply list_elem_of_fmap_2.
Qed.

Lemma day_rows_nonempty df d :
  d ∈ group_keys df → filter (λ r, date r = d) df ≠ [].
Proof.
  intros (r & Hr & Hd)%elem_of_group_keys Hnil.
  assert (Hin : r ∈ filter (λ r, date r = d) df) by (by apply list_elem_of_filter).
  rewrite Hnil in Hin. by apply elem_of_nil in Hin.
Qed.

(** What the four aggregates of a group are, on a timestamp-sorted frame. *)
Lemma group_bar_spec df d :
  StronglySorted ts_le df → d ∈ group_keys df →
  ∃ ro rh rl rc,
    head (filter (λ r, date r = d) df) = Some ro
    ∧ last (filter (λ r, date r = d) df) = Some rc
    ∧ rh ∈ df ∧ date rh = d ∧ rl ∈ df ∧ date rl = d
    ∧ group_bar df d
      = {| bar_date := d; open := Some (rating ro); high := Some (rating rh);
           low := Some (rating rl); close := Some (rating rc) |}
    ∧ ∀ r, r ∈ df → date r = d →
        timestamp ro ≤ timestamp r ≤ timestamp rc
        ∧ rating rl ≤ rating r ≤ rating rh.
Proof.
  intros Hs Hd. pose proof (day_rows_nonempty _ _ Hd) as Hne.
  pose proof (filter_sorted (λ r, date r = d) df Hs) as Hfs.
  assert (Hmem : ∀ r, r ∈ filter (λ r, date r = d) df ↔ date r = d ∧ r ∈ df)
    by (intros r; exact (list_elem_of_filter (λ r, date r = d) df r)).
  unfold group_bar, group_ratings, agg_first, agg_last.
  rewrite fmap_last.
  destruct (agg_max_spec _ Hne) as (rh & Hrh & -> & Hmaxle).
  destruct (agg_min_spec _ Hne) as (rl & Hrl & -> & Hminle).
  revert Hne Hfs Hmem Hrh Hmaxle Hrl Hminle.
  generalize (filter (λ r, date r = d) df). intros rows Hne Hfs Hmem Hrh Hmaxle Hrl Hminle.
  destruct rows as [|ro rows]; [done|].
  destruct (last (ro :: rows)) as [rc|] eqn:Hlast;
    [|by apply last_None in Hlast].
  apply Hmem in Hrh as [Hdh Hrh]. apply Hmem in Hrl as [Hdl Hrl].
  exists ro, rh, rl, rc. repeat split; try done.
  - eapply sorted_head_least; [exact Hfs|done|]. by apply Hmem.
  - eapply sorted_last_greatest; [exact Hfs|done|]. by apply Hmem.
  - apply Hminle. by apply Hmem.
  - apply Hmaxle. by apply Hmem.
Qed.

(** ** The completed frame *)

Lemma bar_date_groupby df : bar_date <$> groupby_agg df = group_keys df.
Proof.
  unfold groupby_agg. rewrite <- list_fmap_compose.
  rewrite <- (list_fmap_id (group_keys df)) at 2. by apply list_fmap_ext.
Qed.

Lemma complete_ohlc_groupby df k ks :
  group_keys df = k :: ks →
  complete_ohlc (groupby_agg df) = full_frame df (foldl Z.min k ks) (foldl Z.max k ks).
Proof.
  intros Hk. unfold complete_ohlc, full_frame.
  rewrite bar_date_groupby, Hk. by rewrite merge_left_groupby.
Qed.

Lemma full_frame_dates df lo hi :
  bar_date <$> full_frame df lo hi = date_range lo hi.
Proof.
  unfold full_frame.
  set (rows := merged_row df <$> date_range lo hi).
  assert (Hz : ∀ (l : list DailyBar) (k : list (option Z)),
             length l = length k →
             bar_date <$> zip_with fill_missing l k = bar_date <$> l).
  { induction l as [|b l IH]; intros [|c k] Hlen; simpl in *; try done.
    rewrite bar_date_fill_missing. f_equal. apply IH. lia. }
  rewrite Hz.
  - unfold rows. rewrite <- list_fmap_compose.
    rewrite <- (list_fmap_id (date_range lo hi)) at 2.
    apply list_fmap_ext. intros ? d _. apply bar_date_merged_row.
  - unfold ffill. by rewrite length_ffill_from, length_fmap.
Qed.

Lemma merged_rows_lookup df lo hi (i : nat) :
  Z.of_nat i < hi - lo + 1 →
  (merged_row df <$> date_range lo hi) !! i = Some (merged_row df (lo + Z.of_nat i)).
Proof.
  intros Hi. unfold date_range. by rewrite list_lookup_fmap, lookup_seqZ_lt.
Qed.

Lemma full_frame_present df lo hi d :
  StronglySorted ts_le df → d ∈ group_keys df → lo ≤ d ≤ hi →
  full_frame df lo hi !! Z.to_nat (d - lo) = Some (group_bar df d).
Proof.
  intros Hs Hd Hr. unfold full_frame. apply lookup_zip_with_Some.
  assert (Hi : Z.of_nat (Z.to_nat (d - lo)) < hi - lo + 1) by lia.
  pose proof (merged_rows_lookup df lo hi _ Hi) as Hrow.
  replace (lo + Z.of_nat (Z.to_nat (d - lo))) with d in Hrow by lia.
  unfold merged_row in Hrow at 2. rewrite decide_True in Hrow by done.
  destruct (lookup_lt_is_Some_2
              (ffill (close <$> (merged_row df <$> date_range lo hi)))
              (Z.to_nat (d - lo))) as [c Hc].
  { unfold ffill, date_range.
    rewrite length_ffill_from, !length_fmap, length_seqZ. lia. }
  exists (group_bar df d), c. split; [|done].
  destruct (group_bar_spec df d Hs Hd) as (ro & rh & rl & rc & _ & _ & _ & _ & _ & _ & Hb & _).
  unfold fill_missing. by rewrite Hb.
Qed.

Lemma full_frame_missing df lo hi d' d :
  StronglySorted ts_le df → d' ∈ group_keys df → lo ≤ d' → d' < d ≤ hi →
  (∀ k, d' < k ≤ d → k ∉ group_keys df) →
  full_frame df lo hi !! Z.to_nat (d - lo)
  = Some (flat_bar d (close (group_bar df d'))).
Proof.
  intros Hs Hd' Hlo Hr Hgap. unfold full_frame. apply lookup_zip_with_Some.
  assert (Hi : Z.of_nat (Z.to_nat (d - lo)) < hi - lo + 1) by lia.
  pose proof (merged_rows_lookup df lo hi _ Hi) as Hrow.
  replace (lo + Z.of_nat (Z.to_nat (d - lo))) with d in Hrow by lia.
  unfold merged_row in Hrow at 2.
  rewrite decide_False in Hrow by (apply Hgap; lia).
  destruct (group_bar_spec df d' Hs Hd') as (ro & rh & rl & rc & _ & _ & _ & _ & _ & _ & Hb & _).
  exists (nan_bar d), (close (group_bar df d')). split; [done|]. split; [done|].
  rewrite Hb. simpl. unfold ffill.
  apply (ffill_from_carry _ _ (Z.to_nat (d' - lo))); [lia| |].
  - rewrite list_lookup_fmap, merged_rows_lookup by lia. simpl.
    replace (lo + Z.of_nat (Z.to_nat (d' - lo))) with d' by lia.
    unfold merged_row. rewrite decide_True by done. by rewrite Hb.
  - intros k Hk. rewrite list_lookup_fmap, merged_rows_lookup by lia. simpl.
    unfold merged_row. rewrite decide_False; [done|]. apply Hgap. lia.
Qed.

(** The last day with observations before a day without. *)
Lemma prior_key (keys : list Z) lo d :
  lo ∈ keys → lo ≤ d → d ∉ keys →
  ∃ d', d' ∈ keys ∧ lo ≤ d' ∧ d' < d ∧ ∀ k, d' < k ≤ d → k ∉ keys.
Proof.
  intros Hlo Hle Hd.
  assert (H : ∀ n : nat, ∀ d, d - lo = Z.of_nat n → d ∉ keys →
            ∃ d', d' ∈ keys ∧ lo ≤ d' ∧ d' < d ∧ ∀ k, d' < k ≤ d → k ∉ keys).
  { clear d Hle Hd. induction n as [|n IH]; intros d Hn Hd.
    - replace d with lo in Hd by lia. done.
    - destruct (decide (d - 1 ∈ keys)) as [Hin|Hnin].
      + exists (d - 1). repeat split; [done|lia|lia|].
        intros k Hk. by replace k with d by lia.
      + destruct (IH (d - 1) ltac:(lia) Hnin) as (d' & Hd' & Hlo' & Hlt & Hgap).
        exists d'. repeat split; [done|done|lia|].
        intros k Hk. destruct (decide (k = d)) as [->|Hne]; [done|].
        apply Hgap. lia. }
  apply (H (Z.to_nat (d - lo))); [lia|done].
Qed.

(** ** The chart of a non-empty frame *)

(** A non-empty frame always yields a figure, whose data is the full frame
    between the least and the greatest observed date. *)
Lemma create_candlestick_chart_Some df time_control :
  df ≠ [] →
  ∃ lo hi,
    create_candlestick_chart df time_control
    = Some {| fig_title := str_title time_control +:+ " Rating History";
              fig_data := full_frame (sort_values df) lo hi |}
    ∧ lo ∈ group_keys (sort_values df) ∧ hi ∈ group_keys (sort_values df)
    ∧ ∀ d, d ∈ group_keys (sort_values df) → lo ≤ d ≤ hi.
Proof.
  intros Hne.
  destruct (group_keys (sort_values df)) as [|k ks] eqn:Hk.
  { destruct df as [|r df]; [done|].
    assert (Hin : date r ∈ group_keys (sort_values (r :: df))).
    { apply elem_of_group_keys. exists r. split; [|done].
      apply elem_of_sort_values. left. }
    rewrite Hk in Hin. by apply elem_of_nil in Hin. }
  destruct (foldl_min_spec k ks) as [Hmin Hminle].
  destruct (foldl_max_spec k ks) as [Hmax Hmaxle].
  exists (foldl Z.min k ks), (foldl Z.max k ks).
  split; [|split; [done|split; [done|]]].
  - unfold create_candlestick_chart. destruct df as [|r df]; [done|].
    rewrite (complete_ohlc_groupby _ k ks Hk).
    unfold groupby_agg. by rewrite Hk.
  - intros d Hd. split; [by apply Hminle|by apply Hmaxle].
Qed.

Lemma group_key_observed df d :
  d ∈ group_keys (sort_values df) ↔ ∃ r, r ∈ df ∧ date r = d.
Proof.
  rewrite elem_of_group_keys. split; intros (r & Hr & Hd); exists r;
    (split; [by apply elem_of_sort_values|done]).
Qed.

(** Bars of one figure with the same date are the same bar. *)
Lemma full_frame_bar_unique df lo hi b b' :
  b ∈ full_frame df lo hi → b' ∈ full_frame df lo hi →
  bar_date b = bar_date b' → b = b'.
Proof.
  intros [i Hi]%list_elem_of_lookup [j Hj]%list_elem_of_lookup Heq.
  assert (i = j) as ->; [|congruence].
  eapply (NoDup_lookup (bar_date <$> full_frame df lo hi)).
  - rewrite full_frame_dates. apply NoDup_seqZ.
  - by rewrite list_lookup_fmap, Hi.
  - by rewrite list_lookup_fmap, Hj, Heq.
Qed.

(** In a list whose keys are pairwise distinct, the entries with the key of
    a member are that member, once. *)
Lemma filter_unique_key {A : Type} (f : A → Z) (l : list A) (x : A) :
  NoDup (f <$> l) → x ∈ l → filter (λ y, f y = f x) l = [x].
Proof.
  induction l as [|a l IH]; intros Hnd Hx.
  { by apply elem_of_nil in Hx. }
  rewrite fmap_cons in Hnd. apply NoDup_cons in Hnd as [Hnin Hnd].
  assert (Hnone : ∀ l', (∀ y, y ∈ l' → f y ≠ f a) → filter (λ y, f y = f a) l' = []).
  { induction l' as [|y l' IH']; intros Hall; [done|].
    rewrite filter_cons. destruct (decide (f y = f a)) as [Heq|_].
    - destruct (Hall y ltac:(left) Heq).
    - apply IH'. intros z Hz. apply Hall. by right. }
  apply elem_of_cons in Hx as [->|Hx].
  - rewrite filter_cons. destruct (decide (f a = f a)) as [_|Hne]; [|done].
    f_equal. apply Hnone. intros y Hy Heq. apply Hnin. rewrite <- Heq.
    by apply list_elem_of_fmap_2.
  - rewrite filter_cons. destruct (decide (f a = f x)) as [Heq|_].
    + destruct Hnin. rewrite Heq. by apply list_elem_of_fmap_2.
    + by apply IH.
Qed.

(** The bars of a day in the completed frame are one bar. *)
Lemma full_frame_day_bars df lo hi b :
  b ∈ full_frame df lo hi →
  filter (λ b', bar_date b' = bar_date b) (full_frame df lo hi) = [b].
Proof.
  intros Hb. apply (filter_unique_key bar_date); [|done].
  rewrite full_frame_dates. apply NoDup_seqZ.
Qed.

(** C1. On a non-empty frame, a date with at least one observation has
    exactly one bar in the figure, however many observations the day has:
    the bars of the figure that carry the date are the one-element list of
    that bar.  Its open is the rating of the observation that comes first
    among that day's observations once the frame is sorted by timestamp,
    its close the rating of the one that comes last, its high the greatest
    and its low the least rating of the day; no observation of the day is
    earlier than the opening one or later than the closing one. *)
Theorem C1_observed_day_bar (df : list Row) (time_control : string) (d : Z) :
  df ≠ [] →
  (∃ r, r ∈ df ∧ date r = d) →
  ∃ fig b ro rh rl rc,
    create_candlestick_chart df time_control = Some fig
    ∧ b ∈ fig_data fig ∧ bar_date b = d
    ∧ filter (λ b', bar_date b' = d) (fig_data fig) = [b]
    ∧ (∀ b', b' ∈ fig_data fig → bar_date b' = d → b' = b)
    ∧ head (filter (λ r, date r = d) (sort_values df)) = Some ro
    ∧ last (filter (λ r, date r = d) (sort_values df)) = Some rc
    ∧ (ro ∈ df ∧ date ro = d) ∧ (rc ∈ df ∧ date rc = d)
    ∧ (rh ∈ df ∧ date rh = d) ∧ (rl ∈ df ∧ date rl = d)
    ∧ open b = Some (rating ro) ∧ close b = Some (rating rc)
    ∧ high b = Some (rating rh) ∧ low b = Some (rating rl)
    ∧ ∀ r, r ∈ df → date r = d →
        timestamp ro ≤ timestamp r ≤ timestamp rc
        ∧ rating rl ≤ rating r ≤ rating rh.
Proof.
  intros Hne Hobs.
  destruct (create_candlestick_chart_Some df time_control Hne)
    as (lo & hi & Hfig & Hlo & Hhi & Hrange).
  apply group_key_observed in Hobs as Hd.
  destruct (group_bar_spec (sort_values df) d (sort_values_sorted df) Hd)
    as (ro & rh & rl & rc & Hhead & Hlast & Hrh & Hdh & Hrl & Hdl & Hbar & Hall).
  pose proof (full_frame_present (sort_values df) lo hi d
                (sort_values_sorted df) Hd (Hrange d Hd)) as Hlook.
  apply list_elem_of_lookup_2 in Hlook.
  assert (Hmem : ∀ r, r ∈ filter (λ r, date r = d) (sort_values df) → r ∈ df ∧ date r = d).
  { intros r Hr.
    apply (list_elem_of_filter (λ r, date r = d) (sort_values df) r) in Hr as [? ?].
    split; [by apply elem_of_sort_values|done]. }
  eexists _, (group_bar (sort_values df) d), ro, rh, rl, rc.
  split; [exact Hfig|]. cbn [fig_data].
  split; [done|]. split; [done|].
  split.
  { exact (full_frame_day_bars (sort_values df) lo hi _ Hlook). }
  split.
  { intros b' Hb' Hdate. eapply full_frame_bar_unique; [done|done|]. by rewrite Hdate. }
  split; [done|]. split; [done|].
  split; [by apply Hmem, head_Some_elem_of|].
  split; [by apply Hmem, last_Some_elem_of|].
  split; [split; [by apply elem_of_sort_values|done]|].
  split; [split; [by apply elem_of_sort_values|done]|].
  rewrite Hbar. simpl. repeat (split; [done|]).
  intros r Hr Hrd. apply Hall; [by apply elem_of_sort_values|done].
Qed.

(** C2. On a non-empty frame, a day between two observed dates that has
    no observation of its own still has exactly one bar; the four fields of
    that bar are the close of the bar of the latest earlier day with
    observations, which is the rating of that day's last observation. *)
Theorem C2_forward_fill (df : list Row) (time_control : string) (d : Z) :
  df ≠ [] →
  (∃ r1 r2, r1 ∈ df ∧ r2 ∈ df ∧ date r1 ≤ d ≤ date r2) →
  (∀ r, r ∈ df → date r ≠ d) →
  ∃ fig b b_prev rc,
    create_candlestick_chart df time_control = Some fig
    ∧ b ∈ fig_data fig ∧ bar_date b = d
    ∧ (∀ b', b' ∈ fig_data fig → bar_date b' = d → b' = b)
    ∧ b_prev ∈ fig_data fig ∧ bar_date b_prev < d
    ∧ (rc ∈ df ∧ date rc = bar_date b_prev)
    ∧ (∀ r, r ∈ df → date r < d → date r ≤ bar_date b_prev)
    ∧ last (filter (λ r, date r = bar_date b_prev) (sort_values df)) = Some rc
    ∧ close b_prev = Some (rating rc)
    ∧ open b = close b_prev ∧ high b = close b_prev
    ∧ low b = close b_prev ∧ close b = close b_prev.
Proof.
  intros Hne (r1 & r2 & Hr1 & Hr2 & Hbetween) Hnone.
  destruct (create_candlestick_chart_Some df time_control Hne)
    as (lo & hi & Hfig & Hlo & Hhi & Hrange).
  assert (Hd : d ∉ group_keys (sort_values df)).
  { intros (r & Hr & Hrd)%group_key_observed. by apply (Hnone r). }
  assert (Hlod : lo ≤ d ≤ hi).
  { pose proof (Hrange (date r1) (proj2 (group_key_observed df _) (ex_intro _ r1 (conj Hr1 eq_refl)))).
    pose proof (Hrange (date r2) (proj2 (group_key_observed df _) (ex_intro _ r2 (conj Hr2 eq_refl)))).
    lia. }
  destruct (prior_key _ lo d Hlo (proj1 Hlod) Hd) as (d' & Hd' & Hlo' & Hlt & Hgap).
  destruct (group_bar_spec (sort_values df) d' (sort_values_sorted df) Hd')
    as (ro & rh & rl & rc & Hhead & Hlast & Hrh & Hdh & Hrl & Hdl & Hbar & Hall).
  pose proof (full_frame_present (sort_values df) lo hi d'
                (sort_values_sorted df) Hd' (Hrange d' Hd')) as Hprev.
  pose proof (full_frame_missing (sort_values df) lo hi d' d
                (sort_values_sorted df) Hd' Hlo' (conj Hlt (proj2 Hlod)) Hgap) as Hcur.
  apply list_elem_of_lookup_2 in Hprev, Hcur.
  eexists _, (flat_bar d (close (group_bar (sort_values df) d'))),
    (group_bar (sort_values df) d'), rc.
  split; [exact Hfig|]. cbn [fig_data].
  split; [done|]. split; [done|].
  split.
  { intros b' Hb' Hdate. eapply full_frame_bar_unique; [done|done|]. by rewrite Hdate. }
  split; [done|]. split; [done|].
  split.
  { apply last_Some_elem_of in Hlast.
    apply (list_elem_of_filter (λ r, date r = d') (sort_values df) rc) in Hlast as [? ?].
    split; [by apply elem_of_sort_values|done]. }
  split.
  { intros r Hr Hrd. destruct (decide (date r ≤ d')) as [|Hgt]; [done|].
    exfalso. apply (Hgap (date r)); [lia|].
    apply group_key_observed. by exists r. }
  split; [done|].
  rewrite Hbar. done.
Qed.

(** C3. On a non-empty frame the figure has one bar for every day from
    the least to the greatest observed date and no other: the dates of its
    bars are [lo; lo+1; ...; hi], so there are [hi - lo + 1] of them, in
    strictly ascending order, each one day after the one before, none
    twice. *)
Theorem C3_one_bar_per_day (df : list Row) (time_control : string) :
  df ≠ [] →
  ∃ fig lo hi,
    create_candlestick_chart df time_control = Some fig
    ∧ (∃ r, r ∈ df ∧ date r = lo) ∧ (∀ r, r ∈ df → lo ≤ date r)
    ∧ (∃ r, r ∈ df ∧ date r = hi) ∧ (∀ r, r ∈ df → date r ≤ hi)
    ∧ bar_date <$> fig_data fig = seqZ lo (hi - lo + 1)
    ∧ length (fig_data fig) = Z.to_nat (hi - lo + 1)
    ∧ (∀ d, lo ≤ d ≤ hi ↔ ∃ b, b ∈ fig_data fig ∧ bar_date b = d)
    ∧ StronglySorted Z.lt (bar_date <$> fig_data fig)
    ∧ NoDup (bar_date <$> fig_data fig)
    ∧ (∀ (i : nat) b b', fig_data fig !! i = Some b → fig_data fig !! S i = Some b' →
         bar_date b' = bar_date b + 1).
Proof.
  intros Hne.
  destruct (create_candlestick_chart_Some df time_control Hne)
    as (lo & hi & Hfig & Hlo & Hhi & Hrange).
  pose proof (full_frame_dates (sort_values df) lo hi) as Hdates.
  unfold date_range in Hdates.
  eexists _, lo, hi. split; [exact Hfig|]. cbn [fig_data].
  split; [by apply group_key_observed|].
  split. { intros r Hr. apply Hrange, group_key_observed. by exists r. }
  split; [by apply group_key_observed|].
  split. { intros r Hr. apply Hrange, group_key_observed. by exists r. }
  split; [done|].
  split. { by rewrite <- (length_fmap bar_date), Hdates, length_seqZ. }
  split.
  { intros d. split.
    - intros Hd. assert (Hin : d ∈ bar_date <$> full_frame (sort_values df) lo hi)
        by (rewrite Hdates; apply elem_of_seqZ; lia).
      apply list_elem_of_fmap in Hin as (b & -> & Hb). by exists b.
    - intros (b & Hb & <-).
      assert (Hin : bar_date b ∈ bar_date <$> full_frame (sort_values df) lo hi)
        by (by apply list_elem_of_fmap_2).
      rewrite Hdates in Hin. apply elem_of_seqZ in Hin. lia. }
  rewrite Hdates. split; [|split; [apply NoDup_seqZ|]].
  - generalize (hi - lo + 1). intros n. unfold seqZ.
    generalize 0%nat.
    induction (Z.to_nat n) as [|m IH]; intros s; simpl; constructor; [apply IH|].
    apply Forall_forall. intros x Hx.
    apply list_elem_of_fmap in Hx as (y & -> & Hy). apply elem_of_seq in Hy. lia.
  - intros i b b' Hi HSi.
    assert (H1 : (bar_date <$> full_frame (sort_values df) lo hi) !! i = Some (bar_date b))
      by (by rewrite list_lookup_fmap, Hi).
    assert (H2 : (bar_date <$> full_frame (sort_values df) lo hi) !! S i = Some (bar_date b'))
      by (by rewrite list_lookup_fmap, HSi).
    rewrite Hdates in H1, H2.
    apply lookup_seqZ in H1 as [-> _]. apply lookup_seqZ in H2 as [-> _]. lia.
Qed.

(** C4, as the code has it. The figure does not depend on the order of the
    rows when rows that share a timestamp agree on date and rating, in
    particular when all timestamps differ. *)
Theorem C4_order_independent_without_ties (df df' : list Row) (time_control : string) :
  df ≡ₚ df' →
  (∀ a b, a ∈ df → b ∈ df → timestamp a = timestamp b → a = b) →
  create_candlestick_chart df time_control = create_candlestick_chart df' time_control.
Proof.
  intros Hp Hinj.
  assert (Hsort : sort_values df = sort_values df').
  { apply sorted_perm_unique; [|apply sort_values_sorted..|].
    - intros a b Ha Hb. apply Hinj; by apply elem_of_sort_values.
    - by rewrite !sort_values_perm. }
  unfold create_candlestick_chart. rewrite <- Hsort.
  destruct df as [|r df], df' as [|r' df']; try done.
  all: first [by apply Permutation_nil_l in Hp | by apply Permutation_nil_r in Hp].
Qed.

Lemma C1_observed_day_bar_witness :
  busy_day ≠ [] ∧ (∃ r, r ∈ busy_day ∧ date r = 19758) ∧
  ∃ fig b ro rh rl rc,
    create_candlestick_chart busy_day "blitz" = Some fig
    ∧ b ∈ fig_data fig ∧ bar_date b = 19758
    ∧ filter (λ b', bar_date b' = 19758) (fig_data fig) = [b]
    ∧ (∀ b', b' ∈ fig_data fig → bar_date b' = 19758 → b' = b)
    ∧ head (filter (λ r, date r = 19758) (sort_values busy_day)) = Some ro
    ∧ last (filter (λ r, date r = 19758) (sort_values busy_day)) = Some rc
    ∧ (ro ∈ busy_day ∧ date ro = 19758) ∧ (rc ∈ busy_day ∧ date rc = 19758)
    ∧ (rh ∈ busy_day ∧ date rh = 19758) ∧ (rl ∈ busy_day ∧ date rl = 19758)
    ∧ open b = Some (rating ro) ∧ close b = Some (rating rc)
    ∧ high b = Some (rating rh) ∧ low b = Some (rating rl)
    ∧ ∀ r, r ∈ busy_day → date r = 19758 →
        timestamp ro ≤ timestamp r ≤ timestamp rc
        ∧ rating rl ≤ rating r ≤ rating rh.
Proof.
  assert (H1 : busy_day ≠ []) by (vm_compute; discriminate).
  assert (H2 : ∃ r, r ∈ busy_day ∧ date r = 19758).
  { exists {| date := 19758; rating := 980; timestamp := 19758 * 86400 + 43200 |}.
    split; [left|reflexivity]. }
  split; [exact H1|]. split; [exact H2|].
  exact (C1_observed_day_bar busy_day "blitz" 19758 H1 H2).
Defined.

Lemma C2_forward_fill_witness :
  two_days ≠ []
  ∧ (∃ r1 r2, r1 ∈ two_days ∧ r2 ∈ two_days ∧ date r1 ≤ 19724 ≤ date r2)
  ∧ (∀ r, r ∈ two_days → date r ≠ 19724)
  ∧ ∃ fig b b_prev rc,
    create_candlestick_chart two_days "blitz" = Some fig
    ∧ b ∈ fig_data fig ∧ bar_date b = 19724
    ∧ (∀ b', b' ∈ fig_data fig → bar_date b' = 19724 → b' = b)
    ∧ b_prev ∈ fig_data fig ∧ bar_date b_prev < 19724
    ∧ (rc ∈ two_days ∧ date rc = bar_date b_prev)
    ∧ (∀ r, r ∈ two_days → date r < 19724 → date r ≤ bar_date b_prev)
    ∧ last (filter (λ r, date r = bar_date b_prev) (sort_values two_days)) = Some rc
    ∧ close b_prev = Some (rating rc)
    ∧ open b = close b_prev ∧ high b = close b_prev
    ∧ low b = close b_prev ∧ close b = close b_prev.
Proof.
  assert (H1 : two_days ≠ []) by (vm_compute; discriminate).
  assert (H2 : ∃ r1 r2, r1 ∈ two_days ∧ r2 ∈ two_days ∧ date r1 ≤ 19724 ≤ date r2).
  { exists {| date := 19723; rating := 1000; timestamp := 19723 * 86400 + 3600 |},
           {| date := 19725; rating := 1050; timestamp := 19725 * 86400 + 36000 |}.
    split; [right; left|]. split; [left|]. simpl. lia. }
  assert (H3 : ∀ r, r ∈ two_days → date r ≠ 19724).
  { intros r Hr. unfold two_days in Hr.
    apply elem_of_cons in Hr as [->|Hr]; [simpl; lia|].
    apply elem_of_cons in Hr as [->|Hr]; [simpl; lia|].
    by apply elem_of_nil in Hr. }
  split; [exact H1|]. split; [exact H2|]. split; [exact H3|].
  exact (C2_forward_fill two_days "blitz" 19724 H1 H2 H3).
Defined.

Lemma C3_one_bar_per_day_witness :
  two_days ≠ [] ∧
  ∃ fig lo hi,
    create_candlestick_chart two_days "blitz" = Some fig
    ∧ (∃ r, r ∈ two_days ∧ date r = lo) ∧ (∀ r, r ∈ two_days → lo ≤ date r)
    ∧ (∃ r, r ∈ two_days ∧ date r = hi) ∧ (∀ r, r ∈ two_days → date r ≤ hi)
    ∧ bar_date <$> fig_data fig = seqZ lo (hi - lo + 1)
    ∧ length (fig_data fig) = Z.to_nat (hi - lo + 1)
    ∧ (∀ d, lo ≤ d ≤ hi ↔ ∃ b, b ∈ fig_data fig ∧ bar_date b = d)
    ∧ StronglySorted Z.lt (bar_date <$> fig_data fig)
    ∧ NoDup (bar_date <$> fig_data fig)
    ∧ (∀ (i : nat) b b', fig_data fig !! i = Some b → fig_data fig !! S i = Some b' →
         bar_date b' = bar_date b + 1).
Proof.
  assert (H1 : two_days ≠ []) by (vm_compute; discriminate).
  split; [exact H1|].
  exact (C3_one_bar_per_day two_days "blitz" H1).
Defined.

(** C4, as the claim states it, fails: two observations of one day with
    the same timestamp give a different bar in each order. *)
Lemma C4_counterexample :
  tied_rows ≡ₚ tied_rows_swapped
  ∧ create_candlestick_chart tied_rows "rapid"
    ≠ create_candlestick_chart tied_rows_swapped "rapid".
Proof.
  split; [apply Permutation_swap|].
  vm_compute. intros H. discriminate H.
Qed.

Lemma C4_order_independent_without_ties_witness :
  two_days ≡ₚ reverse two_days
  ∧ (∀ a b, a ∈ two_days → b ∈ two_days → timestamp a = timestamp b → a = b)
  ∧ create_candlestick_chart two_days "blitz"
    = create_candlestick_chart (reverse two_days) "blitz".
Proof.
  assert (H1 : two_days ≡ₚ reverse two_days) by apply Permutation_swap.
  assert (H2 : ∀ a b, a ∈ two_days → b ∈ two_days → timestamp a = timestamp b → a = b).
  { intros a b Ha Hb. unfold two_days in Ha, Hb.
    apply elem_of_cons in Ha as [->|Ha];
      [|apply elem_of_cons in Ha as [->|Ha]; [|by apply elem_of_nil in Ha]];
    (apply elem_of_cons in Hb as [->|Hb];
      [|apply elem_of_cons in Hb as [->|Hb]; [|by apply elem_of_nil in Hb]]);
    simpl; intros Heq; first [reflexivity | lia]. }
  split; [exact H1|]. split; [exact H2|].
  exact (C4_order_independent_without_ties two_days (reverse two_days) "blitz" H1 H2).
Defined.

(** ** The result cache *)

Lemma SimpleCache_get_hit {V : Type} (self : SimpleCache V) key value inserted now :
  cache self !! key = Some (value, inserted) →
  now - inserted < timeout self →
  SimpleCache_get now key self = (Some value, self).
Proof.
  intros Hk Hlt. unfold SimpleCache_get. rewrite Hk.
  by rewrite bool_decide_eq_true_2.
Qed.

Lemma SimpleCache_get_expired {V : Type} (self : SimpleCache V) key value inserted now :
  cache self !! key = Some (value, inserted) →
  ¬ (now - inserted < timeout self) →
  SimpleCache_get now key self
  = (None, {| cache := delete key (cache self); timeout := timeout self |}).
Proof.
  intros Hk Hlt. unfold SimpleCache_get. rewrite Hk.
  by rewrite bool_decide_eq_false_2.
Qed.

(** What [get] leaves in the store was there before. *)
Lemma SimpleCache_get_subseteq {V : Type} (self : SimpleCache V) key now :
  cache (SimpleCache_get now key self).2 ⊆ cache self
  ∧ timeout (SimpleCache_get now key self).2 = timeout self.
Proof.
  unfold SimpleCache_get. destruct (cache self !! key) as [[value inserted]|]; [|done].
  case_bool_decide; [done|]. split; [|done]. apply delete_subseteq.
Qed.

(** C5. On a cache whose timeout is 300: a [get] of the key just set, less
    than 300 after the [set], returns the value set and leaves the store
    as the [set] left it; a [get] of a key whose entry is 300 or more old
    returns a miss and leaves the store without any entry for that key, the
    other entries untouched. *)
Theorem C5_cache_round_trip_and_expiry {V : Type} (self : SimpleCache V)
  (key : string) (value : V) (now now' : Z) :
  timeout self = 300 →
  (now' - now < 300 →
     SimpleCache_get now' key (SimpleCache_set now key value self)
     = (Some value, SimpleCache_set now key value self))
  ∧ (∀ inserted, cache self !! key = Some (value, inserted) →
       ¬ (now' - inserted < 300) →
       (SimpleCache_get now' key self).1 = None
       ∧ cache (SimpleCache_get now' key self).2 = delete key (cache self)
       ∧ cache (SimpleCache_get now' key self).2 !! key = None
       ∧ timeout (SimpleCache_get now' key self).2 = 300)
  ∧ (¬ (now' - now < 300) →
       (SimpleCache_get now' key (SimpleCache_set now key value self)).1 = None
       ∧ cache (SimpleCache_get now' key (SimpleCache_set now key value self)).2 !! key
         = None).
Proof.
  intros Ht. split; [|split].
  - intros Hlt. apply (SimpleCache_get_hit _ _ value now).
    + unfold SimpleCache_set. simpl. apply lookup_insert_eq.
    + simpl. lia.
  - intros inserted Hk Hold.
    rewrite (SimpleCache_get_expired _ _ value inserted) by (rewrite ?Ht; done).
    simpl. split; [done|]. split; [done|]. split; [apply lookup_delete_eq|done].
  - intros Hold.
    rewrite (SimpleCache_get_expired _ _ value now).
    + simpl. split; [done|]. apply lookup_delete_eq.
    + unfold SimpleCache_set. simpl. apply lookup_insert_eq.
    + simpl. by rewrite Ht.
Qed.

Lemma C5_cache_round_trip_and_expiry_witness :
  timeout (SimpleCache_init (V := string) 300) = 300
  ∧ SimpleCache_get 1010 "bob_blitz"
      (SimpleCache_set 1000 "bob_blitz" "<div/>" (SimpleCache_init 300))
    = (Some "<div/>", SimpleCache_set 1000 "bob_blitz" "<div/>" (SimpleCache_init 300))
  ∧ (SimpleCache_get 1300 "bob_blitz"
       (SimpleCache_set 1000 "bob_blitz" "<div/>" (SimpleCache_init 300))).1 = None.
Proof.
  assert (H : timeout (SimpleCache_init (V := string) 300) = 300) by reflexivity.
  pose proof (C5_cache_round_trip_and_expiry (SimpleCache_init 300)
                "bob_blitz" "<div/>" 1000 1010 H) as [Hhit _].
  pose proof (C5_cache_round_trip_and_expiry (SimpleCache_init 300)
                "bob_blitz" "<div/>" 1000 1300 H) as [_ [_ Hmiss]].
  split; [exact H|]. split.
  - apply Hhit. lia.
  - apply Hmiss. lia.
Defined.

(** ** The look-ups *)

Section Lookups.

Variable transport : string → outcome.

Lemma session_get_Returned url response s :
  transport url = Returned response →
  session_get transport url s = (Ok response, log_request url s).
Proof. intros H. unfold session_get. by rewrite H. Qed.

Lemma session_get_Failed url msg s :
  transport url = Failed msg →
  session_get transport url s = (Raise (RequestException msg), log_request url s).
Proof. intros H. unfold session_get. by rewrite H. Qed.

(** Whatever the upstream does, a period fetch returns a list. *)
Lemma get_single_month_games_total username year month time_control s :
  ∃ games,
    get_single_month_games transport (username, year, month, time_control) s
    = (Ok games, log_request (games_url username year month) s).
Proof.
  unfold get_single_month_games, try_except, mbind, M_bind, session_get.
  destruct (transport (games_url username year month)) as [response|msg]; simpl.
  - case_bool_decide; eauto.
  - eauto.
Qed.

Lemma get_single_month_games_not_ok username year month time_control s :
  not_ok (transport (games_url username year month)) →
  get_single_month_games transport (username, year, month, time_control) s
  = (Ok [], log_request (games_url username year month) s).
Proof.
  unfold not_ok, get_single_month_games, try_except, mbind, M_bind, session_get.
  destruct (transport (games_url username year month)) as [response|msg]; simpl.
  - intros Hne. by rewrite bool_decide_eq_false_2.
  - done.
Qed.

Lemma fetch_all_games_total username months time_control s :
  ∃ all_games,
    fetch_all_games transport username months time_control s
    = (Ok all_games,
       log_requests ((λ ym : Z * Z, games_url username ym.1 ym.2) <$> months) s).
Proof.
  unfold fetch_all_games.
  assert (H : ∀ s, ∃ results,
    executor_map (get_single_month_games transport)
      ((λ ym : Z * Z, (username, ym.1, ym.2, time_control)) <$> months) s
    = (Ok results,
       log_requests ((λ ym : Z * Z, games_url username ym.1 ym.2) <$> months) s)).
  { induction months as [|[year month] months IH]; intros s0.
    - by exists [].
    - rewrite !fmap_cons. cbn [executor_map fst snd].
      destruct (get_single_month_games_total username year month time_control s0)
        as [games Hg].
      destruct (IH (log_request (games_url username year month) s0)) as [results Hr].
      exists (games :: results).
      unfold mbind, M_bind at 1. rewrite Hg.
      unfold mbind, M_bind at 1. rewrite Hr. done. }
  destruct (H s) as [results Hr]. exists (concat results).
  unfold mbind, M_bind. by rewrite Hr.
Qed.

Lemma fetch_all_games_not_ok username months time_control s :
  (∀ ym : Z * Z, ym ∈ months → not_ok (transport (games_url username ym.1 ym.2))) →
  fetch_all_games transport username months time_control s
  = (Ok [],
     log_requests ((λ ym : Z * Z, games_url username ym.1 ym.2) <$> months) s).
Proof.
  intros Hall. unfold fetch_all_games.
  assert (H : ∀ s,
    executor_map (get_single_month_games transport)
      ((λ ym : Z * Z, (username, ym.1, ym.2, time_control)) <$> months) s
    = (Ok (replicate (length months) []),
       log_requests ((λ ym : Z * Z, games_url username ym.1 ym.2) <$> months) s)).
  { induction months as [|[year month] months IH]; intros s0; [done|].
    rewrite !fmap_cons. cbn [executor_map fst snd length replicate].
    unfold mbind, M_bind at 1.
    rewrite get_single_month_games_not_ok
      by (apply (Hall (year, month)); left).
    unfold mbind, M_bind at 1. rewrite IH; [done|].
    intros ym Hym. apply Hall. by right. }
  unfold mbind, M_bind. rewrite H. do 2 f_equal.
  clear. induction (length months) as [|n IH]; [done|]. simpl. by rewrite IH.
Qed.

Lemma get_user_archives_no_archives username s :
  no_archives (transport (archives_url username)) →
  get_user_archives transport username s
  = (Ok [], log_request (archives_url username) s).
Proof.
  unfold no_archives, get_user_archives, try_except, mbind, M_bind, session_get.
  destruct (transport (archives_url username)) as [response|msg]; simpl; [|done].
  case_bool_decide as H200; [|done].
  intros [Hne| ->]; [done|]. done.
Qed.

Lemma get_user_profile_404 username response s :
  memo_lookup username (profile_memo s) = None →
  transport (profile_url username) = Returned response →
  status_code response = 404 →
  get_user_profile transport username s
  = (Raise (ChessAPIError "User not found"), log_request (profile_url username) s).
Proof.
  intros Hmemo Hresp H404.
  unfold get_user_profile. rewrite Hmemo.
  unfold get_user_profile_body, try_except, mbind, M_bind, session_get.
  rewrite Hresp. simpl. rewrite H404. simpl. done.
Qed.

End Lookups.

(** C6, as the claim states it, fails: for an unknown username (404) and
    for an upstream that cannot be reached, the archive look-up raises
    nothing and returns the empty list. *)
Lemma C6_counterexample :
  ((get_user_archives upstream_404 "nobody" fresh_state).1 = Ok []
   ∧ ∀ e, (get_user_archives upstream_404 "nobody" fresh_state).1 ≠ Raise e)
  ∧ ((get_user_archives upstream_down "nobody" fresh_state).1 = Ok []
     ∧ ∀ e, (get_user_archives upstream_down "nobody" fresh_state).1 ≠ Raise e).
Proof.
  split; (split; [vm_compute; reflexivity|intros e; vm_compute; discriminate]).
Qed.

(** C6, as the code has it. When the upstream answers the archive request
    with any status other than 200 (404 included), or does not answer at
    all, or answers 200 with an empty or absent archive list, the archive
    look-up returns the empty list (and raises nothing), after its one
    request. *)
Theorem C6_archive_lookup_returns_empty (transport : string → outcome)
  (username : string) (s : State) :
  no_archives (transport (archives_url username)) →
  get_user_archives transport username s
  = (Ok [], log_request (archives_url username) s).
Proof. apply get_user_archives_no_archives. Qed.

Lemma C6_archive_lookup_returns_empty_witness :
  no_archives (upstream_down (archives_url "nobody"))
  ∧ get_user_archives upstream_down "nobody" fresh_state
    = (Ok [], log_request (archives_url "nobody") fresh_state).
Proof.
  assert (H : no_archives (upstream_down (archives_url "nobody"))) by exact I.
  split; [exact H|].
  exact (C6_archive_lookup_returns_empty upstream_down "nobody" fresh_state H).
Defined.

(** C7. A period fetch answered 404 returns the empty list; so does one
    answered with any other status than 200, and one that gets no answer.
    The fetch of all periods always returns (it never raises), and when
    every period fetch fails in one of these ways it returns the empty
    collection; the orchestrator then goes on to the extraction and ends
    with the message that no game of the mode was found. *)
Theorem C7_period_failures_yield_empty (transport : string → outcome)
  (utcoffset : Z → Z) (username time_control : string) :
  (∀ year month s response,
     transport (games_url username year month) = Returned response →
     status_code response = 404 →
     get_single_month_games transport (username, year, month, time_control) s
     = (Ok [], log_request (games_url username year month) s))
  ∧ (∀ year month s,
       not_ok (transport (games_url username year month)) →
       get_single_month_games transport (username, year, month, time_control) s
       = (Ok [], log_request (games_url username year month) s))
  ∧ (∀ months s, ∃ all_games,
       fetch_all_games transport username months time_control s
       = (Ok all_games,
          log_requests ((λ ym : Z * Z, games_url username ym.1 ym.2) <$> months) s))
  ∧ (∀ months s,
       (∀ ym : Z * Z, ym ∈ months → not_ok (transport (games_url username ym.1 ym.2))) →
       fetch_all_games transport username months time_control s
       = (Ok [],
          log_requests ((λ ym : Z * Z, games_url username ym.1 ym.2) <$> months) s))
  ∧ (∀ months s profile s1 s2,
       get_user_profile transport username s = (Ok profile, s1) →
       get_user_archives transport username s1 = (Ok months, s2) →
       months ≠ [] →
       (∀ ym : Z * Z, ym ∈ months → not_ok (transport (games_url username ym.1 ym.2))) →
       fetch_and_process_games transport utcoffset username time_control s
       = (Ok (None, Some ("No " +:+ time_control +:+ " games found for "
                          +:+ username +:+ ".")),
          log_requests ((λ ym : Z * Z, games_url username ym.1 ym.2) <$> months) s2)).
Proof.
  split; [|split; [|split; [|split]]].
  - intros year month s response Hresp H404.
    apply get_single_month_games_not_ok. unfold not_ok. rewrite Hresp, H404. lia.
  - intros. by apply get_single_month_games_not_ok.
  - intros. apply fetch_all_games_total.
  - intros. by apply fetch_all_games_not_ok.
  - intros months s profile s1 s2 Hprofile Harchives Hne Hall.
    unfold fetch_and_process_games, try_except.
    unfold mbind, M_bind at 1. rewrite Hprofile.
    unfold mbind, M_bind at 1. rewrite Harchives.
    destruct months as [|ym months]; [done|].
    unfold mbind, M_bind at 1.
    rewrite (fetch_all_games_not_ok _ _ _ _ _ Hall).
    done.
Qed.

Lemma C7_period_failures_yield_empty_witness :
  fetch_and_process_games upstream_bad_months utc "bob" "blitz" fresh_state
  = (Ok (None, Some ("No " +:+ "blitz" +:+ " games found for " +:+ "bob" +:+ ".")),
     log_requests
       ((λ ym : Z * Z, games_url "bob" ym.1 ym.2) <$> [(2024, 1); (2024, 2)])
       (log_request (archives_url "bob")
          (get_user_profile upstream_bad_months "bob" fresh_state).2)).
Proof.
  refine (proj2 (proj2 (proj2 (proj2
    (C7_period_failures_yield_empty upstream_bad_months utc "bob" "blitz"))))
    [(2024, 1); (2024, 2)] fresh_state empty_body
    (get_user_profile upstream_bad_months "bob" fresh_state).2
    (log_request (archives_url "bob")
       (get_user_profile upstream_bad_months "bob" fresh_state).2) _ _ _ _).
  - vm_compute. reflexivity.
  - vm_compute. reflexivity.
  - discriminate.
  - intros ym Hym.
    apply elem_of_cons in Hym as [->|Hym]; [vm_compute; discriminate|].
    apply elem_of_cons in Hym as [->|Hym]; [vm_compute; exact I|].
    destruct (proj1 (elem_of_nil ym) Hym).
Defined.

(** C8, as the claim states it, fails: the message reported for a profile
    answered 404 is ["User not found"], without the final full stop. *)
Lemma C8_counterexample :
  memo_lookup "nobody" (profile_memo fresh_state) = None
  ∧ (∃ response, upstream_404 (profile_url "nobody") = Returned response
                 ∧ status_code response = 404)
  ∧ (fetch_and_process_games upstream_404 utc "nobody" "blitz" fresh_state).1
    ≠ Ok (None, Some "User not found.").
Proof.
  split; [reflexivity|]. split; [by eexists|].
  vm_compute. discriminate.
Qed.

(** C8, as the code has it. When the profile is not memoised and the
    profile request is answered 404, the orchestrator returns no figure
    and the message ["User not found"]; the profile request is the only
    request it has sent, and nothing else of the state has changed. *)
Theorem C8_profile_404_aborts (transport : string → outcome) (utcoffset : Z → Z)
  (username time_control : string) (s : State) (response : Response) :
  memo_lookup username (profile_memo s) = None →
  transport (profile_url username) = Returned response →
  status_code response = 404 →
  fetch_and_process_games transport utcoffset username time_control s
  = (Ok (None, Some "User not found"), log_request (profile_url username) s).
Proof.
  intros Hmemo Hresp H404.
  unfold fetch_and_process_games, try_except.
  unfold mbind, M_bind at 1.
  by rewrite (get_user_profile_404 _ _ _ _ Hmemo Hresp H404).
Qed.

Lemma C8_profile_404_aborts_witness :
  memo_lookup "nobody" (profile_memo fresh_state) = None
  ∧ upstream_404 (profile_url "nobody")
    = Returned {| status_code := 404; json := empty_body |}
  ∧ status_code {| status_code := 404; json := empty_body |} = 404
  ∧ fetch_and_process_games upstream_404 utc "nobody" "blitz" fresh_state
    = (Ok (None, Some "User not found"),
       log_request (profile_url "nobody") fresh_state).
Proof.
  assert (H1 : memo_lookup "nobody" (profile_memo fresh_state) = None) by reflexivity.
  assert (H2 : upstream_404 (profile_url "nobody")
               = Returned {| status_code := 404; json := empty_body |}) by reflexivity.
  assert (H3 : status_code {| status_code := 404; json := empty_body |} = 404)
    by reflexivity.
  split; [exact H1|]. split; [exact H2|]. split; [exact H3|].
  exact (C8_profile_404_aborts upstream_404 utc "nobody" "blitz" fresh_state _ H1 H2 H3).
Defined.

(** ** The observation extractor *)

Section Extractor.

Variable utcoffset : Z → Z.

Lemma extract_game_data_rows games username :
  extract_game_data utcoffset games username
  = extract_rows utcoffset (str_lower username) games.
Proof. by destruct games. Qed.

(** A game whose [end_time] is absent or zero appends nothing: the loop
    either raises on it or goes on with the rest. *)
Lemma extract_rows_falsy username_lower game rest rows :
  falsy_end_time game →
  extract_rows utcoffset username_lower (game :: rest) = Ok rows →
  extract_rows utcoffset username_lower rest = Ok rows.
Proof.
  intros Hfalsy. cbn [extract_rows].
  set (player_data := if bool_decide _ then _ else _).
  destruct player_data as [p|e]; [|done].
  unfold mbind, result_bind at 1.
  assert (Happ : match end_time game with
                 | Some e =>
                     if bool_decide (e ≠ 0) then
                       [ {| date := fromtimestamp utcoffset e `div` 86400;
                            rating := default 0 (player_rating p);
                            timestamp := fromtimestamp utcoffset e |} ]
                     else []
                 | None => []
                 end = []).
  { destruct Hfalsy as [-> | ->]; [done|]. by rewrite bool_decide_eq_false_2 by lia. }
  rewrite Happ.
  destruct (extract_rows utcoffset username_lower rest) as [data|e]; [|done].
  done.
Qed.

Lemma extract_rows_drop username_lower games1 game games2 rows :
  falsy_end_time game →
  extract_rows utcoffset username_lower (games1 ++ game :: games2) = Ok rows →
  extract_rows utcoffset username_lower (games1 ++ games2) = Ok rows.
Proof.
  intros Hfalsy. revert rows.
  induction games1 as [|g games1 IH]; intros rows.
  - apply extract_rows_falsy, Hfalsy.
  - rewrite <- !app_comm_cons. cbn [extract_rows].
    set (player_data := if bool_decide _ then _ else _).
    destruct player_data as [p|e]; [|done].
    unfold mbind, result_bind at 1. unfold mbind, result_bind at 2.
    destruct (extract_rows utcoffset username_lower (games1 ++ game :: games2))
      as [data|e] eqn:Hd; [|done].
    by rewrite (IH data eq_refl).
Qed.

(** Every row comes from a game with a non-zero [end_time]. *)
Lemma extract_rows_origin username_lower games rows row :
  extract_rows utcoffset username_lower games = Ok rows →
  row ∈ rows →
  ∃ game e, game ∈ games ∧ end_time game = Some e ∧ e ≠ 0
            ∧ timestamp row = fromtimestamp utcoffset e
            ∧ date row = fromtimestamp utcoffset e `div` 86400.
Proof.
  revert rows. induction games as [|g games IH]; intros rows.
  - intros [= <-] Hrow. by apply elem_of_nil in Hrow.
  - cbn [extract_rows].
    set (player_data := if bool_decide _ then _ else _).
    destruct player_data as [p|e]; [|done].
    unfold mbind, result_bind at 1.
    destruct (extract_rows utcoffset username_lower games) as [data|e] eqn:Hd; [|done].
    intros [= <-] Hrow. apply elem_of_app in Hrow as [Hrow|Hrow].
    + destruct (end_time g) as [e|] eqn:He; [|by apply elem_of_nil in Hrow].
      case_bool_decide as Hne; [|by apply elem_of_nil in Hrow].
      apply list_elem_of_singleton in Hrow as ->.
      exists g, e. split; [left|done].
    + destruct (IH data eq_refl Hrow) as (game & e & Hin & Hrest).
      exists game, e. split; [by right|done].
Qed.

End Extractor.

(** C9. A game whose [end_time] is absent or zero yields no observation:
    taking it out of the input leaves the extracted observations as they
    were, and when both of its players are present it is simply stepped
    over.  Every observation that is extracted comes from a game with a
    non-zero [end_time], so none comes from epoch zero. *)
Theorem C9_falsy_end_time_yields_no_observation (utcoffset : Z → Z)
  (username : string) :
  (∀ games1 game games2 rows,
     falsy_end_time game →
     extract_game_data utcoffset (games1 ++ game :: games2) username = Ok rows →
     extract_game_data utcoffset (games1 ++ games2) username = Ok rows)
  ∧ (∀ game games pw pb,
       falsy_end_time game →
       white game = Some pw → black game = Some pb →
       extract_game_data utcoffset (game :: games) username
       = extract_game_data utcoffset games username)
  ∧ (∀ games rows row,
       extract_game_data utcoffset games username = Ok rows →
       row ∈ rows →
       ∃ game e, game ∈ games ∧ end_time game = Some e ∧ e ≠ 0
                 ∧ timestamp row = fromtimestamp utcoffset e
                 ∧ date row = fromtimestamp utcoffset e `div` 86400).
Proof.
  split; [|split].
  - intros games1 game games2 rows Hfalsy.
    rewrite !extract_game_data_rows. by apply extract_rows_drop.
  - intros game games pw pb Hfalsy Hw Hb.
    rewrite !extract_game_data_rows. cbn [extract_rows].
    rewrite Hw, Hb. cbn [default].
    assert (Happ : ∀ p, match end_time game with
                   | Some e =>
                       if bool_decide (e ≠ 0) then
                         [ {| date := fromtimestamp utcoffset e `div` 86400;
                              rating := default 0 (player_rating p);
                              timestamp := fromtimestamp utcoffset e |} ]
                       else []
                   | None => []
                   end = []).
    { intros p. destruct Hfalsy as [-> | ->]; [done|].
      by rewrite bool_decide_eq_false_2 by lia. }
    case_bool_decide; unfold mbind, result_bind at 1; rewrite Happ;
      by destruct (extract_rows utcoffset (str_lower username) games).
  - intros games rows row. rewrite extract_game_data_rows.
    apply extract_rows_origin.
Qed.

Lemma C9_falsy_end_time_yields_no_observation_witness :
  falsy_end_time epoch_zero_game
  ∧ extract_game_data utc [epoch_zero_game] "bob" = Ok []
  ∧ extract_game_data utc [epoch_zero_game] "bob" = extract_game_data utc [] "bob".
Proof.
  assert (H : falsy_end_time epoch_zero_game) by (right; reflexivity).
  split; [exact H|]. split; [vm_compute; reflexivity|].
  exact (proj1 (proj2 (C9_falsy_end_time_yields_no_observation utc "bob"))
           epoch_zero_game [] _ _ H eq_refl eq_refl).
Defined.

(** ** The result cache across a request *)

Lemma keeps_store_ret {A : Type} (a : A) : keeps_store (mret a).
Proof. by intros s. Qed.

Lemma keeps_store_raise {A : Type} (e : exn) : keeps_store (raise (A := A) e).
Proof. by intros s. Qed.

Lemma keeps_store_lift {A : Type} (r : result A) : keeps_store (lift r).
Proof. by intros s. Qed.

Lemma keeps_store_bind {A B : Type} (m : M A) (f : A → M B) :
  keeps_store m → (∀ a, keeps_store (f a)) → keeps_store (m ≫= f).
Proof.
  intros Hm Hf s. unfold mbind, M_bind. specialize (Hm s).
  destruct (m s) as [[a|e] s1]; simpl in *; [|done].
  by rewrite Hf.
Qed.

Lemma keeps_store_try_except {A : Type} (body : M A) (handler : exn → option (M A)) :
  keeps_store body →
  (∀ e h, handler e = Some h → keeps_store h) →
  keeps_store (try_except body handler).
Proof.
  intros Hb Hh s. unfold try_except. specialize (Hb s).
  destruct (body s) as [[a|e] s1]; simpl in *; [done|].
  destruct (handler e) as [h|] eqn:He; [|done].
  by rewrite (Hh e h He).
Qed.

Lemma keeps_store_on_RequestException {A : Type} (k : string → M A) e h :
  (∀ msg, keeps_store (k msg)) →
  on_RequestException k e = Some h → keeps_store h.
Proof. intros Hk. destruct e; simpl; intros [= <-]; apply Hk. Qed.

Section Request.

Variable transport : string → outcome.
Variable clock : nat → Z.
Variable utcoffset : Z → Z.
Variable to_html : Figure → string.

Lemma keeps_store_session_get url : keeps_store (session_get transport url).
Proof. intros s. unfold session_get. by destruct (transport url). Qed.

Lemma keeps_store_get_user_profile username :
  keeps_store (get_user_profile transport username).
Proof.
  intros s. unfold get_user_profile.
  destruct (memo_lookup username (profile_memo s)); [done|].
  assert (Hbody : keeps_store (get_user_profile_body transport username)).
  { apply keeps_store_try_except.
    - apply keeps_store_bind; [apply keeps_store_session_get|].
      intros response. repeat case_bool_decide;
        first [apply keeps_store_ret | apply keeps_store_raise].
    - intros e h. apply keeps_store_on_RequestException.
      intros msg. apply keeps_store_raise. }
  specialize (Hbody s).
  by destruct (get_user_profile_body transport username s) as [[v|e] s1].
Qed.

Lemma keeps_store_get_user_archives username :
  keeps_store (get_user_archives transport username).
Proof.
  apply keeps_store_try_except.
  - apply keeps_store_bind; [apply keeps_store_session_get|].
    intros response. case_bool_decide;
      first [apply keeps_store_lift | apply keeps_store_ret].
  - intros e h. apply keeps_store_on_RequestException.
    intros msg. apply keeps_store_ret.
Qed.

Lemma keeps_store_fetch_all_games username months time_control :
  keeps_store (fetch_all_games transport username months time_control).
Proof.
  intros s.
  destruct (fetch_all_games_total transport username months time_control s)
    as [all_games ->]. simpl.
  generalize ((λ ym : Z * Z, games_url username ym.1 ym.2) <$> months).
  intros urls. revert s. induction urls as [|url urls IH]; intros s; [done|].
  unfold log_requests in *. simpl. by rewrite IH.
Qed.

Lemma keeps_store_fetch_and_process_games username time_control :
  keeps_store (fetch_and_process_games transport utcoffset username time_control).
Proof.
  apply keeps_store_try_except.
  - apply keeps_store_bind; [apply keeps_store_get_user_profile|]. intros _.
    apply keeps_store_bind; [apply keeps_store_get_user_archives|]. intros months.
    destruct months as [|ym months]; [apply keeps_store_ret|].
    apply keeps_store_bind; [apply keeps_store_fetch_all_games|]. intros all_games.
    apply keeps_store_bind; [apply keeps_store_lift|]. intros game_data.
    destruct game_data as [|row game_data]; [apply keeps_store_ret|].
    cbv zeta.
    destruct (create_candlestick_chart (row :: game_data) time_control);
      apply keeps_store_ret.
  - intros e h He. destruct e; injection He as <-; apply keeps_store_ret.
Qed.

(** What [cache.get] leaves in the store was there before. *)
Lemma cache_get_subseteq key s :
  cache (store (cache_get clock key s).2) ⊆ cache (store s).
Proof.
  unfold cache_get. destruct (cache (store s) !! key); [|done].
  unfold time_time. cbn [store].
  pose proof (SimpleCache_get_subseteq (store s) key (clock (ticks s))) as [Hsub _].
  by destruct (SimpleCache_get (clock (ticks s)) key (store s)).
Qed.

End Request.

(** A request ends with the chart page or has inserted nothing. *)
Lemma index_chart_or_no_insert (transport : string → outcome)
  (clock : nat → Z) (utcoffset : Z → Z) (to_html : Figure → string)
  (request : Request) (s : State) :
  (∃ username time_control chart_html,
     (index transport clock utcoffset to_html request s).1
     = Ok (render_chart username time_control chart_html))
  ∨ cache (store (index transport clock utcoffset to_html request s).2)
    ⊆ cache (store s).
Proof.
  unfold index, mbind, M_bind, fmap, M_fmap, form_get, mret, M_ret, raise.
  case_bool_decide as Hpost; [|right; reflexivity].
  destruct (form request !! "username") as [u|]; cbn beta iota;
    [|right; reflexivity].
  destruct (form request !! "time_control") as [t|]; cbn beta iota;
    [|right; reflexivity].
  destruct (validate_username (str_strip u)); cbn [negb]; [|right; reflexivity].
  case_bool_decide as Htc; cbn [negb]; [|right; reflexivity].
  pose proof (cache_get_subseteq clock
                (str_strip u +:+ "_" +:+ str_lower (str_strip t)) s) as Hget.
  destruct (cache_get clock (str_strip u +:+ "_" +:+ str_lower (str_strip t)) s)
    as [[cached_result|e] s1]; cbn [fst snd] in *; [|by right].
  destruct (truthy cached_result); [left; by eauto|].
  pose proof (keeps_store_fetch_and_process_games transport utcoffset
                (str_strip u) (str_lower (str_strip t)) s1) as Hkeep.
  destruct (fetch_and_process_games transport utcoffset (str_strip u)
              (str_lower (str_strip t)) s1) as [[[fig error]|e] s2];
    cbn [fst snd] in *; [|right; cbn [fst snd]; by rewrite Hkeep].
  destruct (truthy error); [right; cbn [fst snd]; by rewrite Hkeep|].
  destruct fig as [fig|]; [|right; cbn [fst snd]; by rewrite Hkeep].
  left. unfold cache_set, time_time. cbn [fst]. by eauto.
Qed.

(** C10. Whenever [index] ends otherwise than by rendering the chart page
    (an error page for invalid input, for an unknown user, for a network
    failure, for empty results or for a chart that could not be made, the
    plain form, or a bad request), every entry of the result cache at the
    end was in it at the start: the request has inserted nothing, under
    any key. *)
Theorem C10_no_cache_write_without_chart (transport : string → outcome)
  (clock : nat → Z) (utcoffset : Z → Z) (to_html : Figure → string)
  (request : Request) (s : State) :
  (∀ username time_control chart_html,
     (index transport clock utcoffset to_html request s).1
     ≠ Ok (render_chart username time_control chart_html)) →
  cache (store (index transport clock utcoffset to_html request s).2)
  ⊆ cache (store s).
Proof.
  intros Hno.
  destruct (index_chart_or_no_insert transport clock utcoffset to_html request s)
    as [(username & time_control & chart_html & Hchart)|Hsub]; [|done].
  by destruct (Hno _ _ _ Hchart).
Qed.

Lemma C10_no_cache_write_without_chart_witness :
  (∀ username time_control chart_html,
     (index upstream_bad_months still_clock utc plain_html
        bob_blitz_request fresh_state).1
     ≠ Ok (render_chart username time_control chart_html))
  ∧ cache (store (index upstream_bad_months still_clock utc plain_html
                    bob_blitz_request fresh_state).2)
    ⊆ cache (store fresh_state).
Proof.
  assert (H : ∀ username time_control chart_html,
             (index upstream_bad_months still_clock utc plain_html
                bob_blitz_request fresh_state).1
             ≠ Ok (render_chart username time_control chart_html)).
  { intros username time_control chart_html. vm_compute. discriminate. }
  split; [exact H|].
  exact (C10_no_cache_write_without_chart upstream_bad_months still_clock utc
           plain_html bob_blitz_request fresh_state H).
Defined.

(** * Further properties of the code *)

(** ** [SimpleCache] *)

(** X1. Entries under other keys are out of reach of [set] and [get] on a
    key: a [set] on [key] changes no later [get] of another key, a [get] on
    [key] (hit, miss or purge) leaves every other entry in place, and a
    second [set] on the same key replaces the first. *)
Theorem SimpleCache_other_keys_untouched {V : Type} (self : SimpleCache V)
  (key key' : string) (value value' : V) (now now' : Z) :
  key ≠ key' →
  SimpleCache_get now' key' (SimpleCache_set now key value self)
  = ((SimpleCache_get now' key' self).1,
     SimpleCache_set now key value (SimpleCache_get now' key' self).2)
  ∧ cache (SimpleCache_get now key self).2 !! key' = cache self !! key'
  ∧ SimpleCache_set now' key value' (SimpleCache_set now key value self)
    = SimpleCache_set now' key value' self.
Proof.
  intros Hne. split; [|split].
  - unfold SimpleCache_get, SimpleCache_set. cbn [cache timeout].
    rewrite lookup_insert_ne by done.
    destruct (cache self !! key') as [[v inserted]|]; cbn [fst snd cache timeout]; [|done].
    case_bool_decide; cbn [fst snd cache timeout]; [done|].
    do 2 f_equal. apply delete_insert_ne. done.
  - unfold SimpleCache_get.
    destruct (cache self !! key) as [[v inserted]|]; [|done].
    case_bool_decide; [done|]. cbn [snd cache]. by apply lookup_delete_ne.
  - unfold SimpleCache_set. cbn [cache timeout]. f_equal. apply insert_insert_eq.
Qed.

Lemma SimpleCache_other_keys_untouched_witness :
  "bob_blitz" ≠ "bob_rapid"
  ∧ SimpleCache_get 1000 "bob_rapid"
      (SimpleCache_set 950 "bob_blitz" "<b/>" (store warm_state))
    = ((SimpleCache_get 1000 "bob_rapid" (store warm_state)).1,
       SimpleCache_set 950 "bob_blitz" "<b/>"
         (SimpleCache_get 1000 "bob_rapid" (store warm_state)).2).
Proof.
  assert (H : "bob_blitz" ≠ "bob_rapid") by discriminate.
  split; [exact H|].
  exact (proj1 (SimpleCache_other_keys_untouched (store warm_state)
                  "bob_blitz" "bob_rapid" "<b/>" "<b/>" 950 1000 H)).
Defined.



(** ** [validate_username] *)

Lemma all_username_chars_app s t :
  all_username_chars (s +:+ t) = all_username_chars s && all_username_chars t.
Proof.
  induction s as [|c s IH]; simpl; [done|]. rewrite IH. by rewrite andb_assoc.
Qed.

Lemma match_tail_spec s :
  match_tail s = true
  ↔ all_username_chars s = true
    ∨ ∃ v, s = v +:+ String "010" EmptyString ∧ all_username_chars v = true.
Proof.
  induction s as [|c s IH]; simpl.
  - split; [by left|done].
  - destruct (is_username_char c) eqn:Hc; simpl.
    + rewrite IH. split.
      * intros [Hall|(v & -> & Hv)]; [by left|].
        right. exists (String c v). simpl. by rewrite Hc.
      * intros [Hall|(v & Hs & Hv)]; [by left|].
        destruct v as [|c' v]; simpl in *.
        -- injection Hs as -> ->. done.
        -- injection Hs as -> ->. rewrite Hc in Hv. right. by exists v.
    + split.
      * intros [H1 H2]%andb_prop.
        apply bool_decide_eq_true_1 in H1, H2. subst.
        right. by exists EmptyString.
      * intros [Hall|(v & Hs & Hv)]; [done|].
        destruct v as [|c' v]; simpl in *.
        -- injection Hs as -> ->. reflexivity.
        -- injection Hs as -> ->. by rewrite Hc in Hv.
Qed.

(** X3. [validate_username] accepts exactly the strings whose whole
    length is 2 to 30 characters and whose characters are letters, digits,
    [_] and [-], except that the last character may be a newline (which
    the [$] of the pattern lets through).  The length bound is on the
    string as given, a final newline included: one allowed character
    followed by a newline is accepted, thirty allowed characters followed
    by a newline are rejected. *)
Theorem validate_username_accepts_exactly (username : string) :
  validate_username username = true
  ↔ (2 ≤ String.length username ≤ 30)%nat
    ∧ (all_username_chars username = true
       ∨ ∃ v, username = v +:+ String "010" EmptyString
              ∧ all_username_chars v = true).
Proof.
  unfold validate_username, re_match_username.
  destruct username as [|c s].
  { simpl. split; [done|]. intros [[? _] _]. lia. }
  rewrite bool_decide_eq_false_2 by done. cbn [orb].
  repeat case_bool_decide; cbn [orb]; try (split; [done|intros [? _]; lia]).
  rewrite andb_true_iff, match_tail_spec.
  split.
  - intros [Hc [Hall|(v & -> & Hv)]]; (split; [lia|]).
    + left. simpl. by rewrite Hc, Hall.
    + right. exists (String c v). simpl. by rewrite Hc, Hv.
  - intros [_ [Hall|(v & Hs & Hv)]].
    + simpl in Hall. apply andb_prop in Hall as [Hc Hall]. by split; [|left].
    + destruct v as [|c' v]; simpl in *.
      * injection Hs as -> ->. simpl in *. lia.
      * injection Hs as -> ->. apply andb_prop in Hv as [Hc Hv].
        split; [done|]. right. by exists v.
Qed.

(** The length bound counts a final newline. *)
Example validate_username_counts_the_newline :
  validate_username (String "a" (String "010" EmptyString)) = true
  ∧ validate_username "a" = false
  ∧ validate_username "aaaaaaaaaaaaaaaaaaaaaaaaaaaaaa" = true
  ∧ validate_username ("aaaaaaaaaaaaaaaaaaaaaaaaaaaaaa" +:+ String "010" EmptyString)
    = false.
Proof. by vm_compute. Qed.

(** ** Archive URLs: printing and parsing *)

Lemma string_app_nil (t : string) : "" +:+ t = t.
Proof. reflexivity. Qed.

Lemma string_app_cons (c : ascii) (s t : string) :
  String c s +:+ t = String c (s +:+ t).
Proof. reflexivity. Qed.

Lemma string_app_assoc (s t u : string) : s +:+ (t +:+ u) = (s +:+ t) +:+ u.
Proof.
  induction s as [|c s IH]; [done|].
  rewrite !string_app_cons. by f_equal.
Qed.

Lemma digit_of_pretty_N_char (d : N) :
  (d < 10)%N → digit_of (pretty_N_char d) = Some (Z.of_N d).
Proof.
  intros Hd.
  assert (d = 0 ∨ d = 1 ∨ d = 2 ∨ d = 3 ∨ d = 4 ∨ d = 5 ∨ d = 6 ∨ d = 7
          ∨ d = 8 ∨ d = 9)%N as Hcases by lia.
  repeat (destruct Hcases as [->|Hcases]; [reflexivity|]). by subst.
Qed.

(** Reading the digits that [pretty] prints gives the number back. *)
Lemma int_digits_pretty_N_go (x : N) (s : string) (after_digit : bool) :
  (0 < x)%N →
  int_digits 0 after_digit (pretty_N_go x s) = int_digits (Z.of_N x) true s.
Proof.
  revert s after_digit. induction (N.lt_wf_0 x) as [x _ IH]; intros s after_digit Hx.
  rewrite pretty_N_go_step by done.
  assert (Hmod : (x `mod` 10 < 10)%N) by (apply N.mod_lt; lia).
  destruct (decide (x `div` 10 = 0)%N) as [Hdiv|Hdiv].
  - rewrite Hdiv, pretty_N_go_0. cbn [int_digits].
    rewrite digit_of_pretty_N_char by done. f_equal.
    pose proof (N.div_mod x 10 ltac:(lia)). lia.
  - rewrite IH; [|apply N.div_lt; lia|by apply N.neq_0_lt_0].
    cbn [int_digits]. rewrite digit_of_pretty_N_char by done. f_equal.
    pose proof (N.div_mod x 10 ltac:(lia)). lia.
Qed.

Lemma pretty_N_char_lacks (d : N) :
  is_space (pretty_N_char d) = false
  ∧ bool_decide (pretty_N_char d = "/"%char) = false.
Proof.
  unfold pretty_N_char.
  repeat (match goal with |- context [match ?x with _ => _ end] => destruct x end;
          try (split; reflexivity)).
Qed.

Lemma lacks_space_pretty_N_go (x : N) (s : string) :
  lacks_space (pretty_N_go x s) = lacks_space s.
Proof.
  revert s. induction (N.lt_wf_0 x) as [x _ IH]; intros s.
  destruct (decide (x = 0)%N) as [->|Hx]; [by rewrite pretty_N_go_0|].
  rewrite pretty_N_go_step by lia. rewrite IH by (apply N.div_lt; lia).
  cbn [lacks_space]. by rewrite (proj1 (pretty_N_char_lacks _)).
Qed.

Lemma lacks_slash_pretty_N_go (x : N) (s : string) :
  lacks_char "/" (pretty_N_go x s) = lacks_char "/" s.
Proof.
  revert s. induction (N.lt_wf_0 x) as [x _ IH]; intros s.
  destruct (decide (x = 0)%N) as [->|Hx]; [by rewrite pretty_N_go_0|].
  rewrite pretty_N_go_step by lia. rewrite IH by (apply N.div_lt; lia).
  cbn [lacks_char]. by rewrite (proj2 (pretty_N_char_lacks _)).
Qed.

Lemma lstrip_lacks_space s : lacks_space s = true → lstrip s = s.
Proof. destruct s as [|c s]; simpl; [done|]. by destruct (is_space c). Qed.

Lemma rstrip_lacks_space s : lacks_space s = true → rstrip s = s.
Proof.
  induction s as [|c s IH]; simpl; [done|].
  destruct (is_space c); simpl; [done|]. intros Hs. rewrite (IH Hs).
  by destruct s.
Qed.

Lemma str_strip_lacks_space s : lacks_space s = true → str_strip s = s.
Proof.
  intros Hs. unfold str_strip. rewrite lstrip_lacks_space by done.
  by apply rstrip_lacks_space.
Qed.

(** [int] of an unsigned digit string. *)
Lemma py_int_unsigned (body : string) (z : Z) :
  lacks_space body = true →
  int_digits 0 false body = Some z →
  py_int body = Ok z.
Proof.
  intros Hs Hd. unfold py_int. rewrite str_strip_lacks_space by done.
  destruct body as [|c s]; [done|].
  assert (Hsign : c ≠ "-"%char ∧ c ≠ "+"%char).
  { cbn [int_digits] in Hd. split; intros ->; by vm_compute in Hd. }
  destruct Hsign as [Hminus Hplus].
  assert (Hmatch : ∀ (A : Type) (a b d : string → A),
            match String c s with
            | String "-" s' => a s'
            | String "+" s' => b s'
            | _ => d (String c s)
            end = d (String c s)).
  { intros A a b d.
    destruct c as [[] [] [] [] [] [] [] []]; try reflexivity; by exfalso. }
  specialize (Hmatch (option Z) (λ s', Z.opp <$> int_digits 0 false s')
                (λ s', int_digits 0 false s') (λ body, int_digits 0 false body)).
  cbv beta in Hmatch. rewrite Hmatch, Hd. done.
Qed.

Lemma pretty_Z_lacks (z : Z) :
  lacks_space (pretty z) = true ∧ lacks_char "/" (pretty z) = true.
Proof.
  unfold pretty, pretty_Z. destruct z as [|p|p]; [done|..].
  - unfold pretty, pretty_positive, pretty, pretty_N.
    rewrite decide_False by done.
    by rewrite lacks_space_pretty_N_go, lacks_slash_pretty_N_go.
  - unfold pretty, pretty_positive, pretty, pretty_N.
    rewrite decide_False by done.
    rewrite string_app_cons, string_app_nil. cbn [lacks_space lacks_char].
    by rewrite lacks_space_pretty_N_go, lacks_slash_pretty_N_go.
Qed.

(** [int] reads back what [pretty] prints. *)
Lemma py_int_pretty (z : Z) : py_int (pretty z) = Ok z.
Proof.
  destruct z as [|p|p].
  - reflexivity.
  - apply py_int_unsigned; [apply pretty_Z_lacks|].
    unfold pretty, pretty_Z, pretty, pretty_positive, pretty, pretty_N.
    rewrite decide_False by done.
    by rewrite int_digits_pretty_N_go by lia.
  - pose proof (proj1 (pretty_Z_lacks (Z.neg p))) as Hs.
    unfold py_int. rewrite str_strip_lacks_space by done.
    unfold pretty, pretty_Z, pretty, pretty_positive, pretty, pretty_N.
    rewrite decide_False by done.
    rewrite string_app_cons, string_app_nil.
    rewrite int_digits_pretty_N_go by lia. reflexivity.
Qed.

Lemma format_02d_lacks (n : Z) :
  lacks_space (format_02d n) = true ∧ lacks_char "/" (format_02d n) = true.
Proof.
  unfold format_02d. destruct (pretty_Z_lacks n) as [Hs Hc].
  case_bool_decide; [|done].
  rewrite string_app_cons, string_app_nil. cbn [lacks_space lacks_char].
  by rewrite Hs, Hc.
Qed.

(** [int] reads back a month printed on two digits. *)
Lemma py_int_format_02d (n : Z) : py_int (format_02d n) = Ok n.
Proof.
  pose proof (format_02d_lacks n) as [Hs _]. revert Hs.
  unfold format_02d. case_bool_decide as Hlen; [|intros _; apply py_int_pretty].
  intros Hs. apply py_int_unsigned; [done|].
  rewrite string_app_cons, string_app_nil. cbn [int_digits].
  change (digit_of "0") with (Some 0). cbn beta iota.
  destruct n as [|p|p].
  - reflexivity.
  - unfold pretty, pretty_Z, pretty, pretty_positive, pretty, pretty_N.
    rewrite decide_False by done.
    by rewrite int_digits_pretty_N_go by lia.
  - exfalso. revert Hlen.
    unfold pretty, pretty_Z, pretty, pretty_positive, pretty, pretty_N.
    rewrite decide_False by done.
    rewrite string_app_cons, string_app_nil. cbn [String.length].
    pose proof (int_digits_pretty_N_go (N.pos p) "" false ltac:(lia)) as Hd.
    destruct (pretty_N_go (N.pos p) "") as [|c s]; [done|].
    cbn [String.length]. lia.
Qed.

Lemma str_split_nonempty sep s : str_split sep s ≠ [].
Proof.
  destruct s as [|c s]; simpl; [done|].
  case_bool_decide; [done|]. by destruct (str_split sep s).
Qed.

Lemma str_split_lacks sep s : lacks_char sep s = true → str_split sep s = [s].
Proof.
  induction s as [|c s IH]; simpl; [done|].
  case_bool_decide; simpl; [done|]. intros Hs. by rewrite (IH Hs).
Qed.

(** Splitting at the last separator. *)
Lemma str_split_last sep s t :
  lacks_char sep t = true →
  str_split sep (s +:+ String sep t) = str_split sep s ++ [t].
Proof.
  intros Ht. induction s as [|c s IH]; simpl.
  - rewrite bool_decide_eq_true_2 by done. by rewrite str_split_lacks.
  - rewrite IH. case_bool_decide; [done|].
    pose proof (str_split_nonempty sep s).
    by destruct (str_split sep s).
Qed.

(** A string that ends in [/year/month] parses to that year and month,
    whatever comes before. *)
Lemma parse_archive_suffix (front : string) (year month : Z) :
  parse_archive (front +:+ "/" +:+ pretty year +:+ "/" +:+ format_02d month)
  = Ok (year, month).
Proof.
  unfold parse_archive.
  change ("/" +:+ pretty year +:+ "/" +:+ format_02d month)
    with (String "/" (pretty year +:+ String "/" (format_02d month))).
  assert (Heq : front +:+ String "/" (pretty year +:+ String "/" (format_02d month))
                = (front +:+ String "/" (pretty year)) +:+ String "/" (format_02d month)).
  { rewrite <- string_app_assoc. done. }
  rewrite Heq.
  rewrite str_split_last by apply format_02d_lacks.
  rewrite str_split_last by apply pretty_Z_lacks.
  rewrite !reverse_app. cbn [reverse rev_append app].
  change (reverse [format_02d month]) with [format_02d month].
  change (reverse [pretty year]) with [pretty year]. cbn [app].
  rewrite py_int_pretty. cbn [mbind result_bind].
  rewrite py_int_format_02d. done.
Qed.

Lemma games_url_suffix (username : string) (year month : Z) :
  games_url username year month
  = (CHESS_API_BASE +:+ "/" +:+ username +:+ "/games")
    +:+ "/" +:+ pretty year +:+ "/" +:+ format_02d month.
Proof.
  unfold games_url. rewrite <- !string_app_assoc. reflexivity.
Qed.

Lemma parse_archives_games_urls (owner : string) (months : list (Z * Z)) :
  parse_archives ((λ ym : Z * Z, games_url owner ym.1 ym.2) <$> months) = Ok months.
Proof.
  induction months as [|[year month] months IH]; [done|].
  rewrite fmap_cons. cbn [parse_archives fst snd].
  rewrite games_url_suffix, parse_archive_suffix. cbn [mbind result_bind].
  by rewrite IH.
Qed.

(** X4. Parsing reads back what the URL printer writes: when the archive
    request is answered 200 with the list of the month URLs of some periods
    (of any player), [get_user_archives] returns exactly those periods, in
    order; so the URL fetched for a listed period is the listed URL. *)
Theorem get_user_archives_reads_back_periods (transport : string → outcome)
  (username owner : string) (months : list (Z * Z)) (response : Response)
  (s : State) :
  transport (archives_url username) = Returned response →
  status_code response = 200 →
  archives (json response)
  = Some ((λ ym : Z * Z, games_url owner ym.1 ym.2) <$> months) →
  get_user_archives transport username s
  = (Ok months, log_request (archives_url username) s).
Proof.
  intros Hresp H200 Harch.
  unfold get_user_archives, try_except, mbind, M_bind, session_get.
  rewrite Hresp. cbn beta iota zeta. rewrite H200, Harch.
  rewrite bool_decide_eq_true_2 by done.
  unfold lift. cbn [default id]. by rewrite parse_archives_games_urls.
Qed.

Lemma get_user_archives_reads_back_periods_witness :
  get_user_archives upstream_bob "bob" fresh_state
  = (Ok [(2024, 1)], log_request (archives_url "bob") fresh_state).
Proof.
  refine (get_user_archives_reads_back_periods upstream_bob "bob" "bob" [(2024, 1)]
            {| status_code := 200;
               json := {| archives := Some [ "https://api.chess.com/pub/player/bob/games/2024/01" ];
                          games := None |} |}
            fresh_state _ _ _).
  - vm_compute. reflexivity.
  - reflexivity.
  - vm_compute. reflexivity.
Defined.

(** ** What the look-ups raise *)

Lemma py_int_raises s e : py_int s = Raise e → e = ValueError.
Proof.
  unfold py_int. destruct (match str_strip s with
                           | String "-" s' => Z.opp <$> int_digits 0 false s'
                           | String "+" s' => int_digits 0 false s'
                           | _ => int_digits 0 false (str_strip s)
                           end); [done|]. by intros [= <-].
Qed.

Lemma parse_archive_raises archive e :
  parse_archive archive = Raise e → e = IndexError ∨ e = ValueError.
Proof.
  unfold parse_archive.
  destruct (reverse (str_split "/" archive)) as [|last_part [|before_last rest]];
    try (intros [= <-]; by left).
  unfold mbind, result_bind.
  destruct (py_int before_last) as [year|e1] eqn:H1.
  - destruct (py_int last_part) as [month|e2] eqn:H2; [done|].
    intros [= <-]. right. by eapply py_int_raises.
  - intros [= <-]. right. by eapply py_int_raises.
Qed.

Lemma parse_archives_raises archives e :
  parse_archives archives = Raise e → e = IndexError ∨ e = ValueError.
Proof.
  induction archives as [|archive archives IH]; [done|].
  cbn [parse_archives]. unfold mbind, result_bind.
  destruct (parse_archive archive) as [ym|e1] eqn:H1.
  - destruct (parse_archives archives) as [months|e2]; [done|].
    intros [= <-]. by apply IH.
  - intros [= <-]. by eapply parse_archive_raises.
Qed.

Section Raises.

Variable transport : string → outcome.
Variable utcoffset : Z → Z.

Lemma get_user_archives_raises username s e s' :
  get_user_archives transport username s = (Raise e, s') →
  (e = IndexError ∨ e = ValueError) ∧ s' = log_request (archives_url username) s.
Proof.
  unfold get_user_archives, try_except, mbind, M_bind, session_get.
  destruct (transport (archives_url username)) as [response|msg]; cbn beta iota;
    [|done].
  case_bool_decide; [|done]. unfold lift.
  destruct (parse_archives _) as [months|e1] eqn:Hp; [done|].
  assert (He1 : e1 = IndexError ∨ e1 = ValueError) by (by eapply parse_archives_raises).
  destruct He1 as [-> | ->]; cbn; intros [= <- <-]; auto.
Qed.

Lemma get_user_profile_raises username s e s' :
  get_user_profile transport username s = (Raise e, s') →
  ∃ msg, e = ChessAPIError msg ∧ profile_error_message msg.
Proof.
  unfold get_user_profile.
  destruct (memo_lookup username (profile_memo s)); [done|].
  unfold get_user_profile_body, try_except, mbind, M_bind, session_get.
  destruct (transport (profile_url username)) as [response|msg]; cbn.
  - repeat case_bool_decide; cbn; [done|..]; intros [= <- <-]; eexists; split;
      try done; unfold profile_error_message; eauto.
  - intros [= <- <-]. eexists; split; [done|]. unfold profile_error_message. eauto.
Qed.

Lemma extract_rows_raises username_lower games e :
  extract_rows utcoffset username_lower games = Raise e → ∃ key, e = KeyError key.
Proof.
  induction games as [|game games IH]; [done|].
  cbn [extract_rows].
  set (player_data := if bool_decide _ then _ else _).
  assert (Hp : ∀ e0, player_data = Raise e0 → ∃ key, e0 = KeyError key).
  { subst player_data. intros e0.
    case_bool_decide; [destruct (white game)|destruct (black game)];
      try done; intros [= <-]; eauto. }
  destruct player_data as [p|e0]; [|intros [= <-]; by apply Hp].
  unfold mbind, result_bind at 1.
  destruct (extract_rows utcoffset username_lower games) as [data|e1]; [done|].
  intros [= <-]. by apply IH.
Qed.

End Raises.

(** ** The orchestrator *)

Lemma http_log_log_requests urls s :
  http_log (log_requests urls s) = http_log s ++ urls.
Proof.
  unfold log_requests. revert s.
  induction urls as [|url urls IH]; intros s; [by rewrite app_nil_r|].
  cbn [foldl]. rewrite IH. cbn. by rewrite <- app_assoc.
Qed.

Lemma log_requests_frame urls s :
  profile_memo (log_requests urls s) = profile_memo s
  ∧ store (log_requests urls s) = store s
  ∧ ticks (log_requests urls s) = ticks s.
Proof.
  unfold log_requests. revert s.
  induction urls as [|url urls IH]; intros s; [done|].
  cbn [foldl]. destruct (IH (log_request url s)) as (-> & -> & ->). done.
Qed.

Section Orchestrator.

Variable transport : string → outcome.
Variable utcoffset : Z → Z.

Lemma get_single_month_games_served username year month time_control s :
  get_single_month_games transport (username, year, month, time_control) s
  = (Ok (served_games transport username time_control (year, month)),
     log_request (games_url username year month) s).
Proof.
  unfold get_single_month_games, served_games, try_except, mbind, M_bind, session_get.
  cbn [fst snd].
  destruct (transport (games_url username year month)) as [response|msg]; cbn; [|done].
  by case_bool_decide.
Qed.

Lemma fetch_all_games_served username months time_control s :
  fetch_all_games transport username months time_control s
  = (Ok (months ≫= served_games transport username time_control),
     log_requests ((λ ym : Z * Z, games_url username ym.1 ym.2) <$> months) s).
Proof.
  unfold fetch_all_games.
  assert (H : ∀ s,
    executor_map (get_single_month_games transport)
      ((λ ym : Z * Z, (username, ym.1, ym.2, time_control)) <$> months) s
    = (Ok (served_games transport username time_control <$> months),
       log_requests ((λ ym : Z * Z, games_url username ym.1 ym.2) <$> months) s)).
  { induction months as [|[year month] months IH]; intros s0; [done|].
    rewrite !fmap_cons. cbn [executor_map fst snd].
    unfold mbind, M_bind at 1. rewrite get_single_month_games_served.
    unfold mbind, M_bind at 1. by rewrite IH. }
  unfold mbind, M_bind at 1. rewrite H. unfold mret, M_ret. do 2 f_equal.
  clear. induction months as [|ym months IH]; [done|].
  rewrite fmap_cons, bind_cons. cbn [concat]. by rewrite IH.
Qed.

(** X5. The merged collection holds exactly the games of the requested
    mode that a listed period's request served with a 200: nothing of
    another mode gets in, and nothing of that mode is lost. *)
Theorem fetch_all_games_exactly_the_mode (username time_control : string)
  (months : list (Z * Z)) (s s' : State) (all_games : list Game) (g : Game) :
  fetch_all_games transport username months time_control s = (Ok all_games, s') →
  g ∈ all_games
  ↔ time_class g = Some time_control
    ∧ ∃ ym response,
        ym ∈ months
        ∧ transport (games_url username ym.1 ym.2) = Returned response
        ∧ status_code response = 200
        ∧ g ∈ default [] (games (json response)).
Proof.
  rewrite fetch_all_games_served. intros [= <- <-].
  rewrite list_elem_of_bind. split.
  - intros (ym & Hg & Hym). unfold served_games in Hg.
    destruct (transport (games_url username ym.1 ym.2)) as [response|msg] eqn:Hresp;
      [|by apply elem_of_nil in Hg].
    case_bool_decide as H200; [|by apply elem_of_nil in Hg].
    apply (list_elem_of_filter (λ g, time_class g = Some time_control)) in Hg
      as [Hclass Hg].
    split; [done|]. by exists ym, response.
  - intros (Hclass & ym & response & Hym & Hresp & H200 & Hg).
    exists ym. split; [|done]. unfold served_games.
    rewrite Hresp, bool_decide_eq_true_2 by done.
    by apply (list_elem_of_filter (λ g, time_class g = Some time_control)).
Qed.

(** X6. Once the profile and the archive list are there, the orchestrator
    sends one request per listed period and does nothing else to the
    state, whatever the periods answer and however the extraction and the
    chart end: the requests sent after the archive request are, up to
    their order, the month URLs of the listed periods, each as often as its
    period is listed, and the profile memo, the result cache and the clock
    are as they were after the archive look-up.  Nothing is said of the
    order in which the month requests go out, which the worker pool does
    not fix. *)
Theorem fetch_and_process_games_one_request_per_period
  (username time_control : string) (s s1 s2 : State) (profile : Body)
  (months : list (Z * Z)) :
  get_user_profile transport username s = (Ok profile, s1) →
  get_user_archives transport username s1 = (Ok months, s2) →
  ∃ sent,
    http_log (fetch_and_process_games transport utcoffset username time_control s).2
    = http_log s2 ++ sent
    ∧ sent ≡ₚ (λ ym : Z * Z, games_url username ym.1 ym.2) <$> months
    ∧ profile_memo (fetch_and_process_games transport utcoffset username time_control s).2
      = profile_memo s2
    ∧ store (fetch_and_process_games transport utcoffset username time_control s).2
      = store s2
    ∧ ticks (fetch_and_process_games transport utcoffset username time_control s).2
      = ticks s2.
Proof.
  intros Hprofile Harchives.
  assert (Hfinal :
    (fetch_and_process_games transport utcoffset username time_control s).2
    = log_requests ((λ ym : Z * Z, games_url username ym.1 ym.2) <$> months) s2);
    [|rewrite Hfinal;
      exists ((λ ym : Z * Z, games_url username ym.1 ym.2) <$> months);
      split; [apply http_log_log_requests|];
      split; [reflexivity|apply log_requests_frame]].
  unfold fetch_and_process_games, try_except.
  unfold mbind, M_bind at 1. rewrite Hprofile.
  unfold mbind, M_bind at 1. rewrite Harchives.
  destruct months as [|ym months]; [done|].
  unfold mbind, M_bind at 1. rewrite fetch_all_games_served.
  unfold mbind, M_bind at 1. unfold lift.
  destruct (extract_game_data utcoffset _ username) as [[|row game_data]|e];
    [done| |by destruct e].
  cbv zeta.
  by destruct (create_candlestick_chart (row :: game_data) time_control).
Qed.

(** X7. When the profile is there but the archive request is answered
    with another status than 200, or not at all, or with an empty or
    absent list, the orchestrator reports that the user has no games: a
    failure of the archive request is not told apart from an empty
    archive.  No period is requested. *)
Theorem archive_failure_reported_as_no_games
  (username time_control : string) (s s1 : State) (profile : Body) :
  get_user_profile transport username s = (Ok profile, s1) →
  no_archives (transport (archives_url username)) →
  fetch_and_process_games transport utcoffset username time_control s
  = (Ok (None, Some "No games found for this user."),
     log_request (archives_url username) s1).
Proof.
  intros Hprofile Hno.
  unfold fetch_and_process_games, try_except.
  unfold mbind, M_bind at 1. rewrite Hprofile.
  unfold mbind, M_bind at 1.
  by rewrite (get_user_archives_no_archives transport username s1 Hno).
Qed.

(** X8. When the archive look-up raises (an entry of the list without two
    [/]-separated parts, or whose last two parts are not integers), the
    orchestrator reports the generic message and requests no period. *)
Theorem archive_exception_reported_as_unexpected
  (username time_control : string) (s s1 s2 : State) (profile : Body) (e : exn) :
  get_user_profile transport username s = (Ok profile, s1) →
  get_user_archives transport username s1 = (Raise e, s2) →
  (e = IndexError ∨ e = ValueError)
  ∧ fetch_and_process_games transport utcoffset username time_control s
    = (Ok (None, Some "An unexpected error occurred."),
       log_request (archives_url username) s1).
Proof.
  intros Hprofile Harchives.
  destruct (get_user_archives_raises _ _ _ _ _ Harchives) as [He ->].
  split; [done|].
  unfold fetch_and_process_games, try_except.
  unfold mbind, M_bind at 1. rewrite Hprofile.
  unfold mbind, M_bind at 1. rewrite Harchives.
  by destruct He as [-> | ->].
Qed.

(** X9. A profile request that is answered with a status other than 200
    and 404 ends the orchestrator with the message ["API error: <status>"],
    one that gets no answer with ["Network error: <reason>"]; in both cases
    the profile request is the only one sent. *)
Theorem profile_failure_messages (username time_control : string) (s : State) :
  memo_lookup username (profile_memo s) = None →
  (∀ response,
     transport (profile_url username) = Returned response →
     status_code response ≠ 200 → status_code response ≠ 404 →
     fetch_and_process_games transport utcoffset username time_control s
     = (Ok (None, Some ("API error: " +:+ pretty (status_code response))),
        log_request (profile_url username) s))
  ∧ (∀ reason,
       transport (profile_url username) = Failed reason →
       fetch_and_process_games transport utcoffset username time_control s
       = (Ok (None, Some ("Network error: " +:+ reason)),
          log_request (profile_url username) s)).
Proof.
  intros Hmemo. split.
  - intros response Hresp H200 H404.
    unfold fetch_and_process_games, try_except.
    unfold mbind, M_bind at 1. unfold get_user_profile. rewrite Hmemo.
    unfold get_user_profile_body, try_except, mbind, M_bind, session_get.
    rewrite Hresp. cbn beta iota.
    by rewrite !bool_decide_eq_false_2 by done.
  - intros reason Hresp.
    unfold fetch_and_process_games, try_except.
    unfold mbind, M_bind at 1. unfold get_user_profile. rewrite Hmemo.
    unfold get_user_profile_body, try_except, mbind, M_bind, session_get.
    by rewrite Hresp.
Qed.

Lemma M_bind_run {A B : Type} (f : A → M B) (m : M A) (s : State) :
  M_bind A B f m s
  = match m s with
    | (Ok a, s') => f a s'
    | (Raise e, s') => (Raise e, s')
    end.
Proof. reflexivity. Qed.

(** X10. The orchestrator never raises.  It returns either a figure and no
    message, or no figure and one of six messages: no games for the user,
    no games of the mode, the generic message, or one of the three
    messages of the profile look-up.  It never returns the message
    ["Failed to create chart."]. *)
Theorem fetch_and_process_games_outcomes (username time_control : string)
  (s : State) :
  ((∃ fig, (fetch_and_process_games transport utcoffset username time_control s).1
           = Ok (Some fig, None))
   ∨ (∃ msg, (fetch_and_process_games transport utcoffset username time_control s).1
             = Ok (None, Some msg)
             ∧ orchestrator_message username time_control msg))
  ∧ ∀ fig, (fetch_and_process_games transport utcoffset username time_control s).1
           ≠ Ok (fig, Some "Failed to create chart.").
Proof.
  assert (Hcases :
    (∃ fig, (fetch_and_process_games transport utcoffset username time_control s).1
            = Ok (Some fig, None))
    ∨ (∃ msg, (fetch_and_process_games transport utcoffset username time_control s).1
              = Ok (None, Some msg)
              ∧ orchestrator_message username time_control msg)).
  { unfold fetch_and_process_games, try_except, mbind.
    rewrite M_bind_run.
    destruct (get_user_profile transport username s) as [[profile|e] s1] eqn:Hprofile.
    2:{ destruct (get_user_profile_raises _ _ _ _ _ Hprofile) as (msg & -> & Hmsg).
        right. exists msg. split; [reflexivity|]. unfold orchestrator_message. tauto. }
    rewrite M_bind_run.
    destruct (get_user_archives transport username s1) as [[months|e] s2] eqn:Harchives.
    2:{ destruct (get_user_archives_raises _ _ _ _ _ Harchives) as [[-> | ->] _];
          right; eexists; (split; [reflexivity|]); unfold orchestrator_message; tauto. }
    destruct months as [|ym months].
    { right. eexists. split; [reflexivity|]. unfold orchestrator_message. tauto. }
    rewrite M_bind_run.
    pose proof (fetch_all_games_served username (ym :: months) time_control s2) as Hall.
    unfold mbind in Hall. rewrite Hall.
    rewrite M_bind_run. unfold lift.
    destruct (extract_game_data utcoffset _ username) as [[|row game_data]|e] eqn:Hext.
    - right. eexists. split; [reflexivity|]. unfold orchestrator_message. tauto.
    - cbv zeta.
      destruct (create_candlestick_chart_Some (row :: game_data) time_control
                  ltac:(done)) as (lo & hi & -> & _).
      left. eexists. reflexivity.
    - rewrite extract_game_data_rows in Hext.
      destruct (extract_rows_raises _ _ _ _ Hext) as [key ->].
      right. eexists. split; [reflexivity|]. unfold orchestrator_message. tauto. }
  split; [exact Hcases|].
  intros fig Hfail.
  destruct Hcases as [(fig' & Hfig)|(msg & Hmsg & Hkind)]; rewrite Hfail in *;
    [done|].
  injection Hmsg as -> <-.
  destruct Hkind as [H|[H|[H|[H|[[status H]|[reason H]]]]]]; try discriminate H.
Qed.

End Orchestrator.

Lemma fetch_all_games_exactly_the_mode_witness :
  fetch_all_games upstream_bob "bob" [(2024, 1)] "blitz" fresh_state
  = (Ok (filter (λ g, time_class g = Some "blitz") bob_games),
     (fetch_all_games upstream_bob "bob" [(2024, 1)] "blitz" fresh_state).2)
  ∧ ∀ g, g ∈ filter (λ g, time_class g = Some "blitz") bob_games
         ↔ time_class g = Some "blitz"
           ∧ ∃ ym response,
               ym ∈ [(2024, 1)]
               ∧ upstream_bob (games_url "bob" ym.1 ym.2) = Returned response
               ∧ status_code response = 200
               ∧ g ∈ default [] (games (json response)).
Proof.
  assert (H : fetch_all_games upstream_bob "bob" [(2024, 1)] "blitz" fresh_state
              = (Ok (filter (λ g, time_class g = Some "blitz") bob_games),
                 (fetch_all_games upstream_bob "bob" [(2024, 1)] "blitz" fresh_state).2))
    by (vm_compute; reflexivity).
  split; [exact H|].
  intros g.
  exact (fetch_all_games_exactly_the_mode upstream_bob "bob" "blitz" [(2024, 1)]
           fresh_state _ _ g H).
Defined.

Lemma fetch_and_process_games_one_request_per_period_witness :
  get_user_profile upstream_bad_months "bob" fresh_state
  = (Ok empty_body, (get_user_profile upstream_bad_months "bob" fresh_state).2)
  ∧ get_user_archives upstream_bad_months "bob"
      (get_user_profile upstream_bad_months "bob" fresh_state).2
    = (Ok [(2024, 1); (2024, 2)],
       log_request (archives_url "bob")
         (get_user_profile upstream_bad_months "bob" fresh_state).2)
  ∧ ∃ sent,
      http_log (fetch_and_process_games upstream_bad_months utc "bob" "blitz"
                  fresh_state).2
      = http_log (log_request (archives_url "bob")
                    (get_user_profile upstream_bad_months "bob" fresh_state).2)
        ++ sent
      ∧ sent ≡ₚ (λ ym : Z * Z, games_url "bob" ym.1 ym.2) <$> [(2024, 1); (2024, 2)]
      ∧ profile_memo (fetch_and_process_games upstream_bad_months utc "bob" "blitz"
                        fresh_state).2
        = profile_memo (log_request (archives_url "bob")
                          (get_user_profile upstream_bad_months "bob" fresh_state).2)
      ∧ store (fetch_and_process_games upstream_bad_months utc "bob" "blitz"
                 fresh_state).2
        = store (log_request (archives_url "bob")
                   (get_user_profile upstream_bad_months "bob" fresh_state).2)
      ∧ ticks (fetch_and_process_games upstream_bad_months utc "bob" "blitz"
                 fresh_state).2
        = ticks (log_request (archives_url "bob")
                   (get_user_profile upstream_bad_months "bob" fresh_state).2).
Proof.
  assert (H1 : get_user_profile upstream_bad_months "bob" fresh_state
               = (Ok empty_body,
                  (get_user_profile upstream_bad_months "bob" fresh_state).2))
    by (vm_compute; reflexivity).
  assert (H2 : get_user_archives upstream_bad_months "bob"
                 (get_user_profile upstream_bad_months "bob" fresh_state).2
               = (Ok [(2024, 1); (2024, 2)],
                  log_request (archives_url "bob")
                    (get_user_profile upstream_bad_months "bob" fresh_state).2))
    by (vm_compute; reflexivity).
  split; [exact H1|]. split; [exact H2|].
  exact (fetch_and_process_games_one_request_per_period upstream_bad_months utc
           "bob" "blitz" fresh_state _ _ empty_body [(2024, 1); (2024, 2)] H1 H2).
Defined.

Lemma archive_failure_reported_as_no_games_witness :
  get_user_profile upstream_profile_only "bob" fresh_state
  = (Ok empty_body, (get_user_profile upstream_profile_only "bob" fresh_state).2)
  ∧ no_archives (upstream_profile_only (archives_url "bob"))
  ∧ fetch_and_process_games upstream_profile_only utc "bob" "blitz" fresh_state
    = (Ok (None, Some "No games found for this user."),
       log_request (archives_url "bob")
         (get_user_profile upstream_profile_only "bob" fresh_state).2).
Proof.
  assert (H1 : get_user_profile upstream_profile_only "bob" fresh_state
               = (Ok empty_body,
                  (get_user_profile upstream_profile_only "bob" fresh_state).2))
    by (vm_compute; reflexivity).
  assert (H2 : no_archives (upstream_profile_only (archives_url "bob")))
    by (vm_compute; exact I).
  split; [exact H1|]. split; [exact H2|].
  exact (archive_failure_reported_as_no_games upstream_profile_only utc
           "bob" "blitz" fresh_state _ empty_body H1 H2).
Defined.

Lemma archive_exception_reported_as_unexpected_witness :
  get_user_profile upstream_bad_archive "bob" fresh_state
  = (Ok empty_body, (get_user_profile upstream_bad_archive "bob" fresh_state).2)
  ∧ get_user_archives upstream_bad_archive "bob"
      (get_user_profile upstream_bad_archive "bob" fresh_state).2
    = (Raise IndexError,
       log_request (archives_url "bob")
         (get_user_profile upstream_bad_archive "bob" fresh_state).2)
  ∧ fetch_and_process_games upstream_bad_archive utc "bob" "blitz" fresh_state
    = (Ok (None, Some "An unexpected error occurred."),
       log_request (archives_url "bob")
         (get_user_profile upstream_bad_archive "bob" fresh_state).2).
Proof.
  assert (H1 : get_user_profile upstream_bad_archive "bob" fresh_state
               = (Ok empty_body,
                  (get_user_profile upstream_bad_archive "bob" fresh_state).2))
    by (vm_compute; reflexivity).
  assert (H2 : get_user_archives upstream_bad_archive "bob"
                 (get_user_profile upstream_bad_archive "bob" fresh_state).2
               = (Raise IndexError,
                  log_request (archives_url "bob")
                    (get_user_profile upstream_bad_archive "bob" fresh_state).2))
    by (vm_compute; reflexivity).
  split; [exact H1|]. split; [exact H2|].
  exact (proj2 (archive_exception_reported_as_unexpected upstream_bad_archive utc
                  "bob" "blitz" fresh_state _ _ empty_body IndexError H1 H2)).
Defined.

Lemma profile_failure_messages_witness :
  memo_lookup "bob" (profile_memo fresh_state) = None
  ∧ fetch_and_process_games upstream_403 utc "bob" "blitz" fresh_state
    = (Ok (None, Some ("API error: "
                       +:+ pretty (status_code
                                     {| status_code := 403; json := empty_body |}))),
       log_request (profile_url "bob") fresh_state)
  ∧ fetch_and_process_games upstream_down utc "bob" "blitz" fresh_state
    = (Ok (None, Some ("Network error: " +:+ "Max retries exceeded")),
       log_request (profile_url "bob") fresh_state).
Proof.
  assert (H : memo_lookup "bob" (profile_memo fresh_state) = None) by reflexivity.
  split; [exact H|]. split.
  - refine (proj1 (profile_failure_messages upstream_403 utc "bob" "blitz"
                     fresh_state H) _ _ _ _).
    + reflexivity.
    + discriminate.
    + discriminate.
  - refine (proj2 (profile_failure_messages upstream_down utc "bob" "blitz"
                     fresh_state H) _ _).
    reflexivity.
Defined.

(** ** The memo table of [get_user_profile] *)

Lemma memo_remove_shorter key memo v :
  memo_lookup key memo = Some v →
  (length (memo_remove key memo) < length memo)%nat.
Proof.
  unfold memo_remove. induction memo as [|[k b] memo IH]; [done|].
  cbn [memo_lookup]. case_bool_decide as Hk.
  - intros _. rewrite filter_cons_False by (cbn; intros Hne; by apply Hne).
    pose proof (length_filter (λ kv : string * Body, kv.1 ≠ key) memo).
    cbn [length]. lia.
  - intros Hl. rewrite filter_cons_True by done. cbn [length].
    specialize (IH Hl). lia.
Qed.

(** X11. [get_user_profile] memoises what it returns and nothing else:
    after a call that returned a profile, the same call returns the same
    profile again without sending any request; after a call that raised,
    the memo table is as before and the next call asks the upstream again.
    A table of at most 128 entries stays so. *)
Theorem get_user_profile_memoises_returns (transport : string → outcome)
  (username : string) (s : State) :
  (∀ profile s1,
     get_user_profile transport username s = (Ok profile, s1) →
     memo_lookup username (profile_memo s1) = Some profile
     ∧ ((length (profile_memo s) ≤ 128)%nat → (length (profile_memo s1) ≤ 128)%nat)
     ∧ ∃ s2, get_user_profile transport username s1 = (Ok profile, s2)
             ∧ http_log s2 = http_log s1)
  ∧ (∀ e s1,
       get_user_profile transport username s = (Raise e, s1) →
       profile_memo s1 = profile_memo s
       ∧ memo_lookup username (profile_memo s1) = None
       ∧ http_log s1 = http_log s ++ [profile_url username]).
Proof.
  split.
  - intros profile s1 Hcall.
    assert (Hmemo : memo_lookup username (profile_memo s1) = Some profile
                    ∧ ((length (profile_memo s) ≤ 128)%nat
                       → (length (profile_memo s1) ≤ 128)%nat)).
    { revert Hcall. unfold get_user_profile.
      destruct (memo_lookup username (profile_memo s)) as [v|] eqn:Hlook.
      - intros [= <- <-]. cbn [profile_memo memo_lookup].
        rewrite bool_decide_eq_true_2 by done. split; [done|].
        intros Hlen. pose proof (memo_remove_shorter _ _ _ Hlook). cbn [length]. lia.
      - destruct (get_user_profile_body transport username s) as [[v|e] s'];
          [|done].
        intros [= <- <-]. cbn [profile_memo take memo_lookup].
        rewrite bool_decide_eq_true_2 by done. split; [done|].
        intros _. cbn [length]. rewrite length_take. lia. }
    destruct Hmemo as [Hlook Hlen]. split; [done|]. split; [done|].
    unfold get_user_profile at 1. rewrite Hlook. eexists. split; [done|]. done.
  - intros e s1. unfold get_user_profile.
    destruct (memo_lookup username (profile_memo s)) as [v|] eqn:Hlook; [done|].
    unfold get_user_profile_body, try_except, mbind, M_bind, session_get.
    destruct (transport (profile_url username)) as [response|msg]; cbn.
    + repeat case_bool_decide; cbn; [done|..]; by intros [= <- <-].
    + by intros [= <- <-].
Qed.

Lemma get_user_profile_memoises_returns_witness :
  get_user_profile upstream_bob "bob" fresh_state
  = (Ok empty_body, (get_user_profile upstream_bob "bob" fresh_state).2)
  ∧ memo_lookup "bob"
      (profile_memo (get_user_profile upstream_bob "bob" fresh_state).2)
    = Some empty_body.
Proof.
  assert (H : get_user_profile upstream_bob "bob" fresh_state
              = (Ok empty_body, (get_user_profile upstream_bob "bob" fresh_state).2))
    by (vm_compute; reflexivity).
  split; [exact H|].
  exact (proj1 (proj1 (get_user_profile_memoises_returns upstream_bob "bob" fresh_state)
                  empty_body _ H)).
Defined.

(** ** The observation extractor, game by game *)

Section Rows.

Variable utcoffset : Z → Z.

Lemma extract_rows_cons username game games :
  extract_rows utcoffset (str_lower username) (game :: games)
  = match player_of username game with
    | None =>
        Raise (KeyError
                 (if bool_decide
                       (str_lower (default "" (player_username
                                                 (default empty_player (white game))))
                        = str_lower username)
                  then "white" else "black"))
    | Some p =>
        match extract_rows utcoffset (str_lower username) games with
        | Ok data => Ok (option_list (row_of utcoffset username game) ++ data)
        | Raise e => Raise e
        end
    end.
Proof.
  cbn [extract_rows].
  assert (Hsel :
    (if bool_decide
          (str_lower (default "" (player_username (default empty_player (white game))))
           = str_lower username)
     then match white game with Some p => Ok p | None => Raise (KeyError "white") end
     else match black game with Some p => Ok p | None => Raise (KeyError "black") end)
    = match player_of username game with
      | Some p => Ok p
      | None =>
          Raise (KeyError
                   (if bool_decide
                         (str_lower (default "" (player_username
                                                   (default empty_player (white game))))
                          = str_lower username)
                    then "white" else "black"))
      end).
  { unfold player_of. case_bool_decide; [by destruct (white game)|by destruct (black game)]. }
  rewrite Hsel. clear Hsel.
  destruct (player_of username game) as [p|] eqn:Hp; [|done].
  unfold mbind, result_bind at 1.
  destruct (extract_rows utcoffset (str_lower username) games); [|done].
  unfold mbind, result_bind, mret, result_ret. do 2 f_equal.
  unfold row_of, kept_end_time. rewrite Hp.
  destruct (end_time game) as [e|]; [|done].
  by case_bool_decide.
Qed.



End Rows.



(** ** Every bar of the chart *)

(** A bar of the completed frame is the bar of its group, or the flat bar
    of the last day with observations before it. *)
Lemma full_frame_bar_cases df lo hi b :
  StronglySorted ts_le df →
  lo ∈ group_keys df →
  (∀ d, d ∈ group_keys df → lo ≤ d ≤ hi) →
  b ∈ full_frame df lo hi →
  lo ≤ bar_date b ≤ hi
  ∧ ((bar_date b ∈ group_keys df ∧ b = group_bar df (bar_date b))
     ∨ ((bar_date b ∉ group_keys df)
        ∧ ∃ d', d' ∈ group_keys df ∧ d' < bar_date b
                ∧ (∀ k, d' < k ≤ bar_date b → k ∉ group_keys df)
                ∧ b = flat_bar (bar_date b) (close (group_bar df d')))).
Proof.
  intros Hs Hlo Hrange [i Hi]%list_elem_of_lookup.
  assert (Hdate : bar_date b = lo + Z.of_nat i ∧ Z.of_nat i < hi - lo + 1).
  { pose proof (full_frame_dates df lo hi) as Hdates.
    assert (Hl : (bar_date <$> full_frame df lo hi) !! i = Some (bar_date b))
      by (by rewrite list_lookup_fmap, Hi).
    rewrite Hdates in Hl. unfold date_range in Hl. by apply lookup_seqZ in Hl. }
  destruct Hdate as [Hdate Hlt].
  assert (Hidx : Z.to_nat (bar_date b - lo) = i) by lia.
  split; [lia|].
  destruct (decide (bar_date b ∈ group_keys df)) as [Hin|Hnin].
  - left. split; [done|].
    pose proof (full_frame_present df lo hi (bar_date b) Hs Hin ltac:(lia)) as Hp.
    rewrite Hidx in Hp. congruence.
  - right. split; [done|].
    destruct (prior_key _ lo (bar_date b) Hlo ltac:(lia) Hnin)
      as (d' & Hd' & Hlo' & Hlt' & Hgap).
    exists d'. split; [done|]. split; [done|]. split; [done|].
    pose proof (full_frame_missing df lo hi d' (bar_date b) Hs Hd' Hlo'
                  ltac:(lia) Hgap) as Hm.
    rewrite Hidx in Hm. congruence.
Qed.

(** The figure of a frame, when there is one. *)
Lemma create_candlestick_chart_inv df time_control fig :
  create_candlestick_chart df time_control = Some fig →
  ∃ lo hi,
    fig_data fig = full_frame (sort_values df) lo hi
    ∧ lo ∈ group_keys (sort_values df)
    ∧ ∀ d, d ∈ group_keys (sort_values df) → lo ≤ d ≤ hi.
Proof.
  intros Hfig. assert (Hne : df ≠ []) by (by intros ->).
  destruct (create_candlestick_chart_Some df time_control Hne)
    as (lo & hi & Heq & Hlo & _ & Hrange).
  rewrite Heq in Hfig. injection Hfig as <-. by exists lo, hi.
Qed.

Lemma group_bar_bounds df d :
  StronglySorted ts_le df → d ∈ group_keys df →
  ∃ o h l c,
    group_bar df d = {| bar_date := d; open := Some o; high := Some h;
                        low := Some l; close := Some c |}
    ∧ l ≤ o ≤ h ∧ l ≤ c ≤ h.
Proof.
  intros Hs Hd.
  destruct (group_bar_spec df d Hs Hd)
    as (ro & rh & rl & rc & Hhead & Hlast & _ & _ & _ & _ & Hbar & Hall).
  assert (Hmem : ∀ r, r ∈ filter (λ r, date r = d) df → r ∈ df ∧ date r = d).
  { intros r Hr.
    by apply (list_elem_of_filter (λ r, date r = d) df r) in Hr as [? ?]. }
  apply head_Some_elem_of, Hmem in Hhead as [Hro Hrod].
  apply last_Some_elem_of, Hmem in Hlast as [Hrc Hrcd].
  destruct (Hall ro Hro Hrod) as [_ ?]. destruct (Hall rc Hrc Hrcd) as [_ ?].
  by exists (rating ro), (rating rh), (rating rl), (rating rc).
Qed.

(** X14. Every bar of a figure is a proper candlestick: its four fields
    are numbers (no NaN is left after the fill) and its low is at most its
    open and its close, which are at most its high. *)
Theorem chart_bars_are_candlesticks (df : list Row) (time_control : string)
  (fig : Figure) (b : DailyBar) :
  create_candlestick_chart df time_control = Some fig →
  b ∈ fig_data fig →
  ∃ o h l c,
    open b = Some o ∧ high b = Some h ∧ low b = Some l ∧ close b = Some c
    ∧ l ≤ o ≤ h ∧ l ≤ c ≤ h.
Proof.
  intros Hfig Hb.
  destruct (create_candlestick_chart_inv _ _ _ Hfig) as (lo & hi & Hdata & Hlo & Hrange).
  rewrite Hdata in Hb.
  destruct (full_frame_bar_cases _ _ _ _ (sort_values_sorted df) Hlo Hrange Hb)
    as [_ [[Hin Heq]|[_ (d' & Hd' & _ & _ & Heq)]]].
  - destruct (group_bar_bounds _ _ (sort_values_sorted df) Hin)
      as (o & h & l & c & Hbar & Hbounds).
    rewrite Heq, Hbar. by exists o, h, l, c.
  - destruct (group_bar_bounds _ _ (sort_values_sorted df) Hd')
      as (o & h & l & c & Hbar & Hbounds).
    rewrite Heq, Hbar. cbn. exists c, c, c, c. repeat split; try done; lia.
Qed.

Lemma chart_bars_are_candlesticks_witness :
  create_candlestick_chart two_days "blitz"
  = Some {| fig_title := "Blitz Rating History";
            fig_data := [ flat_bar 19723 (Some 1000);
                          flat_bar 19724 (Some 1000);
                          flat_bar 19725 (Some 1050) ] |}
  ∧ flat_bar 19724 (Some 1000)
    ∈ [ flat_bar 19723 (Some 1000); flat_bar 19724 (Some 1000);
        flat_bar 19725 (Some 1050) ]
  ∧ ∃ o h l c,
      open (flat_bar 19724 (Some 1000)) = Some o
      ∧ high (flat_bar 19724 (Some 1000)) = Some h
      ∧ low (flat_bar 19724 (Some 1000)) = Some l
      ∧ close (flat_bar 19724 (Some 1000)) = Some c
      ∧ l ≤ o ≤ h ∧ l ≤ c ≤ h.
Proof.
  assert (H1 : create_candlestick_chart two_days "blitz"
               = Some {| fig_title := "Blitz Rating History";
                         fig_data := [ flat_bar 19723 (Some 1000);
                                       flat_bar 19724 (Some 1000);
                                       flat_bar 19725 (Some 1050) ] |})
    by (vm_compute; reflexivity).
  assert (H2 : flat_bar 19724 (Some 1000)
               ∈ [ flat_bar 19723 (Some 1000); flat_bar 19724 (Some 1000);
                   flat_bar 19725 (Some 1050) ])
    by (right; left).
  split; [exact H1|]. split; [exact H2|].
  exact (chart_bars_are_candlesticks two_days "blitz" _ _ H1 H2).
Defined.

(** X15. A bar of a day without observations continues the bar before it:
    its open, high, low and close are the close of the bar of the previous
    day, whether that day had observations or was itself filled. *)
Theorem filled_bar_continues_previous_close (df : list Row) (time_control : string)
  (fig : Figure) (i : nat) (b b' : DailyBar) :
  create_candlestick_chart df time_control = Some fig →
  fig_data fig !! i = Some b →
  fig_data fig !! S i = Some b' →
  (∀ r, r ∈ df → date r ≠ bar_date b') →
  bar_date b' = bar_date b + 1
  ∧ open b' = close b ∧ high b' = close b ∧ low b' = close b ∧ close b' = close b.
Proof.
  intros Hfig Hi HSi Hnone.
  destruct (create_candlestick_chart_inv _ _ _ Hfig) as (lo & hi & Hdata & Hlo & Hrange).
  rewrite Hdata in Hi, HSi.
  assert (Hnext : bar_date b' = bar_date b + 1).
  { pose proof (full_frame_dates (sort_values df) lo hi) as Hdates.
    assert (H1 : (bar_date <$> full_frame (sort_values df) lo hi) !! i
                 = Some (bar_date b)) by (by rewrite list_lookup_fmap, Hi).
    assert (H2 : (bar_date <$> full_frame (sort_values df) lo hi) !! S i
                 = Some (bar_date b')) by (by rewrite list_lookup_fmap, HSi).
    rewrite Hdates in H1, H2. unfold date_range in H1, H2.
    apply lookup_seqZ in H1 as [-> _]. apply lookup_seqZ in H2 as [-> _]. lia. }
  split; [done|].
  assert (Hnin : bar_date b' ∉ group_keys (sort_values df)).
  { intros (r & Hr & Hrd)%group_key_observed. by apply (Hnone r). }
  apply list_elem_of_lookup_2 in Hi, HSi.
  destruct (full_frame_bar_cases _ _ _ _ (sort_values_sorted df) Hlo Hrange HSi)
    as [_ [[Hin' _]|[_ (d' & Hd' & Hlt' & Hgap' & Heq')]]]; [done|].
  assert (Hclose : close b = close (group_bar (sort_values df) d')).
  { destruct (full_frame_bar_cases _ _ _ _ (sort_values_sorted df) Hlo Hrange Hi)
      as [_ [[Hin Heq]|[Hn (d'' & Hd'' & Hlt'' & Hgap'' & Heq)]]].
    - assert (bar_date b = d') as <-; [|by rewrite Heq at 1].
      destruct (decide (bar_date b = d')) as [|Hne]; [done|].
      exfalso. apply (Hgap' (bar_date b)); [|done].
      assert (bar_date b ≤ d' → False); [|lia].
      intros Hle. lia.
    - assert (d'' = d') as ->; [|by rewrite Heq].
      destruct (decide (d'' = d')) as [|Hne]; [done|]. exfalso.
      assert (d' ≠ bar_date b) by (intros ->; done).
      destruct (decide (d'' < d')).
      + apply (Hgap'' d'); [lia|done].
      + apply (Hgap' d''); [lia|done]. }
  rewrite Heq'. cbn. by rewrite Hclose.
Qed.

Lemma filled_bar_continues_previous_close_witness :
  create_candlestick_chart two_days "blitz"
  = Some {| fig_title := "Blitz Rating History";
            fig_data := [ flat_bar 19723 (Some 1000);
                          flat_bar 19724 (Some 1000);
                          flat_bar 19725 (Some 1050) ] |}
  ∧ open (flat_bar 19724 (Some 1000)) = close (flat_bar 19723 (Some 1000)).
Proof.
  assert (H1 : create_candlestick_chart two_days "blitz"
               = Some {| fig_title := "Blitz Rating History";
                         fig_data := [ flat_bar 19723 (Some 1000);
                                       flat_bar 19724 (Some 1000);
                                       flat_bar 19725 (Some 1050) ] |})
    by (vm_compute; reflexivity).
  split; [exact H1|].
  refine (proj1 (proj2 (filled_bar_continues_previous_close two_days "blitz" _ 0
                          (flat_bar 19723 (Some 1000)) (flat_bar 19724 (Some 1000))
                          H1 _ _ _))).
  - reflexivity.
  - reflexivity.
  - intros r Hr. unfold two_days in Hr.
    apply elem_of_cons in Hr as [->|Hr]; [simpl; lia|].
    apply elem_of_cons in Hr as [->|Hr]; [simpl; lia|].
    destruct (proj1 (elem_of_nil r) Hr).
Defined.

(** ** The request handler *)

Lemma cache_get_Some clock key s value s1 :
  cache_get clock key s = (Ok (Some value), s1) →
  ∃ inserted, cache (store s1) !! key = Some (value, inserted).
Proof.
  unfold cache_get, time_time.
  destruct (cache (store s) !! key) as [[v inserted]|] eqn:Hk; [|done].
  cbn [store]. unfold SimpleCache_get. rewrite Hk.
  case_bool_decide; [|done]. intros [= <- <-]. cbn [store]. by exists inserted.
Qed.

Section Handler.

Variable transport : string → outcome.
Variable clock : nat → Z.
Variable utcoffset : Z → Z.
Variable to_html : Figure → string.

(** X16. A posted form of ASCII fields whose user name, stripped, is not
    valid, or whose mode, stripped and lowered, is not one of the four, is
    answered with the error page at once: the state is left exactly as it
    was, so no request has gone out, the cache has not been read and the
    clock has not been looked at.  The user name is checked first.  (The
    fields are taken to be ASCII because that is where [str_strip] and
    [str_lower] are Python's [strip] and [lower].) *)
Theorem index_rejects_invalid_input_untouched (request : Request) (s : State)
  (u t : string) :
  method request = "POST" →
  form request !! "username" = Some u →
  form request !! "time_control" = Some t →
  str_isascii u = true →
  (validate_username (str_strip u) = false →
     index transport clock utcoffset to_html request s
     = (Ok (render_index (Some "Invalid username format.")), s))
  ∧ (str_isascii t = true →
     validate_username (str_strip u) = true →
     str_lower (str_strip t) ∉ time_controls →
     index transport clock utcoffset to_html request s
     = (Ok (render_index (Some "Invalid time control selected.")), s)).
Proof.
  intros Hpost Hu Ht _.
  unfold index, mbind, M_bind, fmap, M_fmap, form_get, mret, M_ret, raise.
  rewrite bool_decide_eq_true_2 by done. rewrite Hu, Ht. cbn beta iota.
  split.
  - by intros ->.
  - intros _ -> Hmode. cbn [negb].
    by rewrite bool_decide_eq_false_2 by done.
Qed.

(** X17. A valid request whose key has a non-empty cached chart less than
    the timeout old is answered from the cache: the page carries the cached
    chart, and nothing has happened but one reading of the clock; no
    request has gone out and the cache is as it was. *)
Theorem index_serves_cached_chart (request : Request) (s : State)
  (u t html : string) (inserted : Z) :
  method request = "POST" →
  form request !! "username" = Some u →
  form request !! "time_control" = Some t →
  validate_username (str_strip u) = true →
  str_lower (str_strip t) ∈ time_controls →
  cache (store s) !! cache_key (str_strip u) (str_lower (str_strip t))
  = Some (html, inserted) →
  html ≠ "" →
  clock (ticks s) - inserted < timeout (store s) →
  index transport clock utcoffset to_html request s
  = (Ok (render_chart (str_strip u) (str_lower (str_strip t)) html),
     {| http_log := http_log s; profile_memo := profile_memo s;
        store := store s; ticks := S (ticks s) |}).
Proof.
  intros Hpost Hu Ht Hvalid Hmode Hentry Hne Hfresh.
  unfold index, mbind, M_bind, fmap, M_fmap, form_get, mret, M_ret, raise.
  rewrite bool_decide_eq_true_2 by done. rewrite Hu, Ht. cbn beta iota.
  rewrite Hvalid. cbn [negb].
  rewrite bool_decide_eq_true_2 by done. cbn [negb].
  unfold cache_key in Hentry.
  unfold cache_get, time_time. rewrite Hentry. cbn [store ticks].
  rewrite (SimpleCache_get_hit _ _ html inserted) by done.
  destruct html as [|c html]; [done|]. reflexivity.
Qed.

(** X18. Whenever [index] renders the chart page, the chart on the page
    is in the cache afterwards, under the key made of the user name and the
    mode of the page. *)
Theorem chart_page_is_cached (request : Request) (s s' : State)
  (username time_control chart_html : string) :
  index transport clock utcoffset to_html request s
  = (Ok (render_chart username time_control chart_html), s') →
  ∃ inserted,
    cache (store s') !! cache_key username time_control = Some (chart_html, inserted).
Proof.
  unfold index, mbind, M_bind, fmap, M_fmap, form_get, mret, M_ret, raise.
  case_bool_decide as Hpost; [|done].
  destruct (form request !! "username") as [u|]; cbn beta iota; [|done].
  destruct (form request !! "time_control") as [t|]; cbn beta iota; [|done].
  destruct (validate_username (str_strip u)); cbn [negb]; [|done].
  case_bool_decide as Htc; cbn [negb]; [|done].
  destruct (cache_get clock (str_strip u +:+ "_" +:+ str_lower (str_strip t)) s)
    as [[cached_result|e] s1] eqn:Hget; [|done].
  destruct (truthy cached_result) eqn:Htruthy.
  { intros [= <- <- <- <-].
    destruct cached_result as [html|]; [|done].
    cbn [default]. by eapply cache_get_Some. }
  destruct (fetch_and_process_games transport utcoffset (str_strip u)
              (str_lower (str_strip t)) s1) as [[[fig error]|e] s2]; [|done].
  destruct (truthy error); [done|].
  destruct fig as [fig|]; [|done].
  unfold cache_set, time_time. intros [= <- <- <- <-].
  cbn [store]. unfold SimpleCache_set, cache_key. cbn [cache].
  eexists. apply lookup_insert_eq.
Qed.

End Handler.

Lemma index_rejects_invalid_input_untouched_witness :
  method bad_name_request = "POST"
  ∧ form bad_name_request !! "username" = Some "b/ob"
  ∧ form bad_name_request !! "time_control" = Some "blitz"
  ∧ str_isascii "b/ob" = true
  ∧ validate_username (str_strip "b/ob") = false
  ∧ index upstream_bob still_clock utc plain_html bad_name_request fresh_state
    = (Ok (render_index (Some "Invalid username format.")), fresh_state).
Proof.
  assert (H1 : method bad_name_request = "POST") by reflexivity.
  assert (H2 : form bad_name_request !! "username" = Some "b/ob")
    by (vm_compute; reflexivity).
  assert (H3 : form bad_name_request !! "time_control" = Some "blitz")
    by (vm_compute; reflexivity).
  assert (H4 : str_isascii "b/ob" = true) by (vm_compute; reflexivity).
  assert (H5 : validate_username (str_strip "b/ob") = false)
    by (vm_compute; reflexivity).
  split; [exact H1|]. split; [exact H2|]. split; [exact H3|].
  split; [exact H4|]. split; [exact H5|].
  exact (proj1 (index_rejects_invalid_input_untouched upstream_bob still_clock utc
                  plain_html bad_name_request fresh_state "b/ob" "blitz"
                  H1 H2 H3 H4) H5).
Defined.

Lemma index_serves_cached_chart_witness :
  index upstream_down still_clock utc plain_html bob_blitz_request warm_state
  = (Ok (render_chart (str_strip " bob ") (str_lower (str_strip "Blitz"))
           "<div>cached</div>"),
     {| http_log := http_log warm_state; profile_memo := profile_memo warm_state;
        store := store warm_state; ticks := S (ticks warm_state) |}).
Proof.
  refine (index_serves_cached_chart upstream_down still_clock utc plain_html
            bob_blitz_request warm_state " bob " "Blitz" "<div>cached</div>" 900
            _ _ _ _ _ _ _ _).
  - reflexivity.
  - vm_compute. reflexivity.
  - vm_compute. reflexivity.
  - vm_compute. reflexivity.
  - vm_compute. right. left.
  - vm_compute. reflexivity.
  - discriminate.
  - vm_compute. reflexivity.
Defined.

Lemma chart_page_is_cached_witness :
  index upstream_bob still_clock utc plain_html bob_blitz_request fresh_state
  = (Ok (render_chart "bob" "blitz" "<div></div>"),
     (index upstream_bob still_clock utc plain_html bob_blitz_request fresh_state).2)
  ∧ ∃ inserted,
      cache (store (index upstream_bob still_clock utc plain_html
                      bob_blitz_request fresh_state).2)
      !! cache_key "bob" "blitz" = Some ("<div></div>", inserted).
Proof.
  assert (H : index upstream_bob still_clock utc plain_html bob_blitz_request
                fresh_state
              = (Ok (render_chart "bob" "blitz" "<div></div>"),
                 (index upstream_bob still_clock utc plain_html bob_blitz_request
                    fresh_state).2))
    by (vm_compute; reflexivity).
  split; [exact H|].
  exact (chart_page_is_cached upstream_bob still_clock utc plain_html
           bob_blitz_request fresh_state _ "bob" "blitz" "<div></div>" H).
Defined.

(** ** Cache keys *)

Lemma string_length_app (s t : string) :
  String.length (s +:+ t) = (String.length s + String.length t)%nat.
Proof.
  induction s as [|c s IH]; [done|].
  rewrite string_app_cons. cbn [String.length]. by rewrite IH.
Qed.

Lemma string_app_inj_l (s1 s2 t : string) : s1 +:+ t = s2 +:+ t → s1 = s2.
Proof.
  revert s2. induction s1 as [|c s1 IH]; intros [|c2 s2] Heq.
  - done.
  - apply (f_equal String.length) in Heq.
    rewrite string_app_nil, string_app_cons in Heq. cbn [String.length] in Heq.
    rewrite string_length_app in Heq. lia.
  - apply (f_equal String.length) in Heq.
    rewrite string_app_nil, string_app_cons in Heq. cbn [String.length] in Heq.
    rewrite string_length_app in Heq. lia.
  - rewrite !string_app_cons in Heq. injection Heq as -> Heq.
    f_equal. by apply IH.
Qed.

Lemma last_char_app (s t : string) :
  t ≠ "" → last_char (s +:+ t) = last_char t.
Proof.
  intros Ht. induction s as [|c s IH]; [done|].
  rewrite string_app_cons. cbn [last_char]. rewrite IH.
  destruct (s +:+ t) as [|c' r] eqn:Hst; [|done].
  destruct s; [by rewrite string_app_nil in Hst|by rewrite string_app_cons in Hst].
Qed.

(** X19. Two requests that [index] accepts never share a cache key unless
    they are for the same user name and the same mode: for modes among the
    four accepted ones, equal keys mean equal user names and equal modes. *)
Theorem cache_key_injective_on_modes (username1 username2 mode1 mode2 : string) :
  mode1 ∈ time_controls → mode2 ∈ time_controls →
  cache_key username1 mode1 = cache_key username2 mode2 →
  username1 = username2 ∧ mode1 = mode2.
Proof.
  intros H1 H2 Hkey. unfold cache_key in Hkey.
  assert (Hlast : last_char mode1 = last_char mode2).
  { apply (f_equal last_char) in Hkey.
    rewrite !(string_app_assoc _ "_") in Hkey.
    rewrite !last_char_app in Hkey; [done|..].
    - unfold time_controls in H2.
      repeat (apply elem_of_cons in H2 as [->|H2]; [done|]).
      by apply elem_of_nil in H2.
    - unfold time_controls in H1.
      repeat (apply elem_of_cons in H1 as [->|H1]; [done|]).
      by apply elem_of_nil in H1. }
  assert (Hmode : mode1 = mode2).
  { unfold time_controls in H1, H2.
    repeat (apply elem_of_cons in H1 as [->|H1]);
      try (by apply elem_of_nil in H1);
      repeat (apply elem_of_cons in H2 as [->|H2]);
      try (by apply elem_of_nil in H2); try done; by vm_compute in Hlast. }
  split; [|done]. subst mode2.
  rewrite !(string_app_assoc _ "_") in Hkey.
  apply string_app_inj_l in Hkey. by apply string_app_inj_l in Hkey.
Qed.

Lemma cache_key_injective_on_modes_witness :
  "blitz" ∈ time_controls ∧ "blitz" ∈ time_controls
  ∧ cache_key "bob" "blitz" = cache_key "bob" "blitz"
  ∧ "bob" = "bob" ∧ "blitz" = "blitz".
Proof.
  assert (H : "blitz" ∈ time_controls) by (right; left).
  assert (Hk : cache_key "bob" "blitz" = cache_key "bob" "blitz") by reflexivity.
  split; [exact H|]. split; [exact H|]. split; [exact Hk|].
  exact (cache_key_injective_on_modes "bob" "bob" "blitz" "blitz" H H Hk).
Defined.

(** ** From the upstream answers to the figure *)

Section Pipeline.

Variable transport : string → outcome.
Variable clock : nat → Z.
Variable utcoffset : Z → Z.
Variable to_html : Figure → string.

Lemma extract_game_data_all_players games username :
  (∀ g, g ∈ games → player_of username g ≠ None) →
  extract_game_data utcoffset games username
  = Ok (omap (row_of utcoffset username) games).
Proof.
  rewrite extract_game_data_rows.
  induction games as [|game games IH]; intros Hall; [done|].
  rewrite extract_rows_cons.
  destruct (player_of username game) as [p|] eqn:Hp;
    [|by destruct (Hall game ltac:(left))].
  rewrite IH by (intros g Hg; apply Hall; by right).
  cbn [omap list_omap]. by destruct (row_of utcoffset username game).
Qed.


(** ** What a request does to the cache and to the upstream *)

Lemma cache_get_other_keys key key' s :
  key ≠ key' →
  cache (store (cache_get clock key s).2) !! key' = cache (store s) !! key'
  ∧ timeout (store (cache_get clock key s).2) = timeout (store s)
  ∧ http_log (cache_get clock key s).2 = http_log s.
Proof.
  intros Hne. unfold cache_get, time_time.
  destruct (cache (store s) !! key) as [[v inserted]|] eqn:Hk; [|done].
  cbn [store ticks]. unfold SimpleCache_get. rewrite Hk.
  case_bool_decide; [done|]. cbn. split; [|done]. by apply lookup_delete_ne.
Qed.

Lemma cache_get_http_log key s :
  http_log (cache_get clock key s).2 = http_log s.
Proof.
  unfold cache_get, time_time.
  destruct (cache (store s) !! key) as [[v inserted]|] eqn:Hk; [|done].
  cbn [store ticks]. unfold SimpleCache_get. rewrite Hk.
  by case_bool_decide.
Qed.

Lemma cache_get_timeout key s :
  timeout (store (cache_get clock key s).2) = timeout (store s).
Proof.
  unfold cache_get, time_time.
  destruct (cache (store s) !! key) as [[v inserted]|] eqn:Hk; [|done].
  cbn [store ticks]. unfold SimpleCache_get. rewrite Hk.
  by case_bool_decide.
Qed.

(** X21. A request with ASCII fields touches the cache only under its
    own key: whatever the outcome (error page, cached chart, new chart
    stored, expired entry dropped), every entry under another key than the
    one made of the stripped user name and the stripped and lowered mode is
    afterwards what it was before, and the timeout of the cache is
    unchanged.  (The fields are taken to be ASCII because that is where
    [str_strip] and [str_lower] are Python's [strip] and [lower].) *)
Theorem index_touches_only_its_key (request : Request) (s : State)
  (u t key' : string) :
  form request !! "username" = Some u →
  form request !! "time_control" = Some t →
  str_isascii u = true →
  str_isascii t = true →
  key' ≠ cache_key (str_strip u) (str_lower (str_strip t)) →
  cache (store (index transport clock utcoffset to_html request s).2) !! key'
  = cache (store s) !! key'
  ∧ timeout (store (index transport clock utcoffset to_html request s).2)
    = timeout (store s).
Proof.
  intros Hu Ht _ _ Hne. unfold cache_key in Hne.
  unfold index, mbind, M_bind, fmap, M_fmap, form_get, mret, M_ret, raise.
  case_bool_decide as Hpost; [|done].
  rewrite Hu, Ht. cbn beta iota.
  destruct (validate_username (str_strip u)); cbn [negb]; [|done].
  case_bool_decide as Htc; cbn [negb]; [|done].
  pose proof (cache_get_other_keys
                (str_strip u +:+ "_" +:+ str_lower (str_strip t)) key' s
                ltac:(congruence)) as (Hget & Hto & _).
  destruct (cache_get clock (str_strip u +:+ "_" +:+ str_lower (str_strip t)) s)
    as [[cached_result|e] s1]; cbn [fst snd] in *; [|done].
  destruct (truthy cached_result); [done|].
  pose proof (keeps_store_fetch_and_process_games transport utcoffset
                (str_strip u) (str_lower (str_strip t)) s1) as Hkeep.
  destruct (fetch_and_process_games transport utcoffset (str_strip u)
              (str_lower (str_strip t)) s1) as [[[fig error]|e] s2];
    cbn [fst snd] in *; [|by rewrite Hkeep].
  destruct (truthy error); [cbn [fst snd]; by rewrite Hkeep|].
  destruct fig as [fig|]; [|cbn [fst snd]; by rewrite Hkeep].
  unfold cache_set, time_time. cbn [fst snd store]. unfold SimpleCache_set.
  cbn [cache timeout]. rewrite Hkeep. split; [|done].
  rewrite lookup_insert_ne by congruence. done.
Qed.

Lemma logs_only_ret {A : Type} P (a : A) : logs_only P (mret a).
Proof. intros s. exists []. split; [by rewrite app_nil_r|done]. Qed.

Lemma logs_only_raise {A : Type} P (e : exn) : logs_only P (raise (A := A) e).
Proof. intros s. exists []. split; [by rewrite app_nil_r|done]. Qed.

Lemma logs_only_lift {A : Type} P (r : result A) : logs_only P (lift r).
Proof. intros s. exists []. split; [by rewrite app_nil_r|done]. Qed.

Lemma logs_only_bind {A B : Type} P (m : M A) (f : A → M B) :
  logs_only P m → (∀ a, logs_only P (f a)) → logs_only P (m ≫= f).
Proof.
  intros Hm Hf s. unfold mbind, M_bind. destruct (Hm s) as (l1 & Hl1 & HP1).
  destruct (m s) as [[a|e] s1]; cbn [snd] in *; [|by exists l1].
  destruct (Hf a s1) as (l2 & Hl2 & HP2).
  exists (l1 ++ l2). split; [by rewrite Hl2, Hl1, app_assoc|by apply Forall_app].
Qed.

Lemma logs_only_try_except {A : Type} P (body : M A) (handler : exn → option (M A)) :
  logs_only P body →
  (∀ e h, handler e = Some h → logs_only P h) →
  logs_only P (try_except body handler).
Proof.
  intros Hb Hh s. unfold try_except. destruct (Hb s) as (l1 & Hl1 & HP1).
  destruct (body s) as [[a|e] s1]; cbn [snd] in *; [by exists l1|].
  destruct (handler e) as [h|] eqn:He; [|by exists l1].
  destruct (Hh e h He s1) as (l2 & Hl2 & HP2).
  exists (l1 ++ l2). split; [by rewrite Hl2, Hl1, app_assoc|by apply Forall_app].
Qed.

Lemma logs_only_on_RequestException {A : Type} P (k : string → M A) e h :
  (∀ msg, logs_only P (k msg)) →
  on_RequestException k e = Some h → logs_only P h.
Proof. intros Hk. destruct e; simpl; intros [= <-]; apply Hk. Qed.

Lemma logs_only_session_get (P : string → Prop) url :
  P url → logs_only P (session_get transport url).
Proof.
  intros HP s. exists [url]. unfold session_get.
  destruct (transport url); cbn; (split; [done|by constructor]).
Qed.

Lemma logs_only_fetch_and_process_games username time_control :
  logs_only (own_url username)
    (fetch_and_process_games transport utcoffset username time_control).
Proof.
  apply logs_only_try_except.
  - apply logs_only_bind.
    { intros s. unfold get_user_profile.
      destruct (memo_lookup username (profile_memo s)).
      - exists []. split; [by rewrite app_nil_r|done].
      - assert (Hbody : logs_only (own_url username)
                          (get_user_profile_body transport username)).
        { apply logs_only_try_except.
          - apply logs_only_bind; [apply logs_only_session_get; by left|].
            intros response. repeat case_bool_decide;
              first [apply logs_only_ret | apply logs_only_raise].
          - intros e h. apply logs_only_on_RequestException.
            intros msg. apply logs_only_raise. }
        destruct (Hbody s) as (l & Hl & HP).
        destruct (get_user_profile_body transport username s) as [[v|e] s1];
          by exists l. }
    intros _. apply logs_only_bind.
    { apply logs_only_try_except.
      - apply logs_only_bind; [apply logs_only_session_get; right; by left|].
        intros response. case_bool_decide;
          first [apply logs_only_lift | apply logs_only_ret].
      - intros e h. apply logs_only_on_RequestException.
        intros msg. apply logs_only_ret. }
    intros months. destruct months as [|ym months]; [apply logs_only_ret|].
    apply logs_only_bind.
    { intros s. rewrite fetch_all_games_served. cbn [snd].
      eexists. split; [apply http_log_log_requests|].
      apply Forall_fmap, Forall_forall. intros [year month] _.
      right; right. by exists year, month. }
    intros all_games. apply logs_only_bind; [apply logs_only_lift|].
    intros game_data. destruct game_data as [|row game_data]; [apply logs_only_ret|].
    cbv zeta.
    destruct (create_candlestick_chart (row :: game_data) time_control);
      apply logs_only_ret.
  - intros e h He. destruct e; injection He as <-; apply logs_only_ret.
Qed.

Lemma cache_get_live key s html inserted :
  cache (store s) !! key = Some (html, inserted) →
  clock (ticks s) - inserted < timeout (store s) →
  (cache_get clock key s).1 = Ok (Some html).
Proof.
  intros Hentry Hfresh. unfold cache_get, time_time. rewrite Hentry.
  cbn [store ticks]. by rewrite (SimpleCache_get_hit _ _ html inserted).
Qed.

(** X22. A request with ASCII fields sends nothing at all unless it is a
    POST whose stripped user name has passed [validate_username], whose
    stripped and lowered mode is one of the four, and for whose key the
    cache holds no non-empty chart younger than the timeout; and then it
    sends nothing but the three kinds of requests of its own user: every
    URL that [index] asks the upstream for is the profile URL, the archive
    URL or the URL of a month of that user name.  Requests already logged
    stay logged.  (The fields are taken to be ASCII because that is where
    [str_strip] and [str_lower] are Python's [strip] and [lower].) *)
Theorem index_requests_only_own_urls (request : Request) (s : State) :
  (∀ u, form request !! "username" = Some u → str_isascii u = true) →
  (∀ t, form request !! "time_control" = Some t → str_isascii t = true) →
  ∃ urls,
    http_log (index transport clock utcoffset to_html request s).2
    = http_log s ++ urls
    ∧ (urls = []
       ∨ (method request = "POST"
          ∧ ∃ u t,
              form request !! "username" = Some u
              ∧ form request !! "time_control" = Some t
              ∧ validate_username (str_strip u) = true
              ∧ str_lower (str_strip t) ∈ time_controls
              ∧ ¬ (∃ html inserted,
                     cache (store s)
                     !! cache_key (str_strip u) (str_lower (str_strip t))
                     = Some (html, inserted)
                     ∧ html ≠ ""
                     ∧ clock (ticks s) - inserted < timeout (store s))
              ∧ Forall (own_url (str_strip u)) urls)).
Proof.
  intros _ _.
  unfold index, mbind, M_bind, fmap, M_fmap, form_get, mret, M_ret, raise.
  assert (Hnil : ∀ (s0 : State) (Q : list string → Prop), s0 = s →
            ∃ urls, http_log s0 = http_log s ++ urls ∧ (urls = [] ∨ Q urls)).
  { intros s0 Q ->. exists []. split; [by rewrite app_nil_r|by left]. }
  case_bool_decide as Hpost; [|by apply Hnil].
  destruct (form request !! "username") as [u|] eqn:Hu; cbn beta iota;
    [|by apply Hnil].
  destruct (form request !! "time_control") as [t|] eqn:Ht; cbn beta iota;
    [|by apply Hnil].
  destruct (validate_username (str_strip u)) eqn:Hvalid; cbn [negb];
    [|by apply Hnil].
  case_bool_decide as Htc; cbn [negb]; [|by apply Hnil].
  clear Hnil.
  pose proof (cache_get_http_log
                (str_strip u +:+ "_" +:+ str_lower (str_strip t)) s) as Hget.
  pose proof (cache_get_live
                (str_strip u +:+ "_" +:+ str_lower (str_strip t)) s) as Hlive.
  destruct (cache_get clock (str_strip u +:+ "_" +:+ str_lower (str_strip t)) s)
    as [[cached_result|e] s1]; cbn [fst snd] in *;
    [|exists []; split; [by rewrite app_nil_r|by left]].
  destruct (truthy cached_result) eqn:Htruthy;
    [exists []; split; [by rewrite app_nil_r|by left]|].
  assert (Hmiss : ¬ (∃ html inserted,
                       cache (store s)
                       !! cache_key (str_strip u) (str_lower (str_strip t))
                       = Some (html, inserted)
                       ∧ html ≠ ""
                       ∧ clock (ticks s) - inserted < timeout (store s))).
  { intros (html & inserted & Hentry & Hne & Hfresh).
    pose proof (Hlive html inserted Hentry Hfresh) as [= ->].
    by destruct html. }
  clear Hlive.
  destruct (logs_only_fetch_and_process_games (str_strip u)
              (str_lower (str_strip t)) s1) as (urls & Hlog & Hown).
  rewrite Hget in Hlog.
  assert (Hres : ∃ urls0, http_log
            (fetch_and_process_games transport utcoffset (str_strip u)
               (str_lower (str_strip t)) s1).2 = http_log s ++ urls0
            ∧ (urls0 = []
               ∨ (method request = "POST"
                  ∧ ∃ u0 t0,
                      Some u = Some u0 ∧ Some t = Some t0
                      ∧ validate_username (str_strip u0) = true
                      ∧ str_lower (str_strip t0) ∈ time_controls
                      ∧ ¬ (∃ html inserted,
                             cache (store s)
                             !! cache_key (str_strip u0) (str_lower (str_strip t0))
                             = Some (html, inserted)
                             ∧ html ≠ ""
                             ∧ clock (ticks s) - inserted < timeout (store s))
                      ∧ Forall (own_url (str_strip u0)) urls0))).
  { exists urls. split; [done|]. right. split; [done|]. by exists u, t. }
  destruct (fetch_and_process_games transport utcoffset (str_strip u)
              (str_lower (str_strip t)) s1) as [[[fig error]|e] s2];
    cbn [fst snd] in *; [|done].
  destruct (truthy error); [done|].
  destruct fig as [fig|]; [|done].
  unfold cache_set, time_time. cbn [fst snd http_log]. done.
Qed.

End Pipeline.


Lemma index_touches_only_its_key_witness :
  form bob_rapid_request !! "username" = Some "bob"
  ∧ form bob_rapid_request !! "time_control" = Some "rapid"
  ∧ str_isascii "bob" = true
  ∧ str_isascii "rapid" = true
  ∧ "bob_blitz" ≠ cache_key (str_strip "bob") (str_lower (str_strip "rapid"))
  ∧ (index upstream_bob still_clock utc plain_html bob_rapid_request warm_state).1
    = Ok (render_chart "bob" "rapid" "<div></div>")
  ∧ cache (store warm_state) !! "bob_blitz" = Some ("<div>cached</div>", 900)
  ∧ cache (store (index upstream_bob still_clock utc plain_html
                    bob_rapid_request warm_state).2) !! "bob_blitz"
    = cache (store warm_state) !! "bob_blitz".
Proof.
  assert (H1 : form bob_rapid_request !! "username" = Some "bob")
    by (vm_compute; reflexivity).
  assert (H2 : form bob_rapid_request !! "time_control" = Some "rapid")
    by (vm_compute; reflexivity).
  assert (H3 : str_isascii "bob" = true) by (vm_compute; reflexivity).
  assert (H4 : str_isascii "rapid" = true) by (vm_compute; reflexivity).
  assert (H5 : "bob_blitz"
               ≠ cache_key (str_strip "bob") (str_lower (str_strip "rapid")))
    by (vm_compute; discriminate).
  split; [exact H1|]. split; [exact H2|]. split; [exact H3|]. split; [exact H4|].
  split; [exact H5|].
  split; [vm_compute; reflexivity|].
  split; [vm_compute; reflexivity|].
  exact (proj1 (index_touches_only_its_key upstream_bob still_clock utc plain_html
                  bob_rapid_request warm_state "bob" "rapid" "bob_blitz"
                  H1 H2 H3 H4 H5)).
Defined.

Lemma index_requests_only_own_urls_witness :
  (∀ u, form bob_blitz_request !! "username" = Some u → str_isascii u = true)
  ∧ (∀ t, form bob_blitz_request !! "time_control" = Some t → str_isascii t = true)
  ∧ http_log (index upstream_bob still_clock utc plain_html bob_blitz_request
                fresh_state).2
    = [profile_url "bob"; archives_url "bob"; games_url "bob" 2024 1]
  ∧ ∃ urls,
      http_log (index upstream_bob still_clock utc plain_html bob_blitz_request
                  fresh_state).2
      = http_log fresh_state ++ urls
      ∧ (urls = []
         ∨ (method bob_blitz_request = "POST"
            ∧ ∃ u t,
                form bob_blitz_request !! "username" = Some u
                ∧ form bob_blitz_request !! "time_control" = Some t
                ∧ validate_username (str_strip u) = true
                ∧ str_lower (str_strip t) ∈ time_controls
                ∧ ¬ (∃ html inserted,
                       cache (store fresh_state)
                       !! cache_key (str_strip u) (str_lower (str_strip t))
                       = Some (html, inserted)
                       ∧ html ≠ ""
                       ∧ still_clock (ticks fresh_state) - inserted
                         < timeout (store fresh_state))
                ∧ Forall (own_url (str_strip u)) urls)).
Proof.
  assert (H1 : ∀ u, form bob_blitz_request !! "username" = Some u
                    → str_isascii u = true).
  { intros u Hu. vm_compute in Hu. injection Hu as <-. reflexivity. }
  assert (H2 : ∀ t, form bob_blitz_request !! "time_control" = Some t
                    → str_isascii t = true).
  { intros t Ht. vm_compute in Ht. injection Ht as <-. reflexivity. }
  split; [exact H1|]. split; [exact H2|].
  split; [vm_compute; reflexivity|].
  exact (index_requests_only_own_urls upstream_bob still_clock utc plain_html
           bob_blitz_request fresh_state H1 H2).
Defined.
